(** * Audio classification notebook (M5 on Speech Commands)

    A shallow embedding of
    [python/07-audio-classification-n-generation/01-audio-classification.ipynb].

    Tensors are nested lists of real numbers (the floating-point values of the
    framework are idealised as reals); a Python exception is a [Raise] in the
    [result] monad; the framework calls whose numerics no property below
    depends on (the loss criterion, the optimiser step, the resampler, the
    random permutations) are the fields of the [Framework] interface. *)

From Stdlib Require Import String.
From Stdlib Require Import List Arith ZArith QArith Qround Reals Lra Lia Bool Permutation.
Import ListNotations.

Local Open Scope nat_scope.

(* ================================================================== *)
(** * Exceptions *)

Inductive exn : Type :=
| RuntimeError
| ValueError
| ZeroDivisionError
| NameError
| IndexError
| FileNotFoundError.

Inductive result (A : Type) : Type :=
| Ok (a : A)
| Raise (e : exn).

Arguments Ok {A} a.
Arguments Raise {A} e.

Definition bind {A B : Type} (r : result A) (k : A -> result B) : result B :=
  match r with
  | Ok a => k a
  | Raise e => Raise e
  end.

Notation "x <- c ;; k" := (bind c (fun x => k))
  (at level 61, c at next level, right associativity).
Notation "' p <- c ;; k" := (bind c (fun x => match x with p => k end))
  (at level 61, p pattern, c at next level, right associativity).

Definition succeeds {A : Type} (r : result A) : Prop := exists a, r = Ok a.
Definition raises {A : Type} (r : result A) : Prop := exists e, r = Raise e.

(** [for x in xs: body] over an accumulator, stopping at the first exception. *)
Fixpoint for_each {A S : Type} (body : S -> A -> result S) (xs : list A) (s : S)
  : result S :=
  match xs with
  | [] => Ok s
  | x :: rest => s' <- body s x ;; for_each body rest s'
  end.

(* ================================================================== *)
(** * Tensors *)

(** [tensor2] is a waveform, shape (channels, time); [tensor3] is a batch,
    shape (batch, channels, time). *)
Abbreviation tensor1 := (list R) (only parsing).
Abbreviation tensor2 := (list (list R)) (only parsing).
Abbreviation tensor3 := (list (list (list R))) (only parsing).

(** [w.size(1)] of a 2-D tensor and [x.shape[1]], [x.shape[2]] of a 3-D one.
    A tensor with an empty outer dimension is the empty list. *)
Definition size1 (w : tensor2) : nat := length (hd [] w).
Definition shape1 (x : tensor3) : nat := length (hd [] x).
Definition shape2 (x : tensor3) : nat := size1 (hd [] x).

Definition has_shape2 (C L : nat) (w : tensor2) : Prop :=
  length w = C /\ Forall (fun ch => length ch = L) w.

Definition has_shape (B C L : nat) (x : tensor3) : Prop :=
  length x = B /\ Forall (has_shape2 C L) x.

Definition Rsum (l : list R) : R := fold_right Rplus 0%R l.

Definition dot (u v : list R) : R :=
  Rsum (map (fun p => (fst p * snd p)%R) (combine u v)).

Definition Rmax_list (l : list R) : R :=
  match l with
  | [] => 0%R
  | a :: rest => fold_left Rmax rest a
  end.

Definition mean (l : list R) : R := (Rsum l / INR (length l))%R.

(** The [t]-th window of [k] samples, windows [s] apart. *)
Definition window (s k t : nat) (ch : list R) : list R :=
  firstn k (skipn (t * s) ch).

(* ================================================================== *)
(** * Framework modules used by the notebook *)

(** ** [nn.Conv1d] (no padding, no dilation) *)

Record Conv1d : Type := {
  in_channels : nat;
  out_channels : nat;
  kernel_size : nat;
  stride : nat;
  conv_weight : list (list (list R));   (* out_channels x in_channels x kernel_size *)
  conv_bias : list R                    (* out_channels *)
}.

(** The output length [floor((L - k) / s) + 1] of a window of [k] samples
    moved in steps of [s] over [L] samples; no window fits a shorter input. *)
Definition conv_out_len (k s L : nat) : nat :=
  if L <? k then 0 else (L - k) / s + 1.

Definition conv_at (c : Conv1d) (w : list (list R)) (b : R) (x : tensor2) (t : nat) : R :=
  (b + Rsum (map (fun p => dot (fst p) (window (stride c) (kernel_size c) t (snd p)))
                 (combine w x)))%R.

Definition conv1d_sample (c : Conv1d) (Lout : nat) (x : tensor2) : tensor2 :=
  map (fun p => map (conv_at c (fst p) (snd p) x) (seq 0 Lout))
      (combine (conv_weight c) (conv_bias c)).

Definition Conv1d_forward (c : Conv1d) (x : tensor3) : result tensor3 :=
  if negb (shape1 x =? in_channels c) then Raise RuntimeError
  else if stride c =? 0 then Raise RuntimeError
  else if shape2 x <? kernel_size c then Raise RuntimeError
  else Ok (map (conv1d_sample c (conv_out_len (kernel_size c) (stride c) (shape2 x))) x).

(** ** [nn.BatchNorm1d] (eps = 1e-5, momentum = 0.1, affine, tracking running statistics) *)

Record BatchNorm1d : Type := {
  num_features : nat;
  bn_weight : list R;
  bn_bias : list R;
  running_mean : list R;
  running_var : list R;
  num_batches_tracked : nat
}.

Definition bn_eps : R := (1 / 100000)%R.
Definition bn_momentum : R := (1 / 10)%R.

(** All the values of channel [c] over the batch and time dimensions. *)
Definition channel_values (x : tensor3) (c : nat) : list R :=
  flat_map (fun s => nth c s []) x.

Definition sq_dev (l : list R) : R :=
  Rsum (map (fun v => ((v - mean l) * (v - mean l))%R) l).

Definition batch_mean (x : tensor3) (c : nat) : R := mean (channel_values x c).
Definition batch_var (x : tensor3) (c : nat) : R :=
  (sq_dev (channel_values x c) / INR (length (channel_values x c)))%R.
Definition batch_var_unbiased (x : tensor3) (c : nat) : R :=
  (sq_dev (channel_values x c) / INR (length (channel_values x c) - 1))%R.

Definition bn_affine (mu var w b v : R) : R :=
  ((v - mu) / sqrt (var + bn_eps) * w + b)%R.

(** Normalise every channel with the given per-channel means and variances. *)
Definition bn_normalize (bn : BatchNorm1d) (mus vars : list R) (x : tensor3) : tensor3 :=
  map (fun s =>
         map (fun p =>
                let '(ch, (mu, (var, (w, b)))) := p in
                map (bn_affine mu var w b) ch)
             (combine s (combine mus (combine vars (combine (bn_weight bn) (bn_bias bn))))))
      x.

Definition ema (old new : R) : R := ((1 - bn_momentum) * old + bn_momentum * new)%R.

Definition bn_track (bn : BatchNorm1d) (x : tensor3) : BatchNorm1d :=
  let cs := seq 0 (num_features bn) in
  {| num_features := num_features bn;
     bn_weight := bn_weight bn;
     bn_bias := bn_bias bn;
     running_mean :=
       map (fun p => ema (fst p) (batch_mean x (snd p))) (combine (running_mean bn) cs);
     running_var :=
       map (fun p => ema (fst p) (batch_var_unbiased x (snd p))) (combine (running_var bn) cs);
     num_batches_tracked := S (num_batches_tracked bn) |}.

(** In training mode the batch statistics normalise the input and the running
    statistics are updated; in evaluation mode the running statistics
    normalise the input and the module is left as it is. *)
Definition BatchNorm1d_forward (training : bool) (bn : BatchNorm1d) (x : tensor3)
  : result (tensor3 * BatchNorm1d) :=
  if negb (shape1 x =? num_features bn) then Raise RuntimeError
  else if training then
    if length x * shape2 x =? 1 then Raise ValueError
    else
      let cs := seq 0 (num_features bn) in
      Ok (bn_normalize bn (map (batch_mean x) cs) (map (batch_var x) cs) x, bn_track bn x)
  else Ok (bn_normalize bn (running_mean bn) (running_var bn) x, bn).

(** ** [F.relu] *)

Definition relu (x : tensor3) : tensor3 := map (map (map (Rmax 0))) x.

(** ** [nn.MaxPool1d(k)] (stride = kernel size, no padding) *)

Record MaxPool1d : Type := { pool_kernel_size : nat }.

Definition pool_out_len (k L : nat) : nat := conv_out_len k k L.

Definition MaxPool1d_forward (p : MaxPool1d) (x : tensor3) : result tensor3 :=
  let k := pool_kernel_size p in
  if (k =? 0) || (shape2 x <? k) then Raise RuntimeError
  else Ok (map (map (fun ch => map (fun t => Rmax_list (window k k t ch))
                                    (seq 0 (pool_out_len k (shape2 x))))) x).

(** ** [F.avg_pool1d(x, k)] (stride = kernel size, no padding) *)

Definition avg_pool1d (x : tensor3) (k : nat) : result tensor3 :=
  if (k =? 0) || (shape2 x <? k) then Raise RuntimeError
  else Ok (map (map (fun ch => map (fun t => mean (window k k t ch))
                                    (seq 0 (pool_out_len k (shape2 x))))) x).

(** ** [x.permute(0, 2, 1)] *)

Definition transpose (w : tensor2) : tensor2 :=
  map (fun t => map (fun ch => nth t ch 0%R) w) (seq 0 (size1 w)).

Definition permute_0_2_1 (x : tensor3) : tensor3 := map transpose x.

(** ** [nn.Linear], applied to the last dimension *)

Record Linear : Type := {
  in_features : nat;
  out_features : nat;
  fc_weight : list (list R);   (* out_features x in_features *)
  fc_bias : list R             (* out_features *)
}.

Definition linear_row (l : Linear) (row : list R) : list R :=
  map (fun p => (dot (fst p) row + snd p)%R) (combine (fc_weight l) (fc_bias l)).

Definition Linear_forward (l : Linear) (x : tensor3) : result tensor3 :=
  if negb (shape2 x =? in_features l) then Raise RuntimeError
  else Ok (map (map (linear_row l)) x).

(** ** [F.log_softmax(x, dim=2)] *)

Definition log_softmax_row (row : list R) : list R :=
  map (fun v => (v - ln (Rsum (map exp row)))%R) row.

Definition log_softmax (x : tensor3) : tensor3 := map (map log_softmax_row) x.

(** ** [tensor.argmax(dim=-1)]: the index of the first maximal value *)

Fixpoint argmax_from (best_i : nat) (best : R) (i : nat) (l : list R) : nat :=
  match l with
  | [] => best_i
  | v :: rest =>
      if Rlt_dec best v then argmax_from i v (S i) rest
      else argmax_from best_i best (S i) rest
  end.

Definition argmax_row (row : list R) : result nat :=
  match row with
  | [] => Raise IndexError
  | v :: rest => Ok (argmax_from 0 v 1 rest)
  end.

Fixpoint mapM {A B : Type} (f : A -> result B) (l : list A) : result (list B) :=
  match l with
  | [] => Ok []
  | a :: rest => b <- f a ;; bs <- mapM f rest ;; Ok (b :: bs)
  end.

Definition argmax (x : tensor3) : result (list (list nat)) :=
  mapM (mapM argmax_row) x.

(* ================================================================== *)
(** * The model: [class M5(nn.Module)] *)

Record M5 : Type := {
  conv1 : Conv1d;
  bn1 : BatchNorm1d;
  pool1 : MaxPool1d;
  conv2 : Conv1d;
  bn2 : BatchNorm1d;
  pool2 : MaxPool1d;
  conv3 : Conv1d;
  bn3 : BatchNorm1d;
  pool3 : MaxPool1d;
  conv4 : Conv1d;
  bn4 : BatchNorm1d;
  pool4 : MaxPool1d;
  fc1 : Linear;
  training : bool
}.

(** The randomly initialised entries of a fresh module are drawn by [init]:
    [init t i j k] is entry [(i, j, k)] of the [t]-th tensor. *)
Definition initializer := nat -> nat -> nat -> nat -> R.

Definition init3 (f : nat -> nat -> nat -> R) (a b c : nat) : list (list (list R)) :=
  map (fun i => map (fun j => map (f i j) (seq 0 c)) (seq 0 b)) (seq 0 a).

Definition new_Conv1d (init : initializer) (t cin cout k s : nat) : Conv1d :=
  {| in_channels := cin; out_channels := cout; kernel_size := k; stride := s;
     conv_weight := init3 (init t) cout cin k;
     conv_bias := map (fun i => init (S t) i 0 0) (seq 0 cout) |}.

Definition new_BatchNorm1d (n : nat) : BatchNorm1d :=
  {| num_features := n;
     bn_weight := repeat 1%R n; bn_bias := repeat 0%R n;
     running_mean := repeat 0%R n; running_var := repeat 1%R n;
     num_batches_tracked := 0 |}.

Definition new_Linear (init : initializer) (t fin fout : nat) : Linear :=
  {| in_features := fin; out_features := fout;
     fc_weight := map (fun i => map (fun j => init t i j 0) (seq 0 fin)) (seq 0 fout);
     fc_bias := map (fun i => init (S t) i 0 0) (seq 0 fout) |}.

(** [M5.__init__(self, n_input=1, n_output=35, stride=16, n_channel=32)];
    a fresh module is in training mode. *)
Definition M5_init (init : initializer) (n_input n_output stride n_channel : nat) : M5 :=
  {| conv1 := new_Conv1d init 0 n_input n_channel 80 stride;
     bn1 := new_BatchNorm1d n_channel;
     pool1 := {| pool_kernel_size := 4 |};
     conv2 := new_Conv1d init 2 n_channel n_channel 3 1;
     bn2 := new_BatchNorm1d n_channel;
     pool2 := {| pool_kernel_size := 4 |};
     conv3 := new_Conv1d init 4 n_channel (2 * n_channel) 3 1;
     bn3 := new_BatchNorm1d (2 * n_channel);
     pool3 := {| pool_kernel_size := 4 |};
     conv4 := new_Conv1d init 6 (2 * n_channel) (2 * n_channel) 3 1;
     bn4 := new_BatchNorm1d (2 * n_channel);
     pool4 := {| pool_kernel_size := 4 |};
     fc1 := new_Linear init 8 (2 * n_channel) n_output;
     training := true |}.

(** [M5.forward(self, x)], statement by statement.  The batch-norm modules
    are updated in place by the call, so the model is returned with the
    output. *)
Definition forward (m : M5) (x : tensor3) : result (tensor3 * M5) :=
  x <- Conv1d_forward (conv1 m) x ;;
  ' (x, bn1') <- BatchNorm1d_forward (training m) (bn1 m) x ;;
  let x := relu x in
  x <- MaxPool1d_forward (pool1 m) x ;;
  x <- Conv1d_forward (conv2 m) x ;;
  ' (x, bn2') <- BatchNorm1d_forward (training m) (bn2 m) x ;;
  let x := relu x in
  x <- MaxPool1d_forward (pool2 m) x ;;
  x <- Conv1d_forward (conv3 m) x ;;
  ' (x, bn3') <- BatchNorm1d_forward (training m) (bn3 m) x ;;
  let x := relu x in
  x <- MaxPool1d_forward (pool3 m) x ;;
  x <- Conv1d_forward (conv4 m) x ;;
  ' (x, bn4') <- BatchNorm1d_forward (training m) (bn4 m) x ;;
  let x := relu x in
  x <- MaxPool1d_forward (pool4 m) x ;;
  x <- avg_pool1d x (shape2 x) ;;
  let x := permute_0_2_1 x in
  x <- Linear_forward (fc1 m) x ;;
  Ok (log_softmax x,
      {| conv1 := conv1 m; bn1 := bn1'; pool1 := pool1 m;
         conv2 := conv2 m; bn2 := bn2'; pool2 := pool2 m;
         conv3 := conv3 m; bn3 := bn3'; pool3 := pool3 m;
         conv4 := conv4 m; bn4 := bn4'; pool4 := pool4 m;
         fc1 := fc1 m; training := training m |}).

(** ** The architecture as the specification words it

    One stage is a convolution, then batch normalisation, then ReLU, then
    max-pooling; the head is a global average pool over time, one linear
    layer and a log-softmax over the classes. *)
Definition stage (training : bool) (conv : Conv1d) (bn : BatchNorm1d) (pool : MaxPool1d)
    (x : tensor3) : result (tensor3 * BatchNorm1d) :=
  x <- Conv1d_forward conv x ;;
  ' (x, bn') <- BatchNorm1d_forward training bn x ;;
  x <- MaxPool1d_forward pool (relu x) ;;
  Ok (x, bn').

Definition classifier_head (fc : Linear) (x : tensor3) : result tensor3 :=
  x <- avg_pool1d x (shape2 x) ;;
  x <- Linear_forward fc (permute_0_2_1 x) ;;
  Ok (log_softmax x).

Definition M5_spec_forward (m : M5) (x : tensor3) : result (tensor3 * M5) :=
  ' (x, bn1') <- stage (training m) (conv1 m) (bn1 m) (pool1 m) x ;;
  ' (x, bn2') <- stage (training m) (conv2 m) (bn2 m) (pool2 m) x ;;
  ' (x, bn3') <- stage (training m) (conv3 m) (bn3 m) (pool3 m) x ;;
  ' (x, bn4') <- stage (training m) (conv4 m) (bn4 m) (pool4 m) x ;;
  y <- classifier_head (fc1 m) x ;;
  Ok (y,
      {| conv1 := conv1 m; bn1 := bn1'; pool1 := pool1 m;
         conv2 := conv2 m; bn2 := bn2'; pool2 := pool2 m;
         conv3 := conv3 m; bn3 := bn3'; pool3 := pool3 m;
         conv4 := conv4 m; bn4 := bn4'; pool4 := pool4 m;
         fc1 := fc1 m; training := training m |}).

(** The channel width each stage produces. *)
Definition stage_widths (m : M5) : list nat :=
  [out_channels (conv1 m); out_channels (conv2 m);
   out_channels (conv3 m); out_channels (conv4 m)].

Fixpoint increasing (l : list nat) : Prop :=
  match l with
  | a :: (b :: _) as rest => a < b /\ increasing rest
  | _ => True
  end.

Fixpoint nondecreasing (l : list nat) : Prop :=
  match l with
  | a :: (b :: _) as rest => a <= b /\ nondecreasing rest
  | _ => True
  end.

(** The time lengths the nine windowed operations of [forward] receive (the
    four convolutions, the four max-pools and the final average pool), by the
    output-length formulas of the modules, and the kernel size of each. *)
Definition stage_input_lengths (stride L : nat) : list nat :=
  let c1 := conv_out_len 80 stride L in
  let p1 := pool_out_len 4 c1 in
  let c2 := conv_out_len 3 1 p1 in
  let p2 := pool_out_len 4 c2 in
  let c3 := conv_out_len 3 1 p2 in
  let p3 := pool_out_len 4 c3 in
  let c4 := conv_out_len 3 1 p3 in
  let p4 := pool_out_len 4 c4 in
  [L; c1; p1; c2; p2; c3; p3; c4; p4].

Definition stage_kernels : list nat := [80; 4; 3; 4; 3; 4; 3; 4; 1].

(** [model.train()] and [model.eval()]. *)
Definition set_training (b : bool) (m : M5) : M5 :=
  {| conv1 := conv1 m; bn1 := bn1 m; pool1 := pool1 m;
     conv2 := conv2 m; bn2 := bn2 m; pool2 := pool2 m;
     conv3 := conv3 m; bn3 := bn3 m; pool3 := pool3 m;
     conv4 := conv4 m; bn4 := bn4 m; pool4 := pool4 m;
     fc1 := fc1 m; training := b |}.

Definition model_train : M5 -> M5 := set_training true.
Definition model_eval : M5 -> M5 := set_training false.

(** [model.state_dict()]: every parameter and every buffer (the batch-norm
    running statistics and batch counters), without the training flag. *)
Definition bn_state : Type := (list R * list R * list R * list R * nat)%type.

Definition bn_state_of (b : BatchNorm1d) : bn_state :=
  (bn_weight b, bn_bias b, running_mean b, running_var b, num_batches_tracked b).

Record StateDict : Type := {
  sd_conv1 : list (list (list R)) * list R;
  sd_bn1 : bn_state;
  sd_conv2 : list (list (list R)) * list R;
  sd_bn2 : bn_state;
  sd_conv3 : list (list (list R)) * list R;
  sd_bn3 : bn_state;
  sd_conv4 : list (list (list R)) * list R;
  sd_bn4 : bn_state;
  sd_fc1 : list (list R) * list R
}.

Definition state_dict (m : M5) : StateDict :=
  {| sd_conv1 := (conv_weight (conv1 m), conv_bias (conv1 m));
     sd_bn1 := bn_state_of (bn1 m);
     sd_conv2 := (conv_weight (conv2 m), conv_bias (conv2 m));
     sd_bn2 := bn_state_of (bn2 m);
     sd_conv3 := (conv_weight (conv3 m), conv_bias (conv3 m));
     sd_bn3 := bn_state_of (bn3 m);
     sd_conv4 := (conv_weight (conv4 m), conv_bias (conv4 m));
     sd_bn4 := bn_state_of (bn4 m);
     sd_fc1 := (fc_weight (fc1 m), fc_bias (fc1 m)) |}.

(** ** The architecture of a model: hyper-parameters and tensor shapes *)

Definition conv_shaped (cin cout k s : nat) (c : Conv1d) : Prop :=
  in_channels c = cin /\ out_channels c = cout /\ kernel_size c = k /\ stride c = s /\
  has_shape cout cin k (conv_weight c) /\ length (conv_bias c) = cout.

Definition bn_shaped (n : nat) (b : BatchNorm1d) : Prop :=
  num_features b = n /\ length (bn_weight b) = n /\ length (bn_bias b) = n /\
  length (running_mean b) = n /\ length (running_var b) = n.

Definition linear_shaped (fin fout : nat) (l : Linear) : Prop :=
  in_features l = fin /\ out_features l = fout /\
  has_shape2 fout fin (fc_weight l) /\ length (fc_bias l) = fout.

Definition M5_arch (n_input n_output stride n_channel : nat) (m : M5) : Prop :=
  conv_shaped n_input n_channel 80 stride (conv1 m) /\
  bn_shaped n_channel (bn1 m) /\ pool_kernel_size (pool1 m) = 4 /\
  conv_shaped n_channel n_channel 3 1 (conv2 m) /\
  bn_shaped n_channel (bn2 m) /\ pool_kernel_size (pool2 m) = 4 /\
  conv_shaped n_channel (2 * n_channel) 3 1 (conv3 m) /\
  bn_shaped (2 * n_channel) (bn3 m) /\ pool_kernel_size (pool3 m) = 4 /\
  conv_shaped (2 * n_channel) (2 * n_channel) 3 1 (conv4 m) /\
  bn_shaped (2 * n_channel) (bn4 m) /\ pool_kernel_size (pool4 m) = 4 /\
  linear_shaped (2 * n_channel) n_output (fc1 m).

(* ================================================================== *)
(** * The framework calls left abstract *)

Class Framework : Type := {
  (** torch's global random generator and the permutation a shuffling
      [DataLoader] draws from it for one pass *)
  torch_rng : Type;
  randperm : torch_rng -> nat -> list nat * torch_rng;
  (** numpy's generators: [RandomState(seed)] and its [permutation(n)] *)
  np_rng : Type;
  np_seed : Z -> np_rng;
  np_permutation : np_rng -> nat -> list nat;
  (** [optim.Adam]: [zero_grad(); loss.backward(); step()] as one update *)
  optimizer : Type;
  optimizer_step : optimizer -> M5 -> tensor3 -> list Z -> optimizer * M5;
  (** [criterion(output.squeeze(), target).item()] with [nn.CrossEntropyLoss] *)
  criterion : tensor3 -> list Z -> result R;
  (** [torchaudio.transforms.Resample(orig_freq, new_freq)] *)
  Resample : Z -> Z -> tensor2 -> tensor2
}.

(* ================================================================== *)
(** * Hyperparameters *)

Definition new_sample_rate : Z := 8000%Z.
Definition batch_size : nat := 256.
Definition num_epochs : nat := 2.
Definition val_size : Q := (3 # 10)%Q.
Definition log_interval : nat := 20.
Definition initial_best_loss : R := 10000%R.
Definition min_duration : R := 1%R.

(* ================================================================== *)
(** * The dataset and the batch collator *)

(** Modelled from the spec: the dataset accessor [AudioFolder(dataroot,
    transform)] of [src/audio_dataloader.py], which is not among the sources:
    an indexed collection of (waveform, label) pairs, the transform already
    applied to every item, with the class names. *)
Record AudioFolder : Type := {
  samples : list (tensor2 * Z);
  classes : list String.string
}.

Definition pad_to (n : nat) (ch : list R) : list R := ch ++ repeat 0%R (n - length ch).

Definition max_len (batch : list tensor2) : nat := list_max (map size1 batch).

(** [pad_sequence(batch)]: every item is transposed to (time, channels),
    [torch.nn.utils.rnn.pad_sequence(..., batch_first=True, padding_value=0.)]
    allocates a zero tensor whose trailing dimension is the first item's and
    copies every item into its prefix (the copy broadcasts a single channel
    and fails on any other mismatch), and the result is permuted back to
    (batch, channels, time). *)
Definition pad_sequence (batch : list tensor2) : result tensor3 :=
  match batch with
  | [] => Raise RuntimeError
  | first :: _ =>
      let c0 := length first in
      let n := max_len batch in
      mapM (fun w =>
              if length w =? c0 then Ok (map (pad_to n) w)
              else if length w =? 1 then Ok (repeat (pad_to n (hd [] w)) c0)
              else Raise RuntimeError)
           batch
  end.

(** The integer value of the binary32 float nearest to [z] (ties to even):
    what [torch.Tensor(targets)] stores for an integer label. *)
Definition float32_round (z : Z) : Z :=
  let a := Z.abs z in
  if (a <? 2 ^ 24)%Z then z
  else
    let e := (Z.log2 a - 23)%Z in
    let q := (a / 2 ^ e)%Z in
    let r := (a mod 2 ^ e)%Z in
    let half := (2 ^ (e - 1))%Z in
    let q' := if (r <? half)%Z then q
              else if (half <? r)%Z then (q + 1)%Z
              else if Z.even q then q else (q + 1)%Z in
    (Z.sgn z * (q' * 2 ^ e))%Z.

(** [collate_fn(batch)]: the labels go through [np.stack], a float tensor and
    [.to(torch.long)]. *)
Definition collate_fn (batch : list (tensor2 * Z)) : result (tensor3 * list Z) :=
  let tensors := map fst batch in
  let targets := map snd batch in
  tensors <- pad_sequence tensors ;;
  Ok (tensors, map float32_round targets).

(* ================================================================== *)
(** * Split and loaders *)

(** [sklearn.model_selection.train_test_split(arr, test_size, random_state)]
    for a float [test_size] in (0, 1) and no [train_size]:
    [n_test = ceil(test_size * n)], [n_train = n - n_test], a [ValueError]
    when the training set would be empty, and otherwise the first [n_test]
    entries of one permutation of [range(n)] index the test part and the next
    [n_train] the training part.  An integer [random_state] seeds a generator
    of its own; without one the global generator is used.  The product
    [test_size * n] is taken in exact arithmetic. *)
Definition n_test_of (test_size : Q) (n : nat) : nat :=
  Z.to_nat (Qceiling (test_size * inject_Z (Z.of_nat n))).

Definition check_random_state `{Framework} (random_state : option Z) (global : np_rng)
  : np_rng :=
  match random_state with
  | Some seed => np_seed seed
  | None => global
  end.

Definition safe_indexing {A : Type} (arr : list A) (ind : list nat) : result (list A) :=
  mapM (fun i => match nth_error arr i with
                 | Some a => Ok a
                 | None => Raise IndexError
                 end) ind.

Definition train_test_split `{Framework} (global : np_rng) (arr : list nat)
    (test_size : Q) (random_state : option Z) : result (list nat * list nat) :=
  let n := length arr in
  let n_test := n_test_of test_size n in
  let n_train := n - n_test in
  if n_train =? 0 then Raise ValueError
  else
    let permutation := np_permutation (check_random_state random_state global) n in
    let ind_test := firstn n_test permutation in
    let ind_train := firstn n_train (skipn n_test permutation) in
    train <- safe_indexing arr ind_train ;;
    test <- safe_indexing arr ind_test ;;
    Ok (train, test).

(** [torch.utils.data.Subset(dataset, indices)] *)
Record Subset : Type := {
  subset_dataset : AudioFolder;
  subset_indices : list nat
}.

Definition Subset_len (s : Subset) : nat := length (subset_indices s).

Definition Subset_getitem (s : Subset) (i : nat) : result (tensor2 * Z) :=
  match nth_error (subset_indices s) i with
  | None => Raise IndexError
  | Some j =>
      match nth_error (samples (subset_dataset s)) j with
      | None => Raise IndexError
      | Some it => Ok it
      end
  end.

(** [DataLoader(dataset, batch_size=..., collate_fn=collate_fn, shuffle=...)] *)
Record DataLoader : Type := {
  dl_dataset : Subset;
  dl_batch_size : nat;
  dl_shuffle : bool
}.

(** [len(loader)]: the number of batches, the last one possibly short. *)
Definition DataLoader_len (dl : DataLoader) : nat :=
  (Subset_len (dl_dataset dl) + dl_batch_size dl - 1) / dl_batch_size dl.

Fixpoint chunks_aux {A : Type} (fuel bs : nat) (l : list A) : list (list A) :=
  match fuel with
  | 0 => []
  | S fuel' =>
      match l with
      | [] => []
      | _ => firstn bs l :: chunks_aux fuel' bs (skipn bs l)
      end
  end.

Definition chunks {A : Type} (bs : nat) (l : list A) : list (list A) :=
  chunks_aux (length l) bs l.

(** The index batches of one pass over the loader: a fresh permutation when
    shuffling, the sequential order otherwise. *)
Definition batch_sampler `{Framework} (dl : DataLoader) (g : torch_rng)
  : list (list nat) * torch_rng :=
  let n := Subset_len (dl_dataset dl) in
  let '(order, g') := if dl_shuffle dl then randperm g n else (seq 0 n, g) in
  (chunks (dl_batch_size dl) order, g').

(** One batch: the items are fetched and collated. *)
Definition fetch (dl : DataLoader) (indices : list nat) : result (tensor3 * list Z) :=
  items <- mapM (Subset_getitem (dl_dataset dl)) indices ;;
  collate_fn items.

(** The notebook's globals built by the split cell. *)
Record Loaders : Type := {
  train_loader : DataLoader;
  val_loader : DataLoader
}.

Definition make_loaders `{Framework} (global : np_rng) (dataset : AudioFolder)
  : result (list nat * list nat * Loaders) :=
  let dataset_size := length (samples dataset) in
  let idx := seq 0 dataset_size in
  ' (train_indices, val_indices) <- train_test_split global idx val_size (Some 42%Z) ;;
  let train_dataset := {| subset_dataset := dataset; subset_indices := train_indices |} in
  let val_dataset := {| subset_dataset := dataset; subset_indices := val_indices |} in
  Ok (train_indices, val_indices,
      {| train_loader := {| dl_dataset := train_dataset; dl_batch_size := batch_size;
                            dl_shuffle := true |};
         val_loader := {| dl_dataset := val_dataset; dl_batch_size := batch_size;
                          dl_shuffle := false |} |}).

(* ================================================================== *)
(** * Training and validation *)

(** Python's [x / n] for a float [x] and an integer [n]. *)
Definition py_div (x : R) (n : nat) : result R :=
  if n =? 0 then Raise ZeroDivisionError else Ok (x / INR n)%R.

(** [train(model, epoch, log_interval, losses)]; the optimiser and the random
    generator are the globals it acts on.  Printing and the progress bar are
    left out, except that [batch_idx % log_interval] raises for a zero
    interval. *)
Definition train `{Framework} (G : Loaders) (model : M5) (epoch log_interval : nat)
    (losses : list R) (opt : optimizer) (g : torch_rng)
  : result (M5 * list R * optimizer * torch_rng) :=
  let model := model_train model in
  let '(batches, g) := batch_sampler (train_loader G) g in
  ' (model, opt, train_loss) <-
    for_each
      (fun (acc : M5 * optimizer * R) indices =>
         let '(model, opt, train_loss) := acc in
         ' (data, target) <- fetch (train_loader G) indices ;;
         ' (output, model) <- forward model data ;;
         loss <- criterion output target ;;
         let '(opt, model) := optimizer_step opt model data target in
         if log_interval =? 0 then Raise ZeroDivisionError
         else Ok (model, opt, (train_loss + loss)%R))
      batches (model, opt, 0%R) ;;
  train_loss <- py_div train_loss (DataLoader_len (train_loader G)) ;;
  Ok (model, losses ++ [train_loss], opt, g).

(** [number_of_correct(pred, target)]: [pred] has shape (batch, 1) and is
    squeezed before the element-wise comparison. *)
Definition number_of_correct (pred : list (list nat)) (target : list Z) : nat :=
  length (filter (fun p => (Z.of_nat (fst p) =? snd p)%Z) (combine (concat pred) target)).

(** [get_likely_index(tensor)] *)
Definition get_likely_index (tensor : tensor3) : result (list (list nat)) :=
  argmax tensor.

(** The body of [for data, target in val_loader] in [val]. *)
Definition val_body `{Framework} (G : Loaders) (acc : M5 * R * nat)
    (indices : list nat) : result (M5 * R * nat) :=
  let '(model, val_loss, correct) := acc in
  ' (data, target) <- fetch (val_loader G) indices ;;
  ' (output, model) <- forward model data ;;
  loss <- criterion output target ;;
  pred <- get_likely_index output ;;
  Ok (model, (val_loss + loss)%R, correct + number_of_correct pred target).

(** [val(model, epoch, losses)]; the number of correct predictions, which the
    function prints, is returned with the model and the list of losses.  The
    accuracy line divides by [len(val_loader.dataset)]. *)
Definition val `{Framework} (G : Loaders) (model : M5) (epoch : nat)
    (losses : list R) (g : torch_rng)
  : result (M5 * list R * nat * torch_rng) :=
  let model := model_eval model in
  let '(batches, g) := batch_sampler (val_loader G) g in
  ' (model, val_loss, correct) <- for_each (val_body G) batches (model, 0%R, 0) ;;
  val_loss <- py_div val_loss (DataLoader_len (train_loader G)) ;;
  _ <- py_div (100 * INR correct)%R (Subset_len (dl_dataset (val_loader G))) ;;
  Ok (model, losses ++ [val_loss], correct, g).

(** ** The training loop *)

(** The variables of the training-loop cell, and every [torch.save] it made
    to [save_path] (epoch and contents, oldest first). *)
Record loop_state `{Framework} : Type := {
  ls_model : M5;
  ls_optimizer : optimizer;
  ls_rng : torch_rng;
  train_losses : list R;
  val_losses : list R;
  best_loss : R;
  saved : list (nat * StateDict)
}.

Definition initial_state `{Framework} (model : M5) (opt : optimizer) (g : torch_rng)
  : loop_state :=
  {| ls_model := model; ls_optimizer := opt; ls_rng := g;
     train_losses := []; val_losses := [];
     best_loss := initial_best_loss; saved := [] |}.

(** [val_losses[-1]] *)
Definition last_item (l : list R) : result R :=
  match rev l with
  | [] => Raise IndexError
  | v :: _ => Ok v
  end.

(** The body of [for epoch in range(1, num_epochs+1)]. *)
Definition epoch_step `{Framework} (G : Loaders) (st : loop_state) (epoch : nat)
  : result loop_state :=
  ' (model, tl, opt, g) <-
    train G (ls_model st) epoch log_interval (train_losses st)
          (ls_optimizer st) (ls_rng st) ;;
  ' (model, vl, _, g) <- val G model epoch (val_losses st) g ;;
  v <- last_item vl ;;
  if Rlt_dec v (best_loss st) then
    Ok {| ls_model := model; ls_optimizer := opt; ls_rng := g;
          train_losses := tl; val_losses := vl;
          best_loss := v;
          saved := saved st ++ [(epoch, state_dict model)] |}
  else
    Ok {| ls_model := model; ls_optimizer := opt; ls_rng := g;
          train_losses := tl; val_losses := vl;
          best_loss := best_loss st;
          saved := saved st |}.

(** The training-loop cell: [pbar_update] divides by the number of batches of
    both loaders; then the epochs run from the initial state. *)
Definition training_loop `{Framework} (G : Loaders) (n_epochs : nat)
    (model : M5) (opt : optimizer) (g : torch_rng) : result loop_state :=
  pbar_update <-
    py_div 1 (DataLoader_len (train_loader G) + DataLoader_len (val_loader G)) ;;
  for_each (epoch_step G) (seq 1 n_epochs) (initial_state model opt g).

(** The contents of the file at [save_path]: the last write, or what was
    there before the loop. *)
Definition checkpoint_file `{Framework} (before : option StateDict) (st : loop_state)
  : option StateDict :=
  match rev (saved st) with
  | [] => before
  | (_, sd) :: _ => Some sd
  end.

(** The epochs (from 1) at which a checkpoint was written. *)
Definition saved_epochs `{Framework} (st : loop_state) : list nat := map fst (saved st).

(** The smallest of [bound] and the values of [l]. *)
Definition min_with (bound : R) (l : list R) : R := fold_left Rmin l bound.

(* ================================================================== *)
(** * Inference *)

Inductive event : Type :=
| EvPrint (msg : String.string)
| EvLoadAudio
| EvResample (orig_freq new_freq : Z)
| EvForward.

(** [torchaudio.load(test_wav)] of an existing file. *)
Record audio : Type := {
  audio_waveform : tensor2;
  audio_sample_rate : Z
}.

Definition dims2 (w : list (list R)) : list nat := map (@length R) w.
Definition dims3 (w : list (list (list R))) : list (list nat) := map dims2 w.

Definition same_dims3 (a b : list (list (list R))) : bool :=
  if list_eq_dec (list_eq_dec Nat.eq_dec) (dims3 a) (dims3 b) then true else false.
Definition same_dims2 (a b : list (list R)) : bool :=
  if list_eq_dec Nat.eq_dec (dims2 a) (dims2 b) then true else false.
Definition same_dims1 (a b : list R) : bool := length a =? length b.

Definition load_conv (c : Conv1d) (wb : list (list (list R)) * list R) : result Conv1d :=
  if same_dims3 (conv_weight c) (fst wb) && same_dims1 (conv_bias c) (snd wb) then
    Ok {| in_channels := in_channels c; out_channels := out_channels c;
          kernel_size := kernel_size c; stride := stride c;
          conv_weight := fst wb; conv_bias := snd wb |}
  else Raise RuntimeError.

Definition load_bn (b : BatchNorm1d) (s : bn_state) : result BatchNorm1d :=
  let '(w, bi, rm, rv, nbt) := s in
  if same_dims1 (bn_weight b) w && same_dims1 (bn_bias b) bi
     && same_dims1 (running_mean b) rm && same_dims1 (running_var b) rv then
    Ok {| num_features := num_features b;
          bn_weight := w; bn_bias := bi;
          running_mean := rm; running_var := rv;
          num_batches_tracked := nbt |}
  else Raise RuntimeError.

Definition load_linear (l : Linear) (wb : list (list R) * list R) : result Linear :=
  if same_dims2 (fc_weight l) (fst wb) && same_dims1 (fc_bias l) (snd wb) then
    Ok {| in_features := in_features l; out_features := out_features l;
          fc_weight := fst wb; fc_bias := snd wb |}
  else Raise RuntimeError.

(** [model.load_state_dict(state_dict)]: every tensor must have the shape of
    the one it replaces. *)
Definition load_state_dict (m : M5) (sd : StateDict) : result M5 :=
  c1 <- load_conv (conv1 m) (sd_conv1 sd) ;;
  b1 <- load_bn (bn1 m) (sd_bn1 sd) ;;
  c2 <- load_conv (conv2 m) (sd_conv2 sd) ;;
  b2 <- load_bn (bn2 m) (sd_bn2 sd) ;;
  c3 <- load_conv (conv3 m) (sd_conv3 sd) ;;
  b3 <- load_bn (bn3 m) (sd_bn3 sd) ;;
  c4 <- load_conv (conv4 m) (sd_conv4 sd) ;;
  b4 <- load_bn (bn4 m) (sd_bn4 sd) ;;
  f1 <- load_linear (fc1 m) (sd_fc1 sd) ;;
  Ok {| conv1 := c1; bn1 := b1; pool1 := pool1 m;
        conv2 := c2; bn2 := b2; pool2 := pool2 m;
        conv3 := c3; bn3 := b3; pool3 := pool3 m;
        conv4 := c4; bn4 := b4; pool4 := pool4 m;
        fc1 := f1; training := training m |}.

(** [M5(n_input=1, n_output=len(dataset.classes))]: the model the notebook
    builds for a dataset. *)
Definition notebook_model (init : initializer) (dataset : AudioFolder) : M5 :=
  M5_init init 1 (length (classes dataset)) 16 32.

(** The cell that loads the saved model: [torch.load], a fresh [M5], then
    [load_state_dict] and [eval]. *)
Definition load_model (file : option StateDict) (init : initializer)
    (dataset : AudioFolder) : result M5 :=
  match file with
  | None => Raise FileNotFoundError
  | Some sd =>
      let model := notebook_model init dataset in
      model <- load_state_dict model sd ;;
      Ok (model_eval model)
  end.

(** [waveform.size(1) / sample_rate]: the duration of a clip in seconds. *)
Definition duration (a : audio) : R :=
  (INR (size1 (audio_waveform a)) / IZR (audio_sample_rate a))%R.

(** The cell that prepares [input_data]: its printed and framework events,
    and the binding of [input_data] it makes, if any.  [test_wav] is [None]
    when no file exists at the path. *)
Definition prepare_input `{Framework} (test_wav : option audio)
  : list event * result (option tensor3) :=
  match test_wav with
  | None => ([EvPrint "Error: Audio file does not exist."%string], Ok None)
  | Some a =>
      let waveform := audio_waveform a in
      let sample_rate := audio_sample_rate a in
      if (sample_rate =? 0)%Z then ([EvLoadAudio], Raise ZeroDivisionError)
      else if Rlt_dec (duration a) min_duration then
        ([EvLoadAudio; EvPrint "Error: Audio duration is too short."%string], Ok None)
      else
        let transformed := Resample sample_rate new_sample_rate waveform in
        let input_data := [transformed] in
        ([EvLoadAudio; EvResample sample_rate new_sample_rate], Ok (Some input_data))
  end.

(** [pred.item()]: the tensor must hold exactly one element. *)
Definition item (pred : list (list nat)) : result nat :=
  match pred with
  | [[i]] => Ok i
  | _ => Raise RuntimeError
  end.

(** The cell that performs inference; [input_data] is [None] when the name
    is unbound. *)
Definition perform_inference (model : M5) (dataset : AudioFolder)
    (input_data : option tensor3) : list event * result String.string :=
  match input_data with
  | None => ([], Raise NameError)
  | Some x =>
      let r :=
        ' (output, _) <- forward model x ;;
        pred <- argmax output ;;
        i <- item pred ;;
        match nth_error (classes dataset) i with
        | Some label => Ok label
        | None => Raise IndexError
        end in
      match r with
      | Ok label =>
          ([EvForward; EvPrint (String.append "Predicted label: " label)], r)
      | Raise _ => ([EvForward], r)
      end
  end.

(** The three inference cells run in order in a notebook in which no earlier
    cell binds [input_data]; an exception stops the run. *)
Definition inference `{Framework} (file : option StateDict) (init : initializer)
    (dataset : AudioFolder) (test_wav : option audio)
  : list event * result String.string :=
  match load_model file init dataset with
  | Raise e => ([], Raise e)
  | Ok model =>
      match prepare_input test_wav with
      | (ev, Raise e) => (ev, Raise e)
      | (ev, Ok input_data) =>
          let '(ev', r) := perform_inference model dataset input_data in
          (ev ++ ev', r)
      end
  end.

(* ================================================================== *)
(** * Auxiliary definitions: predicates of the statements and example data *)

(** The model the notebook builds for the 35 classes of Speech Commands,
    with every drawn weight 0. *)
Definition zero_init : initializer := fun _ _ _ _ => 0%R.
Definition example_model : M5 := M5_init zero_init 1 35 16 32.

Definition example_input : tensor3 := [[repeat 0%R 6848]].

(** A padded channel: the original samples, then zeros up to length [n]. *)
Definition padded (n : nat) (ch pch : list R) : Prop :=
  length pch = n /\ firstn (length ch) pch = ch /\
  skipn (length ch) pch = repeat 0%R (n - length ch).

Definition example_batch : list (list (list R) * Z) :=
  [([[1%R; 2%R; 3%R]], 4%Z); ([[5%R]], 0%Z)].

(** A small instance of the framework interface.

    Every loss is [loss]; the optimiser leaves the model as it is; the random
    permutations reverse the range; resampling is the identity. *)

Definition simple_framework (loss : R) : Framework :=
  {| torch_rng := unit;
     randperm := fun g n => (rev (seq 0 n), g);
     np_rng := Z;
     np_seed := fun seed => seed;
     np_permutation := fun _ n => rev (seq 0 n);
     optimizer := unit;
     optimizer_step := fun o m _ _ => (o, m);
     criterion := fun _ _ => Ok loss;
     Resample := fun _ _ w => w |}.

(** One validation batch on a model in evaluation mode: its loss and its
    number of correct predictions. *)
Definition val_batch `{Framework} (G : Loaders) (m : M5) (indices : list nat)
  : result (R * nat) :=
  ' (data, target) <- fetch (val_loader G) indices ;;
  ' (output, _) <- forward m data ;;
  loss <- criterion output target ;;
  pred <- get_likely_index output ;;
  Ok (loss, number_of_correct pred target).

(** What holds after [k] epochs of a run from the initial state. *)
Definition loop_inv `{Framework} (G : Loaders) (m : M5) (opt : optimizer)
    (g : torch_rng) (k : nat) (st : loop_state) : Prop :=
  length (val_losses st) = k /\
  best_loss st = min_with initial_best_loss (val_losses st) /\
  (forall e, In e (saved_epochs st) <->
             1 <= e <= k /\
             (nth (e - 1) (val_losses st) 0
              < min_with initial_best_loss (firstn (e - 1) (val_losses st)))%R) /\
  match rev (saved st) with
  | [] => best_loss st = initial_best_loss
  | (e, sd) :: _ =>
      1 <= e <= k /\
      best_loss st = nth (e - 1) (val_losses st) 0%R /\
      exists st_e, training_loop G e m opt g = Ok st_e /\
                   sd = state_dict (ls_model st_e)
  end.

(** A clip the model accepts: one channel, at least 6848 samples. *)
Definition good_clip (it : list (list R) * Z) : Prop :=
  exists L, has_shape2 1 L (fst it) /\ 6848 <= L.

Definition good_loader (dl : DataLoader) : Prop :=
  Forall good_clip (samples (subset_dataset (dl_dataset dl))) /\
  Forall (fun j => j < length (samples (subset_dataset (dl_dataset dl))))
         (subset_indices (dl_dataset dl)) /\
  0 < dl_batch_size dl /\ 0 < Subset_len (dl_dataset dl).

(** A one-channel clip of 6848 zero samples; a dataset of ten such clips
    with two classes; the loaders the split cell builds for it with the
    small framework instance. *)
Definition example_clip : list (list R) := [repeat 0%R 6848].

Definition example_dataset : AudioFolder :=
  {| samples := repeat (example_clip, 0%Z) 10;
     classes := ["yes"%string; "no"%string] |}.

Definition loaders_of (dataset : AudioFolder) (train_indices val_indices : list nat)
  : Loaders :=
  {| train_loader :=
       {| dl_dataset := {| subset_dataset := dataset; subset_indices := train_indices |};
          dl_batch_size := batch_size; dl_shuffle := true |};
     val_loader :=
       {| dl_dataset := {| subset_dataset := dataset; subset_indices := val_indices |};
          dl_batch_size := batch_size; dl_shuffle := false |} |}.

Definition example_loaders : Loaders :=
  loaders_of example_dataset [6; 5; 4; 3; 2; 1; 0] [9; 8; 7].

(** A dataset of 368 clips: with the notebook's batch size of 256 and
    validation share of 0.3 it gives 257 training items in two batches and
    111 validation items in one batch. *)
Definition large_dataset : AudioFolder :=
  {| samples := repeat (example_clip, 0%Z) 368;
     classes := ["yes"%string; "no"%string] |}.

Definition large_train_indices : list nat := skipn 111 (rev (seq 0 368)).
Definition large_val_indices : list nat := firstn 111 (rev (seq 0 368)).
Definition large_loaders : Loaders :=
  loaders_of large_dataset large_train_indices large_val_indices.

(** A clip of one second at 8000 Hz and the checkpoint of the example
    model. *)
Definition one_second_clip : audio :=
  {| audio_waveform := [repeat 0%R 8000]; audio_sample_rate := 8000%Z |}.

Definition example_checkpoint : StateDict :=
  state_dict (notebook_model zero_init example_dataset).

(* ================================================================== *)
(** * The parameter count *)

(** [p.numel()] of a tensor of one, two and three dimensions. *)
Definition numel1 (t : list R) : nat := length t.
Definition numel2 (t : list (list R)) : nat := list_sum (map numel1 t).
Definition numel3 (t : list (list (list R))) : nat := list_sum (map numel2 t).

(** [model.parameters()], as the sizes of the tensors in registration order:
    weight and bias of every convolution, batch normalisation and linear
    layer (the running statistics are buffers, not parameters). *)
Definition parameter_sizes (m : M5) : list nat :=
  [numel3 (conv_weight (conv1 m)); numel1 (conv_bias (conv1 m));
   numel1 (bn_weight (bn1 m)); numel1 (bn_bias (bn1 m));
   numel3 (conv_weight (conv2 m)); numel1 (conv_bias (conv2 m));
   numel1 (bn_weight (bn2 m)); numel1 (bn_bias (bn2 m));
   numel3 (conv_weight (conv3 m)); numel1 (conv_bias (conv3 m));
   numel1 (bn_weight (bn3 m)); numel1 (bn_bias (bn3 m));
   numel3 (conv_weight (conv4 m)); numel1 (conv_bias (conv4 m));
   numel1 (bn_weight (bn4 m)); numel1 (bn_bias (bn4 m));
   numel2 (fc_weight (fc1 m)); numel1 (fc_bias (fc1 m))].

(** [count_parameters(model)]: every parameter requires a gradient. *)
Definition count_parameters (model : M5) : nat := list_sum (parameter_sizes model).

(** The learnable tensors themselves, in the same order. *)
Definition learnable (m : M5) :=
  (conv_weight (conv1 m), conv_bias (conv1 m), bn_weight (bn1 m), bn_bias (bn1 m),
   (conv_weight (conv2 m), conv_bias (conv2 m), bn_weight (bn2 m), bn_bias (bn2 m)),
   (conv_weight (conv3 m), conv_bias (conv3 m), bn_weight (bn3 m), bn_bias (bn3 m)),
   (conv_weight (conv4 m), conv_bias (conv4 m), bn_weight (bn4 m), bn_bias (bn4 m)),
   (fc_weight (fc1 m), fc_bias (fc1 m))).

(** The batch counters of the four batch-normalisation modules. *)
Definition batches_tracked (m : M5) : list nat :=
  [num_batches_tracked (bn1 m); num_batches_tracked (bn2 m);
   num_batches_tracked (bn3 m); num_batches_tracked (bn4 m)].

(** The number of samples [torchaudio.transforms.Resample(orig_freq,
    new_freq)] returns for [L] samples: [ceil(new_freq * L / orig_freq)]. *)
Definition resampled_length (orig_freq new_freq : Z) (L : nat) : nat :=
  Z.to_nat ((new_freq * Z.of_nat L + orig_freq - 1) / orig_freq).

(* ================================================================== *)
(** * Shapes through the framework modules *)

Ltac inv H := inversion H; subst; clear H.

Ltac forall_map_as x H :=
  apply Forall_forall; let y := fresh "y" in
  intros y H; apply in_map_iff in H as (x & <- & H).
Ltac forall_map :=
  apply Forall_forall; let y := fresh "y" in let H := fresh "Hin" in
  intros y H; let x := fresh "x" in apply in_map_iff in H as (x & <- & H).

Lemma bind_ok {A B : Type} (r : result A) (k : A -> result B) (b : B) :
  bind r k = Ok b -> exists a, r = Ok a /\ k a = Ok b.
Proof. destruct r; simpl; intros E; [eauto | discriminate]. Qed.

Lemma has_shape_shape1 B C L x : has_shape B C L x -> 0 < B -> shape1 x = C.
Proof.
  intros [Hl Hf] HB. destruct x as [|s x]; simpl in *; [lia|].
  inv Hf. unfold shape1. simpl. now destruct H1.
Qed.

Lemma has_shape2_size1 C L w : has_shape2 C L w -> 0 < C -> size1 w = L.
Proof.
  intros [Hl Hf] HC. destruct w as [|ch w]; simpl in *; [lia|].
  now inv Hf.
Qed.

Lemma has_shape_shape2 B C L x : has_shape B C L x -> 0 < B -> 0 < C -> shape2 x = L.
Proof.
  intros [Hl Hf] HB HC. destruct x as [|s x]; simpl in *; [lia|].
  inv Hf. unfold shape2. simpl. eauto using has_shape2_size1.
Qed.

Lemma has_shape_map B C L C' L' (f : tensor2 -> tensor2) x :
  (forall s, has_shape2 C L s -> has_shape2 C' L' (f s)) ->
  has_shape B C L x -> has_shape B C' L' (map f x).
Proof.
  intros Hf [Hl Hx]. split; [now rewrite length_map|].
  forall_map. apply Hf. rewrite Forall_forall in Hx. auto.
Qed.

Lemma has_shape2_map C L L' (f : list R -> list R) w :
  (forall ch, length ch = L -> length (f ch) = L') ->
  has_shape2 C L w -> has_shape2 C L' (map f w).
Proof.
  intros Hf [Hl Hw]. split; [now rewrite length_map|].
  forall_map. apply Hf. rewrite Forall_forall in Hw. auto.
Qed.

Lemma conv1d_sample_shape c cout Lout s :
  length (conv_weight c) = cout -> length (conv_bias c) = cout ->
  has_shape2 cout Lout (conv1d_sample c Lout s).
Proof.
  intros Hw Hb. unfold conv1d_sample. split.
  - rewrite length_map, length_combine. lia.
  - forall_map. now rewrite length_map, length_seq.
Qed.

Lemma Conv1d_forward_ok c cin cout k s B L x :
  conv_shaped cin cout k s c -> has_shape B cin L x ->
  0 < B -> 0 < cin -> 0 < s -> k <= L ->
  exists y, Conv1d_forward c x = Ok y /\ has_shape B cout (conv_out_len k s L) y.
Proof.
  intros (Hi & Ho & Hk & Hs & [Hw _] & Hb) Hx HB HC Hs0 HL.
  unfold Conv1d_forward.
  rewrite (has_shape_shape1 _ _ _ _ Hx HB), (has_shape_shape2 _ _ _ _ Hx HB HC).
  rewrite Hi, Hs, Hk, Nat.eqb_refl. simpl.
  destruct (Nat.eqb_spec s 0); [lia|].
  destruct (Nat.ltb_spec L k); [lia|].
  eexists. split; [reflexivity|].
  destruct Hx as [Hl _]. split; [now rewrite length_map|].
  forall_map. now apply conv1d_sample_shape.
Qed.

Lemma Conv1d_forward_short c cin cout k s B L x :
  conv_shaped cin cout k s c -> has_shape B cin L x ->
  0 < B -> 0 < cin -> L < k ->
  Conv1d_forward c x = Raise RuntimeError.
Proof.
  intros (Hi & Ho & Hk & Hs & _) Hx HB HC HL.
  unfold Conv1d_forward.
  rewrite (has_shape_shape1 _ _ _ _ Hx HB), (has_shape_shape2 _ _ _ _ Hx HB HC).
  rewrite Hi, Hs, Hk, Nat.eqb_refl. simpl.
  destruct (s =? 0); [reflexivity|].
  destruct (Nat.ltb_spec L k); [reflexivity | lia].
Qed.

Lemma bn_normalize_shape bn mus vars B C L x :
  length mus = C -> length vars = C ->
  length (bn_weight bn) = C -> length (bn_bias bn) = C ->
  has_shape B C L x -> has_shape B C L (bn_normalize bn mus vars x).
Proof.
  intros Hm Hv Hw Hb. unfold bn_normalize. apply has_shape_map.
  intros s [Hl Hs]. split.
  - rewrite length_map. repeat rewrite length_combine. lia.
  - forall_map_as p Hin. destruct p as (ch & mu & var & w & b).
    rewrite length_map. apply in_combine_l in Hin.
    rewrite Forall_forall in Hs. auto.
Qed.

Lemma bn_track_shaped n bn x : bn_shaped n bn -> bn_shaped n (bn_track bn x).
Proof.
  intros (Hn & Hw & Hb & Hm & Hv). unfold bn_shaped, bn_track. simpl.
  repeat rewrite length_map. repeat rewrite length_combine.
  rewrite length_seq. repeat split; lia.
Qed.

Lemma BatchNorm1d_forward_cases training bn B C L x :
  bn_shaped C bn -> has_shape B C L x -> 0 < B -> 0 < C ->
  (training = true /\ B * L = 1 /\
   BatchNorm1d_forward training bn x = Raise ValueError) \/
  (exists y bn', BatchNorm1d_forward training bn x = Ok (y, bn') /\
                 has_shape B C L y /\ bn_shaped C bn' /\
                 (training = false -> bn' = bn)).
Proof.
  intros Hbn Hx HB HC. pose proof Hbn as (Hn & Hw & Hb & Hm & Hv).
  unfold BatchNorm1d_forward.
  rewrite (has_shape_shape1 _ _ _ _ Hx HB), (has_shape_shape2 _ _ _ _ Hx HB HC).
  rewrite Hn, Nat.eqb_refl. simpl.
  destruct training.
  - pose proof Hx as [Hl Hf]. rewrite Hl.
    destruct (Nat.eqb_spec (B * L) 1) as [E|_]; [left; auto|].
    right. do 2 eexists. split; [reflexivity|].
    split; [|split; [now apply bn_track_shaped | discriminate]].
    apply bn_normalize_shape; try assumption;
      rewrite length_map, length_seq; reflexivity.
  - right. do 2 eexists. split; [reflexivity|].
    split; [|split; [assumption | reflexivity]].
    now apply bn_normalize_shape.
Qed.

Lemma BatchNorm1d_forward_ok training bn B C L x :
  bn_shaped C bn -> has_shape B C L x -> 0 < B -> 0 < C -> 1 < L ->
  exists y bn', BatchNorm1d_forward training bn x = Ok (y, bn') /\
                has_shape B C L y /\ bn_shaped C bn' /\
                (training = false -> bn' = bn).
Proof.
  intros Hbn Hx HB HC HL.
  destruct (BatchNorm1d_forward_cases training bn B C L x Hbn Hx HB HC)
    as [(_ & E & _) | H]; [|exact H].
  apply Nat.eq_mul_1 in E. lia.
Qed.

Lemma relu_shape B C L x : has_shape B C L x -> has_shape B C L (relu x).
Proof.
  unfold relu. apply has_shape_map. intros s.
  apply has_shape2_map. intros ch Hc. now rewrite length_map.
Qed.

Lemma MaxPool1d_forward_ok p k B C L x :
  pool_kernel_size p = k -> has_shape B C L x ->
  0 < B -> 0 < C -> 0 < k -> k <= L ->
  exists y, MaxPool1d_forward p x = Ok y /\ has_shape B C (pool_out_len k L) y.
Proof.
  intros Hk Hx HB HC Hk0 HL. unfold MaxPool1d_forward.
  rewrite Hk, (has_shape_shape2 _ _ _ _ Hx HB HC).
  destruct (Nat.eqb_spec k 0); [lia|].
  destruct (Nat.ltb_spec L k); [lia|]. simpl.
  eexists. split; [reflexivity|].
  revert Hx. apply has_shape_map. intros s.
  apply has_shape2_map. intros ch _. now rewrite length_map, length_seq.
Qed.

Lemma MaxPool1d_forward_short p k B C L x :
  pool_kernel_size p = k -> has_shape B C L x ->
  0 < B -> 0 < C -> L < k ->
  MaxPool1d_forward p x = Raise RuntimeError.
Proof.
  intros Hk Hx HB HC HL. unfold MaxPool1d_forward.
  rewrite Hk, (has_shape_shape2 _ _ _ _ Hx HB HC).
  destruct (Nat.ltb_spec L k); [|lia]. now rewrite orb_true_r.
Qed.

Lemma avg_pool1d_ok B C L x :
  has_shape B C L x -> 0 < B -> 0 < C -> 0 < L ->
  exists y, avg_pool1d x (shape2 x) = Ok y /\ has_shape B C 1 y.
Proof.
  intros Hx HB HC HL. unfold avg_pool1d.
  rewrite (has_shape_shape2 _ _ _ _ Hx HB HC).
  destruct (Nat.eqb_spec L 0); [lia|].
  rewrite Nat.ltb_irrefl. simpl.
  eexists. split; [reflexivity|].
  replace 1 with (pool_out_len L L)
    by (unfold pool_out_len, conv_out_len;
        rewrite Nat.ltb_irrefl, Nat.sub_diag, Nat.Div0.div_0_l; lia).
  revert Hx. apply has_shape_map. intros s.
  apply has_shape2_map. intros ch _. now rewrite length_map, length_seq.
Qed.

Lemma avg_pool1d_empty B C x :
  has_shape B C 0 x -> 0 < B -> 0 < C ->
  avg_pool1d x (shape2 x) = Raise RuntimeError.
Proof.
  intros Hx HB HC. unfold avg_pool1d.
  now rewrite (has_shape_shape2 _ _ _ _ Hx HB HC).
Qed.

Lemma transpose_shape C L w :
  0 < C -> has_shape2 C L w -> has_shape2 L C (transpose w).
Proof.
  intros HC Hw. unfold transpose.
  rewrite (has_shape2_size1 _ _ _ Hw HC). destruct Hw as [Hl _]. split.
  - now rewrite length_map, length_seq.
  - forall_map. now rewrite length_map.
Qed.

Lemma permute_0_2_1_shape B C L x :
  0 < C -> has_shape B C L x -> has_shape B L C (permute_0_2_1 x).
Proof.
  intros HC. unfold permute_0_2_1. apply has_shape_map.
  intros s. now apply transpose_shape.
Qed.

Lemma Linear_forward_ok l fin fout B C x :
  linear_shaped fin fout l -> has_shape B C fin x -> 0 < B -> 0 < C ->
  exists y, Linear_forward l x = Ok y /\ has_shape B C fout y.
Proof.
  intros (Hi & Ho & [Hw _] & Hb) Hx HB HC. unfold Linear_forward.
  rewrite (has_shape_shape2 _ _ _ _ Hx HB HC), Hi, Nat.eqb_refl. simpl.
  eexists. split; [reflexivity|].
  revert Hx. apply has_shape_map. intros s.
  apply has_shape2_map. intros ch _. unfold linear_row.
  rewrite length_map, length_combine. lia.
Qed.

Lemma log_softmax_shape B C L x : has_shape B C L x -> has_shape B C L (log_softmax x).
Proof.
  unfold log_softmax. apply has_shape_map. intros s.
  apply has_shape2_map. intros ch Hc. unfold log_softmax_row. now rewrite length_map.
Qed.

(* ================================================================== *)
(** * The forward pass of M5 *)

Lemma conv_out_len_3 L : 3 <= L -> conv_out_len 3 1 L = L - 2.
Proof.
  intros H. unfold conv_out_len.
  destruct (Nat.ltb_spec L 3); [lia|]. rewrite Nat.div_1_r. lia.
Qed.

Lemma pool_out_len_4 L : 4 <= L -> pool_out_len 4 L = L / 4.
Proof.
  intros H. unfold pool_out_len, conv_out_len.
  destruct (Nat.ltb_spec L 4); [lia|].
  replace L with (L - 4 + 1 * 4) at 2 by lia.
  rewrite Nat.div_add by lia. reflexivity.
Qed.

Lemma conv_out_len_80_16 L : 80 <= L -> conv_out_len 80 16 L = (L - 64) / 16.
Proof.
  intros H. unfold conv_out_len.
  destruct (Nat.ltb_spec L 80); [lia|].
  replace (L - 64) with (L - 80 + 1 * 16) by lia.
  rewrite Nat.div_add by lia. reflexivity.
Qed.

Lemma div_ge a b c : 0 < b -> c * b <= a -> c <= a / b.
Proof. intros Hb H. apply Nat.div_le_lower_bound; lia. Qed.

Lemma div_lt a b c : 0 < b -> a < c * b -> a / b < c.
Proof. intros Hb H. apply Nat.Div0.div_lt_upper_bound; lia. Qed.

(** The literal 6848 in a form linear arithmetic reads. *)
Lemma min_length_eq : 6848 = 428 * 16.
Proof. reflexivity. Qed.

Ltac fw_use H :=
  let y := fresh "y" in let E := fresh "E" in let S := fresh "S" in
  destruct H as (y & E & S); [try eassumption; try lia ..|];
  rewrite E; cbn [bind].

Ltac fw_use_bn H :=
  let y := fresh "y" in let b := fresh "bn'" in
  let E := fresh "E" in let S := fresh "S" in
  let Sb := fresh "Sb" in let Eb := fresh "Eb" in
  destruct H as (y & b & E & S & Sb & Eb); [try eassumption; try lia ..|];
  rewrite E; cbn [bind].

Lemma forward_ok m n_input n_output n_channel B L x :
  M5_arch n_input n_output 16 n_channel m ->
  has_shape B n_input L x ->
  0 < B -> 0 < n_input -> 0 < n_channel -> 6848 <= L ->
  exists y m', forward m x = Ok (y, m') /\
               has_shape B 1 n_output y /\
               M5_arch n_input n_output 16 n_channel m' /\
               training m' = training m /\
               (training m = false -> m' = m).
Proof.
  intros (Hc1 & Hb1 & Hp1 & Hc2 & Hb2 & Hp2 & Hc3 & Hb3 & Hp3 & Hc4 & Hb4 & Hp4 & Hfc)
         Hx HB HI HN HL.
  rewrite min_length_eq in HL. unfold forward.
  assert (H1 : 424 <= conv_out_len 80 16 L)
    by (rewrite conv_out_len_80_16 by lia; apply div_ge; lia).
  fw_use (Conv1d_forward_ok _ _ _ _ _ _ _ _ Hc1 Hx).
  fw_use_bn (BatchNorm1d_forward_ok (training m) _ _ _ _ _ Hb1 S).
  apply relu_shape in S0.
  assert (H2 : 106 <= pool_out_len 4 (conv_out_len 80 16 L))
    by (rewrite pool_out_len_4 by lia; apply div_ge; lia).
  fw_use (MaxPool1d_forward_ok _ _ _ _ _ _ Hp1 S0).
  fw_use (Conv1d_forward_ok _ _ _ _ _ _ _ _ Hc2 S1).
  rewrite conv_out_len_3 in S2 by lia.
  fw_use_bn (BatchNorm1d_forward_ok (training m) _ _ _ _ _ Hb2 S2).
  apply relu_shape in S3.
  assert (H3 : 26 <= pool_out_len 4 (pool_out_len 4 (conv_out_len 80 16 L) - 2))
    by (rewrite pool_out_len_4 by lia; apply div_ge; lia).
  fw_use (MaxPool1d_forward_ok _ _ _ _ _ _ Hp2 S3).
  fw_use (Conv1d_forward_ok _ _ _ _ _ _ _ _ Hc3 S4).
  rewrite conv_out_len_3 in S5 by lia.
  fw_use_bn (BatchNorm1d_forward_ok (training m) _ _ _ _ _ Hb3 S5).
  apply relu_shape in S6.
  match type of S6 with has_shape _ _ ?l _ =>
    assert (H4 : 6 <= pool_out_len 4 l)
      by (rewrite pool_out_len_4 by lia; apply div_ge; lia)
  end.
  fw_use (MaxPool1d_forward_ok _ _ _ _ _ _ Hp3 S6).
  fw_use (Conv1d_forward_ok _ _ _ _ _ _ _ _ Hc4 S7).
  rewrite conv_out_len_3 in S8 by lia.
  fw_use_bn (BatchNorm1d_forward_ok (training m) _ _ _ _ _ Hb4 S8).
  apply relu_shape in S9.
  match type of S9 with has_shape _ _ ?l _ =>
    assert (H5 : 1 <= pool_out_len 4 l)
      by (rewrite pool_out_len_4 by lia; apply div_ge; lia)
  end.
  fw_use (MaxPool1d_forward_ok _ _ _ _ _ _ Hp4 S9).
  fw_use (avg_pool1d_ok _ _ _ _ S10).
  apply permute_0_2_1_shape in S11; [|lia].
  fw_use (Linear_forward_ok _ _ _ _ _ _ Hfc S11).
  do 2 eexists. split; [reflexivity|].
  split; [now apply log_softmax_shape|].
  split; [unfold M5_arch; cbn; tauto|].
  split; [reflexivity|].
  intros Ht. rewrite (Eb Ht), (Eb0 Ht), (Eb1 Ht), (Eb2 Ht).
  destruct m; reflexivity.
Qed.

Lemma raises_Raise {A : Type} (e : exn) : raises (@Raise A e).
Proof. now exists e. Qed.

Ltac fw_conv Hc S k l :=
  destruct (le_lt_dec k l);
  [ fw_use (Conv1d_forward_ok _ _ _ _ _ _ _ _ Hc S)
  | rewrite (Conv1d_forward_short _ _ _ _ _ _ _ _ Hc S) by (try eassumption; lia);
    apply raises_Raise ].

Ltac fw_pool Hp S l :=
  destruct (le_lt_dec 4 l);
  [ fw_use (MaxPool1d_forward_ok _ _ _ _ _ _ Hp S)
  | rewrite (MaxPool1d_forward_short _ _ _ _ _ _ Hp S) by (try eassumption; lia);
    apply raises_Raise ].

Ltac fw_bn t Hb S :=
  let y := fresh "y" in let b := fresh "bn'" in
  let E := fresh "E" in let S' := fresh "S" in
  destruct (BatchNorm1d_forward_cases t _ _ _ _ _ Hb S) as
    [(_ & _ & E) | (y & b & E & S' & _ & _)];
  [try eassumption; try lia .. | rewrite E; apply raises_Raise
  | rewrite E; cbn [bind]; apply relu_shape in S'].

Lemma forward_short m n_input n_output n_channel B L x :
  M5_arch n_input n_output 16 n_channel m ->
  has_shape B n_input L x ->
  0 < B -> 0 < n_input -> 0 < n_channel -> L < 6848 ->
  raises (forward m x).
Proof.
  intros (Hc1 & Hb1 & Hp1 & Hc2 & Hb2 & Hp2 & Hc3 & Hb3 & Hp3 & Hc4 & Hb4 & Hp4 & Hfc)
         Hx HB HI HN HL.
  rewrite min_length_eq in HL. unfold forward.
  fw_conv Hc1 Hx 80 L.
  rewrite conv_out_len_80_16 in S by lia.
  fw_bn (training m) Hb1 S.
  fw_pool Hp1 S0 ((L - 64) / 16).
  rewrite pool_out_len_4 in S1 by lia.
  fw_conv Hc2 S1 3 ((L - 64) / 16 / 4).
  rewrite conv_out_len_3 in S2 by lia.
  fw_bn (training m) Hb2 S2.
  fw_pool Hp2 S3 ((L - 64) / 16 / 4 - 2).
  rewrite pool_out_len_4 in S4 by lia.
  fw_conv Hc3 S4 3 (((L - 64) / 16 / 4 - 2) / 4).
  rewrite conv_out_len_3 in S5 by lia.
  fw_bn (training m) Hb3 S5.
  fw_pool Hp3 S6 (((L - 64) / 16 / 4 - 2) / 4 - 2).
  rewrite pool_out_len_4 in S7 by lia.
  fw_conv Hc4 S7 3 ((((L - 64) / 16 / 4 - 2) / 4 - 2) / 4).
  rewrite conv_out_len_3 in S8 by lia.
  fw_bn (training m) Hb4 S8.
  fw_pool Hp4 S9 ((((L - 64) / 16 / 4 - 2) / 4 - 2) / 4 - 2).
  exfalso.
  assert (A1 : (L - 64) / 16 < 424) by (apply div_lt; lia).
  assert (A2 : (L - 64) / 16 / 4 < 106) by (apply div_lt; lia).
  assert (A3 : ((L - 64) / 16 / 4 - 2) / 4 < 26) by (apply div_lt; lia).
  assert (A4 : (((L - 64) / 16 / 4 - 2) / 4 - 2) / 4 < 6) by (apply div_lt; lia).
  lia.
Qed.

(* ================================================================== *)
(** * Log-softmax and arg-max *)

Lemma Rsum_map_scale {A : Type} (f : A -> R) (c : R) (l : list A) :
  Rsum (map (fun a => (f a * c)%R) l) = (Rsum (map f l) * c)%R.
Proof. induction l as [|a l IH]; simpl; [lra | rewrite IH; lra]. Qed.

Lemma Rsum_exp_pos (row : list R) : row <> [] -> (0 < Rsum (map exp row))%R.
Proof.
  intros Hne. destruct row as [|v row]; [congruence|]. clear Hne. simpl.
  assert (H : (0 <= Rsum (map exp row))%R).
  { induction row as [|u row IH]; simpl; [lra|].
    pose proof (exp_pos u). lra. }
  pose proof (exp_pos v). lra.
Qed.

Lemma log_softmax_row_normalised (row : list R) :
  row <> [] -> Rsum (map exp (log_softmax_row row)) = 1%R.
Proof.
  intros Hne. pose proof (Rsum_exp_pos row Hne) as Hpos.
  unfold log_softmax_row. rewrite map_map.
  rewrite (map_ext _ (fun v => (exp v * / Rsum (map exp row))%R)).
  - rewrite Rsum_map_scale. field. lra.
  - intros v. unfold Rminus. rewrite exp_plus, exp_Ropp, exp_ln by assumption.
    reflexivity.
Qed.

Lemma argmax_from_spec (l pre : list R) (best_i i : nat) (best : R) :
  i = length pre -> best_i < i -> nth best_i pre 0%R = best ->
  (forall j, j < i -> (nth j pre 0 <= best)%R) ->
  (forall j, j < best_i -> (nth j pre 0 < best)%R) ->
  let r := argmax_from best_i best i l in
  r < length (pre ++ l) /\
  (forall j, j < length (pre ++ l) -> (nth j (pre ++ l) 0 <= nth r (pre ++ l) 0)%R) /\
  (forall j, j < r -> (nth j (pre ++ l) 0 < nth r (pre ++ l) 0)%R).
Proof.
  revert pre best_i i best.
  induction l as [|v rest IH]; intros pre best_i i best Hi Hb Hn Hle Hlt; simpl.
  - rewrite app_nil_r. subst i best. split; [assumption|]. split; assumption.
  - replace (pre ++ v :: rest) with ((pre ++ [v]) ++ rest)
      by (rewrite <- app_assoc; reflexivity).
    assert (Hv : nth i (pre ++ [v]) 0%R = v).
    { subst i. rewrite app_nth2, Nat.sub_diag by lia. reflexivity. }
    destruct (Rlt_dec best v) as [Hbv | Hbv].
    + apply IH.
      * rewrite length_app. simpl. lia.
      * lia.
      * assumption.
      * intros j Hj. destruct (Nat.eq_dec j i) as [-> | Hne].
        -- rewrite Hv. lra.
        -- rewrite app_nth1 by lia. specialize (Hle j ltac:(lia)). lra.
      * intros j Hj. rewrite app_nth1 by lia. specialize (Hle j Hj). lra.
    + apply IH.
      * rewrite length_app. simpl. lia.
      * lia.
      * rewrite app_nth1 by lia. assumption.
      * intros j Hj. destruct (Nat.eq_dec j i) as [-> | Hne].
        -- rewrite Hv. lra.
        -- rewrite app_nth1 by lia. apply Hle. lia.
      * intros j Hj. rewrite app_nth1 by lia. auto.
Qed.

Lemma argmax_row_spec (row : list R) (i : nat) :
  argmax_row row = Ok i ->
  i < length row /\
  (forall j, j < length row -> (nth j row 0 <= nth i row 0)%R) /\
  (forall j, j < i -> (nth j row 0 < nth i row 0)%R).
Proof.
  destruct row as [|v rest]; simpl; [discriminate|].
  intros E. inv E.
  apply (argmax_from_spec rest [v] 0 1 v); simpl; try lia; try reflexivity.
  intros j Hj. assert (j = 0) by lia. subst. simpl. lra.
Qed.

Lemma argmax_row_ok (row : list R) :
  row <> [] -> exists i, argmax_row row = Ok i.
Proof. destruct row; [congruence | simpl; eauto]. Qed.

(* ================================================================== *)
(** * The architecture of M5 *)

Lemma new_Conv1d_shaped init t cin cout k s :
  conv_shaped cin cout k s (new_Conv1d init t cin cout k s).
Proof.
  unfold conv_shaped, new_Conv1d, init3. simpl.
  repeat split; try (now rewrite length_map, length_seq).
  forall_map. split; [now rewrite length_map, length_seq|].
  forall_map. now rewrite length_map, length_seq.
Qed.

Lemma new_BatchNorm1d_shaped n : bn_shaped n (new_BatchNorm1d n).
Proof. unfold bn_shaped, new_BatchNorm1d. simpl. now rewrite !repeat_length. Qed.

Lemma new_Linear_shaped init t fin fout :
  linear_shaped fin fout (new_Linear init t fin fout).
Proof.
  unfold linear_shaped, new_Linear. simpl.
  repeat split; try (now rewrite length_map, length_seq).
  forall_map. now rewrite length_map, length_seq.
Qed.

Lemma M5_init_arch init n_input n_output stride n_channel :
  M5_arch n_input n_output stride n_channel
          (M5_init init n_input n_output stride n_channel).
Proof.
  unfold M5_arch, M5_init. cbn [conv1 bn1 pool1 conv2 bn2 pool2 conv3 bn3 pool3
                                conv4 bn4 pool4 fc1 pool_kernel_size].
  repeat match goal with |- _ /\ _ => split end;
    auto using new_Conv1d_shaped, new_BatchNorm1d_shaped, new_Linear_shaped.
Qed.

Lemma set_training_arch b n_input n_output stride n_channel m :
  M5_arch n_input n_output stride n_channel m ->
  M5_arch n_input n_output stride n_channel (set_training b m).
Proof. intros H. exact H. Qed.

Lemma forward_eq_spec m x : forward m x = M5_spec_forward m x.
Proof.
  unfold forward, M5_spec_forward, stage, classifier_head.
  repeat match goal with
         | |- context [bind ?r _] =>
             lazymatch r with
             | bind _ _ => fail
             | _ => destruct r as [[]| ]; cbn [bind]; try reflexivity
             end
         end.
Qed.

Lemma classifier_head_rows fc x y :
  classifier_head fc x = Ok y ->
  0 < length (fc_weight fc) -> 0 < length (fc_bias fc) ->
  forall s row, In s y -> In row s -> Rsum (map exp row) = 1%R.
Proof.
  unfold classifier_head. intros E Hw Hb s row Hs Hrow.
  apply bind_ok in E as (x1 & _ & E).
  apply bind_ok in E as (x2 & E2 & E). inv E.
  unfold Linear_forward in E2.
  destruct (negb _); [discriminate|]. inv E2.
  unfold log_softmax in Hs. rewrite map_map in Hs.
  apply in_map_iff in Hs as (s0 & <- & _).
  rewrite map_map in Hrow. apply in_map_iff in Hrow as (r0 & <- & _).
  apply log_softmax_row_normalised.
  intros Hnil. apply (f_equal (@length R)) in Hnil.
  unfold linear_row in Hnil. rewrite length_map, length_combine in Hnil.
  simpl in Hnil. lia.
Qed.

Lemma forward_rows_normalised m n_input n_output stride n_channel x y m' :
  M5_arch n_input n_output stride n_channel m -> 0 < n_output ->
  forward m x = Ok (y, m') ->
  forall s row, In s y -> In row s -> Rsum (map exp row) = 1%R.
Proof.
  intros Ha Hn E.
  destruct Ha as (_ & _ & _ & _ & _ & _ & _ & _ & _ & _ & _ & _ & Hfc).
  destruct Hfc as (_ & _ & [Hw _] & Hb).
  rewrite forward_eq_spec in E. unfold M5_spec_forward in E.
  apply bind_ok in E as ([x1 b1] & _ & E).
  apply bind_ok in E as ([x2 b2] & _ & E).
  apply bind_ok in E as ([x3 b3] & _ & E).
  apply bind_ok in E as ([x4 b4] & _ & E).
  apply bind_ok in E as (y0 & Eh & E). inv E.
  apply (classifier_head_rows _ _ _ Eh); lia.
Qed.

Lemma arch_stage_widths n_input n_output stride n_channel m :
  M5_arch n_input n_output stride n_channel m ->
  stage_widths m = [n_channel; n_channel; 2 * n_channel; 2 * n_channel].
Proof.
  intros (Hc1 & _ & _ & Hc2 & _ & _ & Hc3 & _ & _ & Hc4 & _).
  unfold stage_widths.
  destruct Hc1 as (_ & -> & _), Hc2 as (_ & -> & _),
           Hc3 as (_ & -> & _), Hc4 as (_ & -> & _).
  reflexivity.
Qed.

(** C2 (as stated, refuted): the channel widths of the four stages of the
    notebook's model are 32, 32, 64, 64, so the width does not increase from
    each stage to the next. *)
Lemma C2_widths_not_increasing :
  stage_widths example_model = [32; 32; 64; 64] /\
  ~ increasing (stage_widths example_model).
Proof.
  split; [reflexivity|].
  cbn. intros [H _]. lia.
Qed.

(** C2 (amended): the forward pass of M5 is four stages, each a 1-D
    convolution, then batch normalisation, then ReLU, then max-pooling,
    followed by a global average pool over time, one linear layer and a
    log-softmax over the classes; the channel widths of the stages are
    n, n, 2n, 2n (never decreasing, doubling once between the second and the
    third stage); and for every input on which the model returns, the
    exponentials of every output row sum to 1. *)
Theorem C2_M5_architecture n_input n_output stride n_channel (m : M5) :
  M5_arch n_input n_output stride n_channel m ->
  0 < n_output ->
  (forall x, forward m x = M5_spec_forward m x) /\
  stage_widths m = [n_channel; n_channel; 2 * n_channel; 2 * n_channel] /\
  nondecreasing (stage_widths m) /\
  (forall x y m', forward m x = Ok (y, m') ->
     forall s row, In s y -> In row s -> Rsum (map exp row) = 1%R).
Proof.
  intros Ha Hn. split; [apply forward_eq_spec|].
  rewrite (arch_stage_widths _ _ _ _ _ Ha).
  split; [reflexivity|]. split.
  - simpl. lia.
  - intros x y m' E. eapply forward_rows_normalised; eassumption.
Qed.

Lemma C2_M5_architecture_witness :
  (forall x, forward example_model x = M5_spec_forward example_model x) /\
  stage_widths example_model = [32; 32; 2 * 32; 2 * 32] /\
  nondecreasing (stage_widths example_model) /\
  (forall x y m', forward example_model x = Ok (y, m') ->
     forall s row, In s y -> In row s -> Rsum (map exp row) = 1%R).
Proof.
  apply (C2_M5_architecture 1 35 16 32 example_model).
  - apply M5_init_arch.
  - lia.
Defined.

(* ================================================================== *)
(** * Inputs on which the forward pass is defined *)

Lemma stage_lengths_ok L :
  6848 <= L -> Forall2 le stage_kernels (stage_input_lengths 16 L).
Proof.
  rewrite min_length_eq. intros HL.
  unfold stage_kernels, stage_input_lengths.
  assert (H1 : 424 <= conv_out_len 80 16 L)
    by (rewrite conv_out_len_80_16 by lia; apply div_ge; lia).
  set (c1 := conv_out_len 80 16 L) in *.
  assert (H2 : 106 <= pool_out_len 4 c1)
    by (rewrite pool_out_len_4 by lia; apply div_ge; lia).
  set (p1 := pool_out_len 4 c1) in *.
  rewrite (conv_out_len_3 p1) by lia.
  assert (H3 : 26 <= pool_out_len 4 (p1 - 2))
    by (rewrite pool_out_len_4 by lia; apply div_ge; lia).
  set (p2 := pool_out_len 4 (p1 - 2)) in *.
  rewrite (conv_out_len_3 p2) by lia.
  assert (H4 : 6 <= pool_out_len 4 (p2 - 2))
    by (rewrite pool_out_len_4 by lia; apply div_ge; lia).
  set (p3 := pool_out_len 4 (p2 - 2)) in *.
  rewrite (conv_out_len_3 p3) by lia.
  assert (H5 : 1 <= pool_out_len 4 (p3 - 2))
    by (rewrite pool_out_len_4 by lia; apply div_ge; lia).
  repeat constructor; lia.
Qed.

Lemma div_ge_inv a b c : c <= a / b -> c * b <= a.
Proof.
  intros H. pose proof (Nat.Div0.mul_div_le a b). nia.
Qed.

Lemma stage_lengths_short L :
  Forall2 le stage_kernels (stage_input_lengths 16 L) -> 6848 <= L.
Proof.
  rewrite min_length_eq. unfold stage_kernels, stage_input_lengths. intros H.
  set (c1 := conv_out_len 80 16 L) in *.
  set (p1 := pool_out_len 4 c1) in *.
  set (c2 := conv_out_len 3 1 p1) in *.
  set (p2 := pool_out_len 4 c2) in *.
  set (c3 := conv_out_len 3 1 p2) in *.
  set (p3 := pool_out_len 4 c3) in *.
  set (c4 := conv_out_len 3 1 p3) in *.
  repeat match goal with
         | H : Forall2 _ (_ :: _) (_ :: _) |- _ => inv H
         end.
  assert (E4 : c4 = p3 - 2) by (apply conv_out_len_3; lia).
  assert (E3' : p3 = c3 / 4) by (apply pool_out_len_4; lia).
  assert (E3 : c3 = p2 - 2) by (apply conv_out_len_3; lia).
  assert (E2' : p2 = c2 / 4) by (apply pool_out_len_4; lia).
  assert (E2 : c2 = p1 - 2) by (apply conv_out_len_3; lia).
  assert (E1' : p1 = c1 / 4) by (apply pool_out_len_4; lia).
  assert (E1 : c1 = (L - 64) / 16) by (apply conv_out_len_80_16; lia).
  assert (B3 : 6 * 4 <= c3) by (apply div_ge_inv; lia).
  assert (B2 : 26 * 4 <= c2) by (apply div_ge_inv; lia).
  assert (B1 : 106 * 4 <= c1) by (apply div_ge_inv; lia).
  assert (B0 : 424 * 16 <= L - 64) by (apply div_ge_inv; lia).
  lia.
Qed.

Lemma one_second_at_8000 L : (1 <= INR L / 8000)%R -> 6848 <= L.
Proof.
  intros H. rewrite min_length_eq.
  assert (H' : (INR (428 * 16) <= INR L)%R).
  { replace (INR (428 * 16)) with 6848%R.
    - lra.
    - rewrite mult_INR. simpl. lra. }
  now apply INR_le.
Qed.

Lemma conv_out_len_pos k s L : 0 < conv_out_len k s L -> k <= L.
Proof.
  unfold conv_out_len. destruct (Nat.ltb_spec L k); lia.
Qed.

Lemma stage_lengths_pos_iff L :
  Forall (fun n => 0 < n) (stage_input_lengths 16 L) <-> 6848 <= L.
Proof.
  split.
  - intros H. apply stage_lengths_short.
    unfold stage_input_lengths, stage_kernels in *.
    repeat match goal with
           | H : Forall _ (_ :: _) |- _ => inv H
           end.
    unfold pool_out_len in *.
    repeat constructor;
      first [ eapply conv_out_len_pos; eassumption | lia ].
  - intros HL. pose proof (stage_lengths_ok L HL) as H.
    unfold stage_kernels, stage_input_lengths in *.
    repeat match goal with
           | H : Forall2 _ (_ :: _) (_ :: _) |- _ => inv H
           end.
    repeat constructor; lia.
Qed.

(** C8: for an M5 with the default stride and an input of [L] samples per
    channel, the four convolutions, the four max-pools and the global
    average pool of the forward pass all receive an input of positive length
    exactly when [L >= 6848]; from 6848 samples on the forward pass returns
    (in particular for a clip of at least one second at 8000 Hz), and below
    6848 it raises. *)
Theorem C8_forward_defined n_input n_output n_channel (m : M5) B L (x : tensor3) :
  M5_arch n_input n_output 16 n_channel m ->
  has_shape B n_input L x ->
  0 < B -> 0 < n_input -> 0 < n_channel ->
  (Forall (fun n => 0 < n) (stage_input_lengths 16 L) <-> 6848 <= L) /\
  (6848 <= L ->
     exists y m', forward m x = Ok (y, m') /\ has_shape B 1 n_output y) /\
  ((1 <= INR L / 8000)%R -> succeeds (forward m x)) /\
  (L < 6848 -> raises (forward m x)).
Proof.
  intros Ha Hx HB HI HN.
  assert (Hok : 6848 <= L ->
                exists y m', forward m x = Ok (y, m') /\ has_shape B 1 n_output y).
  { intros HL.
    destruct (forward_ok _ _ _ _ _ _ _ Ha Hx HB HI HN HL) as (y & m' & E & S & _).
    eauto. }
  split; [apply stage_lengths_pos_iff|].
  split; [exact Hok|]. split.
  - intros H. apply one_second_at_8000 in H.
    destruct (Hok H) as (y & m' & E & _). eexists. exact E.
  - intros HL. eapply forward_short; eassumption.
Qed.

Lemma example_input_shape : has_shape 1 1 6848 example_input.
Proof.
  unfold example_input. split; [reflexivity|].
  constructor; [|constructor]. split; [reflexivity|].
  constructor; [apply repeat_length | constructor].
Qed.

Lemma C8_forward_defined_witness :
  has_shape 1 1 6848 example_input /\
  succeeds (forward example_model example_input) /\
  Forall (fun n => 0 < n) (stage_input_lengths 16 6848).
Proof.
  split; [apply example_input_shape|].
  destruct (C8_forward_defined 1 35 32 example_model 1 6848 example_input)
    as (Hpos & H & _).
  - apply M5_init_arch.
  - apply example_input_shape.
  - lia.
  - lia.
  - lia.
  - destruct (H (le_n _)) as (y & m' & E & _).
    split; [eexists; exact E|]. apply Hpos. apply le_n.
Defined.

(* ================================================================== *)
(** * Batch collation *)

Lemma mapM_ok_map {A B : Type} (f : A -> result B) (g : A -> B) (l : list A) :
  (forall a, In a l -> f a = Ok (g a)) -> mapM f l = Ok (map g l).
Proof.
  induction l as [|a l IH]; intros H; simpl; [reflexivity|].
  rewrite (H a (or_introl eq_refl)). cbn [bind].
  rewrite IH by (intros b Hb; apply H; now right). reflexivity.
Qed.

Lemma list_max_In (l : list nat) : l <> [] -> In (list_max l) l.
Proof.
  induction l as [|a l IH]; [congruence|]. intros _.
  destruct l as [|b l].
  - left. simpl. lia.
  - change (list_max (a :: b :: l)) with (Nat.max a (list_max (b :: l))).
    destruct (Nat.max_spec a (list_max (b :: l))) as [[_ ->] | [_ ->]].
    + right. apply IH. discriminate.
    + now left.
Qed.

Lemma list_max_ge (l : list nat) (a : nat) : In a l -> a <= list_max l.
Proof.
  intros H. pose proof (proj1 (list_max_le l (list_max l)) (le_n _)) as Hall.
  rewrite Forall_forall in Hall. auto.
Qed.

Lemma float32_round_small (z : Z) : (Z.abs z <= 2 ^ 24)%Z -> float32_round z = z.
Proof.
  intros H. unfold float32_round.
  destruct (Z.ltb_spec (Z.abs z) (2 ^ 24)) as [|Hge]; [reflexivity|].
  assert (E : Z.abs z = (2 ^ 24)%Z) by lia.
  rewrite E. destruct (Z.abs_spec z) as [[_ E'] | [_ E']].
  - assert (z = 2 ^ 24)%Z by lia. subst z. reflexivity.
  - assert (z = - 2 ^ 24)%Z by lia. subst z. reflexivity.
Qed.

Lemma pad_to_length n ch : length ch <= n -> length (pad_to n ch) = n.
Proof. intros H. unfold pad_to. rewrite length_app, repeat_length. lia. Qed.

Lemma has_shape2_channel C L w ch :
  has_shape2 C L w -> In ch w -> length ch = L /\ size1 w = L.
Proof.
  intros Hw Hin. pose proof Hw as [Hl Hf]. rewrite Forall_forall in Hf.
  split; [auto|]. apply (has_shape2_size1 C); [assumption|].
  destruct w; [contradiction | simpl in Hl; lia].
Qed.

Lemma pad_sequence_ok (batch : list tensor2) (C : nat) :
  batch <> [] ->
  Forall (fun w => exists L, has_shape2 C L w) batch ->
  pad_sequence batch = Ok (map (map (pad_to (max_len batch))) batch) /\
  has_shape (length batch) C (max_len batch) (map (map (pad_to (max_len batch))) batch).
Proof.
  intros Hne Hall. rewrite Forall_forall in Hall. split.
  - unfold pad_sequence. destruct batch as [|first rest]; [congruence|].
    apply mapM_ok_map. intros w Hw.
    destruct (Hall first (or_introl eq_refl)) as (L0 & [H0 _]).
    destruct (Hall w Hw) as (L & [Hl _]).
    rewrite Hl, H0, Nat.eqb_refl. reflexivity.
  - split; [now rewrite length_map|].
    forall_map_as w Hw. destruct (Hall w Hw) as (L & HwS).
    pose proof HwS as [Hl Hf]. split; [now rewrite length_map|].
    forall_map_as ch Hch. apply pad_to_length.
    destruct (has_shape2_channel _ _ _ _ HwS Hch) as [-> <-].
    apply list_max_ge. now apply in_map.
Qed.

Lemma Forall2_map_self {A B : Type} (P : A -> B -> Prop) (f : A -> B) (l : list A) :
  (forall a, In a l -> P a (f a)) -> Forall2 P l (map f l).
Proof.
  induction l as [|a l IH]; intros H; simpl; constructor.
  - apply H. now left.
  - apply IH. intros b Hb. apply H. now right.
Qed.

Lemma pad_to_padded n ch : length ch <= n -> padded n ch (pad_to n ch).
Proof.
  intros H. unfold padded. split; [now apply pad_to_length|].
  unfold pad_to. split.
  - rewrite firstn_app, Nat.sub_diag, firstn_all. simpl. apply app_nil_r.
  - rewrite skipn_app, Nat.sub_diag, skipn_all. reflexivity.
Qed.

(** C4 (as stated, refuted): a batch of a one-channel and a two-channel
    waveform is not collated (the copy into the padded tensor fails), and a
    label above 2^24 does not come back unchanged (it passes through a
    float tensor). *)
Lemma C4_collate_fn_fails :
  collate_fn [([[1%R]], 0%Z); ([[1%R]; [1%R]], 0%Z)] = Raise RuntimeError /\
  collate_fn [([[1%R]], 16777217%Z)] = Ok ([[[1%R]]], [16777216%Z]).
Proof. split; reflexivity. Qed.

(** C4 (amended): for every non-empty batch of (waveform, label) pairs whose
    waveforms have the same number of channels and whose labels are at most
    2^24 in magnitude, [collate_fn] returns the stacked waveforms, all of the
    maximal length in the batch, each channel being its original samples
    followed by zeros, together with the labels unchanged and in order. *)
Theorem C4_collate_fn_pads (batch : list (list (list R) * Z)) (C : nat) :
  batch <> [] ->
  Forall (fun it => exists L, has_shape2 C L (fst it)) batch ->
  Forall (fun it => (Z.abs (snd it) <= 2 ^ 24)%Z) batch ->
  let n := max_len (map fst batch) in
  exists tensors,
    collate_fn batch = Ok (tensors, map snd batch) /\
    has_shape (length batch) C n tensors /\
    In n (map (fun it => size1 (fst it)) batch) /\
    Forall (fun it => size1 (fst it) <= n) batch /\
    Forall2 (fun it t => Forall2 (padded n) (fst it) t) batch tensors.
Proof.
  intros Hne Hshape Hlab n.
  assert (Hne' : map fst batch <> []) by (destruct batch; [congruence | discriminate]).
  assert (Hshape' : Forall (fun w => exists L, has_shape2 C L w) (map fst batch)).
  { forall_map_as it Hit. rewrite Forall_forall in Hshape. auto. }
  destruct (pad_sequence_ok _ C Hne' Hshape') as [E S].
  exists (map (map (pad_to n)) (map fst batch)).
  unfold collate_fn. rewrite E. cbn [bind].
  assert (El : map float32_round (map snd batch) = map snd batch).
  { rewrite <- (map_id (map snd batch)) at 2. apply map_ext_in.
    intros z Hz. apply in_map_iff in Hz as (it & <- & Hit).
    apply float32_round_small. rewrite Forall_forall in Hlab. auto. }
  rewrite El. split; [reflexivity|].
  split; [now rewrite length_map in S|].
  split; [|split].
  - rewrite <- map_map. apply list_max_In.
    destruct batch; [congruence | discriminate].
  - apply Forall_forall. intros it Hit. apply list_max_ge.
    rewrite map_map. apply in_map_iff. eauto.
  - rewrite map_map. apply Forall2_map_self. intros it Hit.
    apply Forall2_map_self. intros ch Hch. apply pad_to_padded.
    rewrite Forall_forall in Hshape. destruct (Hshape it Hit) as (L & HL).
    destruct (has_shape2_channel _ _ _ _ HL Hch) as [-> <-].
    apply list_max_ge. rewrite map_map. apply in_map_iff. eauto.
Qed.

Lemma C4_collate_fn_pads_witness :
  exists tensors,
    collate_fn example_batch = Ok (tensors, [4%Z; 0%Z]) /\
    has_shape 2 1 3 tensors /\
    Forall2 (fun it t => Forall2 (padded 3) (fst it) t) example_batch tensors.
Proof.
  destruct (C4_collate_fn_pads example_batch 1) as (tensors & E & S & _ & _ & P).
  - discriminate.
  - repeat constructor; simpl.
    + exists 3. repeat constructor.
    + exists 1. repeat constructor.
  - repeat constructor; simpl; lia.
  - exists tensors. auto.
Defined.

(* ================================================================== *)
(** * Split and loaders *)

Lemma n_test_of_val_size (n : nat) : n_test_of val_size n = (3 * n + 9) / 10.
Proof.
  unfold n_test_of.
  change (Qceiling (val_size * inject_Z (Z.of_nat n)))
    with (- (- (3 * Z.of_nat n) / 10))%Z.
  apply Nat2Z.inj. rewrite Z2Nat.id.
  - rewrite Nat2Z.inj_div, Nat2Z.inj_add, Nat2Z.inj_mul.
    change (Z.of_nat 3) with 3%Z. change (Z.of_nat 9) with 9%Z.
    change (Z.of_nat 10) with 10%Z.
    Z.to_euclidean_division_equations. lia.
  - Z.to_euclidean_division_equations. lia.
Qed.

Lemma n_test_bounds (n : nat) :
  3 * n <= 10 * n_test_of val_size n < 3 * n + 10 /\ n_test_of val_size n <= n.
Proof.
  rewrite n_test_of_val_size.
  pose proof (Nat.div_mod_eq (3 * n + 9) 10) as E.
  pose proof (Nat.mod_upper_bound (3 * n + 9) 10 ltac:(lia)). lia.
Qed.

Lemma n_train_zero (n : nat) : n - n_test_of val_size n = 0 <-> n < 2.
Proof.
  pose proof (n_test_bounds n). split; intros H0; [|lia].
  destruct (le_lt_dec 2 n); [|assumption]. lia.
Qed.

Lemma nth_error_seq0 (n i : nat) : i < n -> nth_error (seq 0 n) i = Some i.
Proof.
  intros H. rewrite (nth_error_nth' _ 0) by (now rewrite length_seq).
  now rewrite seq_nth.
Qed.

Lemma safe_indexing_seq (n : nat) (ind : list nat) :
  Forall (fun i => i < n) ind -> safe_indexing (seq 0 n) ind = Ok ind.
Proof.
  intros H. unfold safe_indexing. rewrite <- (map_id ind) at 2.
  apply mapM_ok_map. intros i Hi. rewrite Forall_forall in H.
  now rewrite nth_error_seq0 by auto.
Qed.

Lemma permutation_range (p : list nat) (n : nat) :
  Permutation p (seq 0 n) -> Forall (fun i => i < n) p /\ length p = n /\ NoDup p.
Proof.
  intros Hp. split; [|split].
  - apply Forall_forall. intros i Hi.
    apply (Permutation_in _ Hp) in Hi. apply in_seq in Hi. lia.
  - rewrite (Permutation_length Hp). apply length_seq.
  - apply (Permutation_NoDup (Permutation_sym Hp)). apply seq_NoDup.
Qed.

Lemma Forall_firstn {A : Type} (P : A -> Prop) (k : nat) (l : list A) :
  Forall P l -> Forall P (firstn k l).
Proof.
  intros H. rewrite <- (firstn_skipn k l) in H. now apply Forall_app in H.
Qed.

Lemma Forall_skipn {A : Type} (P : A -> Prop) (k : nat) (l : list A) :
  Forall P l -> Forall P (skipn k l).
Proof.
  intros H. rewrite <- (firstn_skipn k l) in H. now apply Forall_app in H.
Qed.

Section Split.
Context `{F : Framework}.

(** The generator's [permutation(n)] is a permutation of [range(n)]. *)
Hypothesis np_permutation_spec :
  forall (g : np_rng) (n : nat), Permutation (np_permutation g n) (seq 0 n).

Lemma train_test_split_range (global : np_rng) (n : nat) (seed : Z) :
  2 <= n ->
  let p := np_permutation (np_seed seed) n in
  let k := n_test_of val_size n in
  train_test_split global (seq 0 n) val_size (Some seed)
  = Ok (skipn k p, firstn k p).
Proof.
  intros Hn p k. unfold train_test_split.
  rewrite length_seq. fold k.
  pose proof (n_test_bounds n) as [_ Hk]. fold k in Hk.
  destruct (Nat.eqb_spec (n - k) 0) as [E|_].
  { apply n_train_zero in E. lia. }
  cbn [check_random_state]. fold p.
  destruct (permutation_range p n (np_permutation_spec _ _)) as (Hr & Hl & _).
  assert (Ef : firstn (n - k) (skipn k p) = skipn k p).
  { apply firstn_all2. rewrite length_skipn. lia. }
  rewrite Ef.
  rewrite (safe_indexing_seq n (skipn k p)) by now apply Forall_skipn.
  cbn [bind].
  rewrite (safe_indexing_seq n (firstn k p)) by now apply Forall_firstn.
  reflexivity.
Qed.

Lemma train_test_split_small (global : np_rng) (n : nat) (rs : option Z) :
  n < 2 -> train_test_split global (seq 0 n) val_size rs = Raise ValueError.
Proof.
  intros Hn. unfold train_test_split. rewrite length_seq.
  apply n_train_zero in Hn. now rewrite Hn.
Qed.

(** C5 (amended): for every dataset of at least two items, the split of
    the index list [0, n) returns a training and a validation index list
    that are disjoint and together hold every index exactly once, the
    validation list holding ceil(0.3 n) of them; the split is the same
    whatever the state of the global generator; the validation loader
    yields the same index batches, in the order of its subset, on every
    pass and leaves the generator alone, while the training loader draws a
    permutation on every pass. *)
Theorem C5_deterministic_split (global : np_rng) (dataset : AudioFolder) :
  let n := length (samples dataset) in
  2 <= n ->
  exists train_indices val_indices G,
    make_loaders global dataset = Ok (train_indices, val_indices, G) /\
    Permutation (train_indices ++ val_indices) (seq 0 n) /\
    NoDup (train_indices ++ val_indices) /\
    (forall i, In i train_indices -> In i val_indices -> False) /\
    (forall i, i < n <-> In i train_indices \/ In i val_indices) /\
    length val_indices = (3 * n + 9) / 10 /\
    3 * n <= 10 * length val_indices < 3 * n + 10 /\
    (forall global', make_loaders global' dataset
                     = Ok (train_indices, val_indices, G)) /\
    subset_indices (dl_dataset (train_loader G)) = train_indices /\
    subset_indices (dl_dataset (val_loader G)) = val_indices /\
    (forall g, batch_sampler (val_loader G) g
               = (chunks batch_size (seq 0 (length val_indices)), g)) /\
    (forall g, batch_sampler (train_loader G) g
               = (chunks batch_size (fst (randperm g (length train_indices))),
                  snd (randperm g (length train_indices)))).
Proof.
  intros n Hn.
  set (p := np_permutation (np_seed 42%Z) n).
  set (k := n_test_of val_size n).
  assert (Hsplit : forall g, make_loaders g dataset
            = Ok (skipn k p, firstn k p,
                  {| train_loader :=
                       {| dl_dataset := {| subset_dataset := dataset;
                                           subset_indices := skipn k p |};
                          dl_batch_size := batch_size; dl_shuffle := true |};
                     val_loader :=
                       {| dl_dataset := {| subset_dataset := dataset;
                                           subset_indices := firstn k p |};
                          dl_batch_size := batch_size; dl_shuffle := false |} |})).
  { intros g. unfold make_loaders. fold n.
    rewrite (train_test_split_range g n 42%Z Hn). reflexivity. }
  destruct (permutation_range p n (np_permutation_spec _ _)) as (Hr & Hl & Hnd).
  pose proof (n_test_bounds n) as [Hk1 Hk2]. fold k in Hk1, Hk2.
  assert (Hperm : Permutation (skipn k p ++ firstn k p) (seq 0 n)).
  { eapply Permutation_trans; [apply Permutation_app_comm|].
    rewrite firstn_skipn. apply np_permutation_spec. }
  assert (Hnd' : NoDup (skipn k p ++ firstn k p)).
  { apply (Permutation_NoDup (Permutation_sym Hperm)). apply seq_NoDup. }
  assert (Hlen : length (firstn k p) = k) by (rewrite length_firstn; lia).
  do 3 eexists. split; [apply Hsplit|].
  split; [exact Hperm|]. split; [exact Hnd'|].
  split; [|split; [|split; [|split; [|split; [|split; [|split; [|split]]]]]]].
  - intros i Ht Hv. revert Ht Hv. clear - Hnd'.
    induction (skipn k p) as [|a l IH]; simpl; [tauto|].
    inv Hnd'. intros [-> | Ht] Hv.
    + apply H1. apply in_or_app. now right.
    + now apply IH.
  - intros i. rewrite <- in_app_iff. split; intros Hi.
    + apply (Permutation_in _ (Permutation_sym Hperm)). apply in_seq. lia.
    + apply (Permutation_in _ Hperm) in Hi. apply in_seq in Hi. lia.
  - rewrite Hlen. unfold k. apply n_test_of_val_size.
  - rewrite Hlen. exact Hk1.
  - exact Hsplit.
  - reflexivity.
  - reflexivity.
  - intros g. unfold batch_sampler. reflexivity.
  - intros g. unfold batch_sampler. cbn.
    destruct (randperm g _). reflexivity.
Qed.

End Split.

(* ================================================================== *)
(** * Validation is forward-only *)

Lemma BatchNorm1d_forward_eval bn x y bn' :
  BatchNorm1d_forward false bn x = Ok (y, bn') -> bn' = bn.
Proof.
  unfold BatchNorm1d_forward. destruct (negb _); [discriminate|].
  intros E. now inv E.
Qed.

Ltac bind_inv E :=
  let a := fresh "a" in let Ea := fresh "Ea" in
  apply bind_ok in E as (a & Ea & E).

Lemma forward_eval_same m x y m' :
  training m = false -> forward m x = Ok (y, m') -> m' = m.
Proof.
  intros Ht E. unfold forward in E. rewrite Ht in E.
  repeat (let a := fresh "a" in let Ea := fresh "Ea" in
          apply bind_ok in E as (a & Ea & E);
          lazymatch type of Ea with
          | BatchNorm1d_forward _ _ _ = Ok _ =>
              destruct a; apply BatchNorm1d_forward_eval in Ea; subst
          | _ => idtac
          end).
  inv E. destruct m; simpl in *; subst; reflexivity.
Qed.

(** A sample counts as correct exactly when the index predicted for it
    equals its target label. *)
Lemma number_of_correct_cons (i : nat) (pred : list (list nat)) (t : Z) (target : list Z) :
  number_of_correct ([i] :: pred) (t :: target)
  = (if (Z.of_nat i =? t)%Z then 1 else 0) + number_of_correct pred target.
Proof.
  unfold number_of_correct. cbn [concat app combine filter fst snd].
  destruct (Z.of_nat i =? t)%Z; reflexivity.
Qed.

Section Validation.
Context `{F : Framework}.
Variable G : Loaders.

Lemma val_loop_eval (batches : list (list nat)) (m : M5) (l : R) (c : nat) :
  training m = false ->
  for_each (val_body G) batches (m, l, c)
  = (rs <- mapM (val_batch G m) batches ;;
     Ok (m, fold_left Rplus (map fst rs) l, fold_left Nat.add (map snd rs) c)).
Proof.
  intros Ht. revert l c.
  induction batches as [|idx rest IH]; intros l c; [reflexivity|].
  cbn [for_each mapM]. unfold val_body at 1, val_batch at 1.
  destruct (fetch (val_loader G) idx) as [[data target]|e]; cbn [bind];
    [|reflexivity].
  destruct (forward m data) as [[output m']|e] eqn:Ef; cbn [bind];
    [|reflexivity].
  apply (forward_eval_same _ _ _ _ Ht) in Ef. subst m'.
  destruct (criterion output target) as [loss|e]; cbn [bind]; [|reflexivity].
  destruct (get_likely_index output) as [pred|e]; cbn [bind]; [|reflexivity].
  rewrite IH.
  destruct (mapM (val_batch G m) rest) as [rs|e]; cbn [bind]; reflexivity.
Qed.

(** [val] in closed form: the model is put in evaluation mode and comes
    back as such; the appended loss is the sum of the batch losses divided
    by the number of training batches. *)
Lemma val_eq (model : M5) (epoch : nat) (losses : list R) (g : torch_rng) :
  val G model epoch losses g
  = (rs <- mapM (val_batch G (model_eval model))
                (fst (batch_sampler (val_loader G) g)) ;;
     val_loss <- py_div (fold_left Rplus (map fst rs) 0%R)
                        (DataLoader_len (train_loader G)) ;;
     _ <- py_div (100 * INR (fold_left Nat.add (map snd rs) 0%nat))%R
                 (Subset_len (dl_dataset (val_loader G))) ;;
     Ok (model_eval model, losses ++ [val_loss],
         fold_left Nat.add (map snd rs) 0,
         snd (batch_sampler (val_loader G) g))).
Proof.
  unfold val. destruct (batch_sampler (val_loader G) g) as [batches g'].
  cbn [fst snd].
  rewrite val_loop_eval by reflexivity.
  destruct (mapM (val_batch G (model_eval model)) batches) as [rs|e];
    cbn [bind]; reflexivity.
Qed.

Lemma val_model (model : M5) epoch losses g m' losses' correct g' :
  val G model epoch losses g = Ok (m', losses', correct, g') ->
  m' = model_eval model /\
  exists v, losses' = losses ++ [v].
Proof.
  rewrite val_eq. intros E.
  bind_inv E. bind_inv E. bind_inv E. inv E. eauto.
Qed.

End Validation.

(* ================================================================== *)
(** * The training loop and its checkpoints *)

Lemma for_each_app {A S : Type} (body : S -> A -> result S) (l1 l2 : list A) (s : S) :
  for_each body (l1 ++ l2) s = (s' <- for_each body l1 s ;; for_each body l2 s').
Proof.
  revert s. induction l1 as [|a l1 IH]; intros s; simpl; [reflexivity|].
  destruct (body s a); simpl; [apply IH | reflexivity].
Qed.

Lemma last_item_app (l : list R) (v : R) : last_item (l ++ [v]) = Ok v.
Proof. unfold last_item. now rewrite rev_unit. Qed.

Lemma min_with_app (b : R) (l : list R) (v : R) :
  min_with b (l ++ [v]) = Rmin (min_with b l) v.
Proof. unfold min_with. now rewrite fold_left_app. Qed.

Lemma min_with_lt (b : R) (l : list R) (v : R) :
  (v < min_with b l)%R <-> (v < b)%R /\ forall x, In x l -> (v < x)%R.
Proof.
  unfold min_with. revert b.
  induction l as [|a l IH]; intros b; simpl.
  - tauto.
  - rewrite IH. split.
    + intros [H1 H2]. pose proof (Rmin_l b a). pose proof (Rmin_r b a).
      split; [lra|]. intros x [<- | Hx]; [lra | auto].
    + intros [H1 H2]. split; [|auto].
      apply Rmin_glb_lt; [assumption | apply H2; now left].
Qed.

Lemma min_with_le (b : R) (l : list R) :
  (min_with b l <= b)%R /\ forall x, In x l -> (min_with b l <= x)%R.
Proof.
  unfold min_with. revert b.
  induction l as [|a l IH]; intros b; simpl.
  - split; [lra | tauto].
  - destruct (IH (Rmin b a)) as [H1 H2].
    pose proof (Rmin_l b a). pose proof (Rmin_r b a).
    split; [lra|]. intros x [<- | Hx]; [lra | auto].
Qed.

Section Loop.
Context `{F : Framework}.
Variable G : Loaders.

Lemma training_loop_S (k : nat) (m : M5) (opt : optimizer) (g : torch_rng) :
  training_loop G (S k) m opt g
  = (st <- training_loop G k m opt g ;; epoch_step G st (S k)).
Proof.
  unfold training_loop. rewrite seq_S, for_each_app. cbn [Nat.add].
  destruct (py_div 1 _) as [u|e]; cbn [bind]; [|reflexivity].
  destruct (for_each _ (seq 1 k) _) as [st|e]; cbn [bind for_each]; [|reflexivity].
  destruct (epoch_step G st (S k)); reflexivity.
Qed.

(** One epoch: the model it leaves is the one [train] returned, put in
    evaluation mode; one loss is appended; a checkpoint of that model is
    written exactly when the loss is below [best_loss]. *)
Lemma epoch_step_spec (st st' : loop_state) (e : nat) :
  epoch_step G st e = Ok st' ->
  exists m_t opt g_t v c g_v,
    train G (ls_model st) e log_interval (train_losses st)
          (ls_optimizer st) (ls_rng st)
    = Ok (m_t, train_losses st', opt, g_t) /\
    val G m_t e (val_losses st) g_t
    = Ok (ls_model st', val_losses st', c, g_v) /\
    ls_model st' = model_eval m_t /\
    val_losses st' = val_losses st ++ [v] /\
    (((v < best_loss st)%R /\ best_loss st' = v /\
      saved st' = saved st ++ [(e, state_dict (ls_model st'))]) \/
     (~ (v < best_loss st)%R /\ best_loss st' = best_loss st /\
      saved st' = saved st)).
Proof.
  unfold epoch_step. intros E.
  apply bind_ok in E as ([[[m_t tl] opt] g_t] & Et & E).
  apply bind_ok in E as ([[[m_v vl] c] g_v] & Ev & E).
  destruct (val_model _ _ _ _ _ _ _ _ _ Ev) as (-> & v & ->).
  rewrite last_item_app in E. cbn [bind] in E.
  exists m_t, opt, g_t, v, c, g_v.
  destruct (Rlt_dec v (best_loss st)) as [Hlt | Hge]; inv E; cbn;
    repeat split; auto.
Qed.

Lemma training_loop_inv (m : M5) (opt : optimizer) (g : torch_rng) (k : nat) :
  forall st, training_loop G k m opt g = Ok st -> loop_inv G m opt g k st.
Proof.
  induction k as [|k IH]; intros st' E.
  - unfold training_loop in E. apply bind_ok in E as (u & _ & E).
    simpl in E. inv E.
    unfold loop_inv, initial_state, saved_epochs. cbn.
    repeat split; try reflexivity; try tauto; intros; lia.
  - pose proof E as E'. rewrite training_loop_S in E.
    apply bind_ok in E as (st & Ek & Es).
    destruct (IH st Ek) as (Hlen & Hbest & Hsaved & Hlast).
    destruct (epoch_step_spec _ _ _ Es)
      as (m_t & opt' & g_t & v & c & g_v & _ & _ & Hm & Hvl & Hcase).
    assert (Hnth : forall e, 1 <= e <= k ->
              nth (e - 1) (val_losses st') 0%R = nth (e - 1) (val_losses st) 0%R).
    { intros e He. rewrite Hvl, app_nth1 by lia. reflexivity. }
    assert (Hfirst : forall e, 1 <= e <= S k ->
              firstn (e - 1) (val_losses st') = firstn (e - 1) (val_losses st)).
    { intros e He. rewrite Hvl, firstn_app.
      replace (e - 1 - length (val_losses st)) with 0 by lia.
      simpl. apply app_nil_r. }
    assert (HnthS : nth (S k - 1) (val_losses st') 0%R = v).
    { rewrite Hvl, app_nth2 by lia.
      replace (S k - 1 - length (val_losses st)) with 0 by lia. reflexivity. }
    assert (HfirstS : firstn (S k - 1) (val_losses st) = val_losses st).
    { apply firstn_all2. lia. }
    assert (Hmin : min_with initial_best_loss (val_losses st')
                   = Rmin (best_loss st) v).
    { rewrite Hvl, min_with_app, Hbest. reflexivity. }
    unfold loop_inv. split; [rewrite Hvl, length_app; simpl; lia|].
    destruct Hcase as [(Hlt & Hb' & Hs') | (Hge & Hb' & Hs')].
    + split; [rewrite Hmin, Hb', Rmin_right by lra; reflexivity|]. split.
      * intros e. unfold saved_epochs in *. rewrite Hs', map_app, in_app_iff.
        rewrite Hsaved. cbn [map fst In]. split.
        -- intros [(He & Hv) | [<- | []]].
           ++ rewrite Hnth, Hfirst by lia. split; [lia | assumption].
           ++ rewrite HnthS, Hfirst, HfirstS, <- Hbest by lia.
              split; [lia | assumption].
        -- intros (He & Hv). destruct (Nat.eq_dec e (S k)) as [-> | Hne].
           ++ right. now left.
           ++ left. rewrite Hnth, Hfirst in Hv by lia. split; [lia | assumption].
      * rewrite Hs', rev_unit. split; [lia|]. split.
        -- rewrite HnthS. assumption.
        -- exists st'. split; [assumption | reflexivity].
    + split; [rewrite Hmin, Hb', Rmin_left by lra; reflexivity|]. split.
      * intros e. unfold saved_epochs in *. rewrite Hs', Hsaved. split.
        -- intros (He & Hv). rewrite Hnth, Hfirst by lia. split; [lia | assumption].
        -- intros (He & Hv). destruct (Nat.eq_dec e (S k)) as [-> | Hne].
           ++ rewrite HnthS, Hfirst, HfirstS, <- Hbest in Hv by lia. contradiction.
           ++ rewrite Hnth, Hfirst in Hv by lia. split; [lia | assumption].
      * rewrite Hs'. destruct (rev (saved st)) as [|[e sd] rest].
        -- congruence.
        -- destruct Hlast as (He & Hbe & Hst). split; [lia|].
           split; [|assumption]. rewrite Hb', Hnth by lia. assumption.
Qed.

End Loop.

(* ================================================================== *)
(** * Runs that return *)

Lemma mapM_ok_forall {A B : Type} (f : A -> result B) (P : B -> Prop) (l : list A) :
  (forall a, In a l -> exists b, f a = Ok b /\ P b) ->
  exists bs, mapM f l = Ok bs /\ Forall P bs /\ length bs = length l.
Proof.
  induction l as [|a l IH]; intros H; simpl.
  - exists []. auto.
  - destruct (H a (or_introl eq_refl)) as (b & Eb & Pb).
    destruct IH as (bs & Ebs & Pbs & Hl); [intros; apply H; now right|].
    exists (b :: bs). rewrite Eb, Ebs. simpl. auto.
Qed.

Lemma for_each_ok {A S : Type} (body : S -> A -> result S) (I : S -> Prop)
    (l : list A) (s : S) :
  I s ->
  (forall s a, In a l -> I s -> exists s', body s a = Ok s' /\ I s') ->
  exists s', for_each body l s = Ok s' /\ I s'.
Proof.
  revert s. induction l as [|a l IH]; intros s Hs H; simpl; [eauto|].
  destruct (H s a (or_introl eq_refl) Hs) as (s1 & E1 & H1).
  rewrite E1. cbn [bind]. apply IH; [assumption|].
  intros s2 b Hb. apply H. now right.
Qed.

Lemma chunks_aux_spec {A : Type} (bs fuel : nat) (l : list A) :
  0 < bs ->
  Forall (fun c => c <> [] /\ forall a, In a c -> In a l) (chunks_aux fuel bs l).
Proof.
  intros Hbs. revert l. induction fuel as [|fuel IH]; intros l; simpl; [constructor|].
  destruct l as [|a l]; [constructor|].
  constructor.
  - split.
    + destruct bs; [lia | discriminate].
    + intros b Hb. rewrite <- (firstn_skipn bs (a :: l)).
      apply in_or_app. now left.
  - eapply Forall_impl; [|apply IH].
    intros c [Hc Hin]. split; [assumption|].
    intros b Hb. rewrite <- (firstn_skipn bs (a :: l)).
    apply in_or_app. right. auto.
Qed.

Lemma chunks_spec {A : Type} (bs : nat) (l : list A) :
  0 < bs -> Forall (fun c => c <> [] /\ forall a, In a c -> In a l) (chunks bs l).
Proof. apply chunks_aux_spec. Qed.

Lemma DataLoader_len_pos (dl : DataLoader) :
  0 < dl_batch_size dl -> 0 < Subset_len (dl_dataset dl) -> 0 < DataLoader_len dl.
Proof.
  intros Hb Hn. unfold DataLoader_len.
  apply (div_ge _ _ 1); lia.
Qed.

Lemma argmax_ok B C L (x : tensor3) :
  has_shape B C L x -> 0 < L -> exists pred, argmax x = Ok pred.
Proof.
  intros [_ Hx] HL. unfold argmax.
  destruct (mapM_ok_forall (mapM argmax_row) (fun _ => True) x) as (pred & E & _).
  - intros s Hs. rewrite Forall_forall in Hx. destruct (Hx s Hs) as [_ Hrows].
    destruct (mapM_ok_forall argmax_row (fun _ => True) s) as (p & E & _).
    + intros row Hrow. rewrite Forall_forall in Hrows.
      destruct (argmax_row_ok row) as (i & Ei).
      * intros ->. specialize (Hrows [] Hrow). simpl in Hrows. lia.
      * eauto.
    + eauto.
  - eauto.
Qed.

Lemma Subset_getitem_ok (s : Subset) (i : nat) :
  Forall good_clip (samples (subset_dataset s)) ->
  Forall (fun j => j < length (samples (subset_dataset s))) (subset_indices s) ->
  i < Subset_len s ->
  exists it, Subset_getitem s i = Ok it /\ good_clip it.
Proof.
  intros Hg Hi Hlt. unfold Subset_getitem, Subset_len in *.
  destruct (nth_error (subset_indices s) i) as [j|] eqn:Ej.
  - apply nth_error_In in Ej. rewrite Forall_forall in Hi. specialize (Hi j Ej).
    destruct (nth_error (samples (subset_dataset s)) j) as [it|] eqn:Eit.
    + exists it. split; [reflexivity|].
      apply nth_error_In in Eit. rewrite Forall_forall in Hg. auto.
    + apply nth_error_None in Eit. lia.
  - apply nth_error_None in Ej. lia.
Qed.

Lemma fetch_ok (dl : DataLoader) (c : list nat) :
  good_loader dl -> c <> [] ->
  (forall i, In i c -> i < Subset_len (dl_dataset dl)) ->
  exists data target L,
    fetch dl c = Ok (data, target) /\ has_shape (length c) 1 L data /\ 6848 <= L.
Proof.
  intros (Hg & Hi & _ & _) Hne Hc. unfold fetch.
  destruct (mapM_ok_forall (Subset_getitem (dl_dataset dl)) good_clip c)
    as (items & E & Hitems & Hlen).
  { intros i Hin. apply Subset_getitem_ok; auto. }
  rewrite E. cbn [bind]. unfold collate_fn.
  assert (Hne' : map fst items <> []).
  { destruct items; [destruct c; [congruence | discriminate] | discriminate]. }
  assert (Hsh : Forall (fun w => exists L, has_shape2 1 L w) (map fst items)).
  { forall_map_as it Hit. rewrite Forall_forall in Hitems.
    destruct (Hitems it Hit) as (L & HL & _). eauto. }
  destruct (pad_sequence_ok _ 1 Hne' Hsh) as [Ep S].
  rewrite Ep. cbn [bind]. do 3 eexists. split; [reflexivity|].
  rewrite length_map, Hlen in S. split; [exact S|].
  destruct items as [|it items]; [exfalso; now apply Hne'|].
  inv Hitems. destruct H1 as (L & HL & HL').
  apply Nat.le_trans with (m := L); [assumption|].
  rewrite <- (has_shape2_size1 1 L (fst it)) by (assumption || lia).
  apply list_max_ge. simpl. now left.
Qed.

Section Totality.
Context `{F : Framework}.

(** The framework is well behaved: a drawn permutation of [n] holds
    indices below [n], the criterion returns a loss, and the optimiser
    keeps the shapes of the model. *)
Hypothesis randperm_range :
  forall g n i, In i (fst (randperm g n)) -> i < n.
Hypothesis criterion_total :
  forall output target, exists loss, criterion output target = Ok loss.
Hypothesis optimizer_arch :
  forall o m data target ni no s nc,
    M5_arch ni no s nc m -> M5_arch ni no s nc (snd (optimizer_step o m data target)).

Variable G : Loaders.
Variables n_output n_channel : nat.
Hypothesis good_train : good_loader (train_loader G).
Hypothesis good_val : good_loader (val_loader G).
Hypothesis n_output_pos : 0 < n_output.
Hypothesis n_channel_pos : 0 < n_channel.

Let arch := M5_arch 1 n_output 16 n_channel.

Lemma batch_sampler_range (dl : DataLoader) (g : torch_rng) :
  0 < dl_batch_size dl ->
  Forall (fun c => c <> [] /\ forall i, In i c -> i < Subset_len (dl_dataset dl))
         (fst (batch_sampler dl g)).
Proof.
  intros Hbs. unfold batch_sampler.
  destruct (dl_shuffle dl).
  - destruct (randperm g (Subset_len (dl_dataset dl))) as [order g'] eqn:E.
    cbn [fst]. eapply Forall_impl; [|apply chunks_spec; assumption].
    intros c [Hc Hin]. split; [assumption|]. intros i Hi.
    apply (randperm_range g). rewrite E. cbn [fst]. auto.
  - cbn [fst]. eapply Forall_impl; [|apply chunks_spec; assumption].
    intros c [Hc Hin]. split; [assumption|]. intros i Hi.
    apply Hin, in_seq in Hi. lia.
Qed.

Lemma val_batch_ok (m : M5) (c : list nat) :
  arch m -> c <> [] ->
  (forall i, In i c -> i < Subset_len (dl_dataset (val_loader G))) ->
  exists r, val_batch G m c = Ok r.
Proof.
  intros Ha Hne Hc. unfold val_batch.
  destruct (fetch_ok _ c good_val Hne Hc) as (data & target & L & E & S & HL).
  rewrite E. cbn [bind].
  assert (HB : 0 < length c) by (destruct c; [congruence | simpl; lia]).
  destruct (forward_ok m 1 n_output n_channel _ L data Ha S HB)
    as (y & m' & Ef & Sy & _); try lia.
  rewrite Ef. cbn [bind].
  destruct (criterion_total y target) as (loss & El). rewrite El. cbn [bind].
  destruct (argmax_ok _ _ _ y Sy n_output_pos) as (pred & Ep).
  unfold get_likely_index. rewrite Ep. cbn [bind]. eauto.
Qed.

Lemma val_ok (m : M5) (epoch : nat) (losses : list R) (g : torch_rng) :
  arch m ->
  exists v c g',
    val G m epoch losses g = Ok (model_eval m, losses ++ [v], c, g').
Proof.
  intros Ha. rewrite val_eq.
  destruct good_val as (_ & _ & Hbs & Hn).
  destruct (mapM_ok_forall (val_batch G (model_eval m)) (fun _ => True)
                           (fst (batch_sampler (val_loader G) g)))
    as (rs & E & _).
  { intros c Hc.
    pose proof (batch_sampler_range (val_loader G) g Hbs) as Hr.
    rewrite Forall_forall in Hr. destruct (Hr c Hc) as [Hne Hin].
    destruct (val_batch_ok (model_eval m) c) as (r & Er); eauto. }
  rewrite E. cbn [bind]. unfold py_div.
  destruct good_train as (_ & _ & Hbs' & Hn').
  pose proof (DataLoader_len_pos _ Hbs' Hn') as Hlen.
  destruct (Nat.eqb_spec (DataLoader_len (train_loader G)) 0); [lia|].
  cbn [bind].
  destruct (Nat.eqb_spec (Subset_len (dl_dataset (val_loader G))) 0); [lia|].
  cbn [bind]. eauto.
Qed.

Lemma train_ok (m : M5) (epoch : nat) (losses : list R)
    (opt : optimizer) (g : torch_rng) :
  arch m ->
  exists m' losses' opt' g',
    train G m epoch log_interval losses opt g = Ok (m', losses', opt', g') /\
    arch m'.
Proof.
  intros Ha. unfold train.
  destruct good_train as (_ & _ & Hbs & Hn).
  pose proof (batch_sampler_range (train_loader G) g Hbs) as Hr.
  destruct (batch_sampler (train_loader G) g) as [batches g'].
  cbn [fst] in Hr. rewrite Forall_forall in Hr.
  match goal with
  | |- context [for_each ?body batches ?s0] =>
      destruct (for_each_ok body (fun acc => arch (fst (fst acc))) batches s0)
        as ([[m' opt'] tl] & E & Hm')
  end.
  - exact Ha.
  - intros [[m1 o1] l1] c Hc Hm1. cbn [fst] in Hm1.
    destruct (Hr c Hc) as [Hne Hin].
    destruct (fetch_ok _ c good_train Hne Hin) as (data & target & L & E & S & HL).
    rewrite E. cbn [bind].
    assert (HB : 0 < length c) by (destruct c; [congruence | simpl; lia]).
    destruct (forward_ok m1 1 n_output n_channel _ L data Hm1 S HB)
      as (y & m2 & Ef & _ & Hm2 & _); try lia.
    rewrite Ef. cbn [bind].
    destruct (criterion_total y target) as (loss & El). rewrite El. cbn [bind].
    pose proof (optimizer_arch o1 m2 data target _ _ _ _ Hm2) as Hm3.
    destruct (optimizer_step o1 m2 data target) as [o3 m3]. cbn [snd] in Hm3.
    cbn. eexists. split; [reflexivity|]. exact Hm3.
  - rewrite E. cbn [bind]. unfold py_div.
    pose proof (DataLoader_len_pos _ Hbs Hn) as Hlen.
    destruct (Nat.eqb_spec (DataLoader_len (train_loader G)) 0); [lia|].
    cbn [bind]. do 4 eexists. split; [reflexivity | exact Hm'].
Qed.

Lemma epoch_step_ok (st : loop_state) (epoch : nat) :
  arch (ls_model st) ->
  exists st', epoch_step G st epoch = Ok st' /\ arch (ls_model st').
Proof.
  intros Ha. unfold epoch_step.
  destruct (train_ok (ls_model st) epoch (train_losses st)
                     (ls_optimizer st) (ls_rng st) Ha)
    as (m1 & tl & opt & g1 & Et & Hm1).
  rewrite Et. cbn [bind].
  destruct (val_ok m1 epoch (val_losses st) g1 Hm1) as (v & c & g2 & Ev).
  rewrite Ev. cbn [bind]. rewrite last_item_app. cbn [bind].
  destruct (Rlt_dec v (best_loss st)); eexists; (split; [reflexivity|]);
    exact Hm1.
Qed.

(** The training loop returns. *)
Lemma training_loop_ok (k : nat) (m : M5) (opt : optimizer) (g : torch_rng) :
  arch m ->
  exists st, training_loop G k m opt g = Ok st /\ arch (ls_model st).
Proof.
  intros Ha. induction k as [|k (st & E & Hst)].
  - unfold training_loop, py_div.
    destruct good_train as (_ & _ & Hbs & Hn).
    pose proof (DataLoader_len_pos _ Hbs Hn) as Hlen.
    destruct (Nat.eqb_spec (DataLoader_len (train_loader G)
                            + DataLoader_len (val_loader G)) 0); [lia|].
    eexists. split; [reflexivity | exact Ha].
  - rewrite training_loop_S, E. cbn [bind]. now apply epoch_step_ok.
Qed.

End Totality.

(* ================================================================== *)
(** * Claims on validation and on the checkpoints *)

(** C6: a call of [val] that returns leaves the model with the state dict
    (every parameter and every batch-norm running statistic) it had before
    the call, having only put it in evaluation mode; and in an epoch of the
    training loop the state dict the model ends with is the one [train]
    produced. *)
Theorem C6_val_is_forward_only `{F : Framework} (G : Loaders) (model : M5)
    (epoch : nat) (losses : list R) (g : torch_rng)
    (model' : M5) (losses' : list R) (correct : nat) (g' : torch_rng) :
  val G model epoch losses g = Ok (model', losses', correct, g') ->
  state_dict model' = state_dict model /\
  model' = model_eval model /\
  (forall st e st',
      epoch_step G st e = Ok st' ->
      exists m_t tl opt g_t,
        train G (ls_model st) e log_interval (train_losses st)
              (ls_optimizer st) (ls_rng st) = Ok (m_t, tl, opt, g_t) /\
        state_dict (ls_model st') = state_dict m_t).
Proof.
  intros E. destruct (val_model _ _ _ _ _ _ _ _ _ E) as (-> & _).
  split; [reflexivity|]. split; [reflexivity|].
  intros st e st' Es.
  destruct (epoch_step_spec _ _ _ _ Es)
    as (m_t & opt & g_t & v & c & g_v & Et & _ & Hm & _).
  exists m_t, (train_losses st'), opt, g_t. split; [exact Et|].
  rewrite Hm. reflexivity.
Qed.

(** C10: the comparison starts from a best loss of 10000, and after a run of
    [n] epochs that returns, a checkpoint was written at epoch [e] if and
    only if the validation loss of epoch [e] is strictly below the minimum
    of 10000 and the validation losses of the earlier epochs; an epoch whose
    validation loss is 10000 or more wrote no checkpoint. *)
Theorem C10_checkpoint_threshold `{F : Framework} (G : Loaders) (n : nat)
    (m : M5) (opt : optimizer) (g : torch_rng) (st : loop_state) :
  training_loop G n m opt g = Ok st ->
  best_loss (initial_state m opt g) = 10000%R /\
  length (val_losses st) = n /\
  forall e, 1 <= e <= n ->
    let v := nth (e - 1) (val_losses st) 0%R in
    (In e (saved_epochs st) <->
     (v < min_with 10000 (firstn (e - 1) (val_losses st)))%R) /\
    ((10000 <= v)%R -> ~ In e (saved_epochs st)).
Proof.
  intros E. destruct (training_loop_inv G m opt g n st E) as (Hlen & _ & Hsaved & _).
  split; [reflexivity|]. split; [assumption|].
  intros e He v. split.
  - rewrite Hsaved. unfold initial_best_loss. tauto.
  - intros Hv Hin. apply Hsaved in Hin as (_ & Hlt).
    apply min_with_lt in Hlt as [Hlt _]. unfold initial_best_loss in Hlt.
    fold v in Hlt. lra.
Qed.

Lemma In_firstn_nth (l : list R) (k : nat) (x : R) :
  k <= length l ->
  (In x (firstn k l) <-> exists j, j < k /\ nth j l 0%R = x).
Proof.
  intros Hk. split.
  - intros Hin. apply (In_nth _ _ 0%R) in Hin as (j & Hj & Hx).
    rewrite length_firstn in Hj. exists j. split; [lia|].
    rewrite nth_firstn in Hx. destruct (Nat.ltb_spec j k); [assumption | lia].
  - intros (j & Hj & <-).
    replace (nth j l 0%R) with (nth j (firstn k l) 0%R).
    + apply nth_In. rewrite length_firstn. lia.
    + rewrite nth_firstn. destruct (Nat.ltb_spec j k); [reflexivity | lia].
Qed.

(** C1 (amended): after a run of [n] epochs that returns, a checkpoint was
    written at epoch [e] if and only if the validation loss of epoch [e] is
    strictly smaller than 10000 and than the validation loss of every
    earlier epoch; and if any checkpoint was written, the file at the save
    path holds the state dict the model had at the end of the first epoch
    whose validation loss is the lowest of the run (which is below 10000),
    while otherwise the file is as it was before the run and every
    validation loss is at least 10000. *)
Theorem C1_best_checkpoint `{F : Framework} (G : Loaders) (n : nat)
    (m : M5) (opt : optimizer) (g : torch_rng) (st : loop_state) :
  training_loop G n m opt g = Ok st ->
  let v := fun e => nth (e - 1) (val_losses st) 0%R in
  (forall e, 1 <= e <= n ->
     (In e (saved_epochs st) <->
      (v e < 10000)%R /\ forall e', 1 <= e' < e -> (v e < v e')%R)) /\
  (forall before : option StateDict,
     match rev (saved st) with
     | [] =>
         checkpoint_file before st = before /\
         forall e, 1 <= e <= n -> (10000 <= v e)%R
     | (e, sd) :: _ =>
         checkpoint_file before st = Some sd /\
         1 <= e <= n /\
         (exists st_e, training_loop G e m opt g = Ok st_e /\
                       sd = state_dict (ls_model st_e)) /\
         (v e < 10000)%R /\
         (forall e', 1 <= e' <= n -> (v e <= v e')%R) /\
         (forall e', 1 <= e' < e -> (v e < v e')%R)
     end).
Proof.
  intros E v.
  destruct (training_loop_inv G m opt g n st E) as (Hlen & Hbest & Hsaved & Hlast).
  assert (Hiff : forall e, 1 <= e <= n ->
            (In e (saved_epochs st) <->
             (v e < 10000)%R /\ forall e', 1 <= e' < e -> (v e < v e')%R)).
  { intros e He. rewrite Hsaved, min_with_lt. unfold initial_best_loss, v. split.
    - intros (_ & Hb & Hall). split; [assumption|].
      intros e' He'. apply Hall. apply In_firstn_nth; [lia|].
      exists (e' - 1). split; [lia | reflexivity].
    - intros (Hb & Hall). split; [assumption|]. split; [assumption|].
      intros x Hx. apply In_firstn_nth in Hx as (j & Hj & <-); [|lia].
      replace j with (S j - 1) by lia. apply Hall. lia. }
  split; [exact Hiff|].
  intros before. unfold checkpoint_file.
  destruct (rev (saved st)) as [|[e sd] rest] eqn:Erev.
  - split; [reflexivity|]. intros e He.
    destruct (min_with_le initial_best_loss (val_losses st)) as [_ Hle].
    rewrite <- Hbest, Hlast in Hle. unfold initial_best_loss in Hle.
    apply Hle. apply nth_In. lia.
  - destruct Hlast as (He & Hbe & Hst).
    assert (Hin : In e (saved_epochs st)).
    { unfold saved_epochs. apply in_map_iff. exists (e, sd). split; [reflexivity|].
      apply in_rev. rewrite Erev. now left. }
    apply (Hiff e He) in Hin as [Hlt Hearlier].
    split; [reflexivity|]. split; [assumption|]. split; [assumption|].
    split; [assumption|]. split; [|assumption].
    intros e' He'.
    destruct (min_with_le initial_best_loss (val_losses st)) as [_ Hle].
    rewrite <- Hbest, Hbe in Hle. apply Hle. apply nth_In. lia.
Qed.

(* ================================================================== *)
(** * A concrete run *)

Lemma example_make_loaders (loss : R) :
  @make_loaders (simple_framework loss) 0%Z example_dataset
  = Ok ([6; 5; 4; 3; 2; 1; 0], [9; 8; 7], example_loaders).
Proof. reflexivity. Qed.

Lemma simple_randperm_range (loss : R) (g : @torch_rng (simple_framework loss)) (n i : nat) :
  In i (fst (@randperm (simple_framework loss) g n)) -> i < n.
Proof. cbn. intros H. apply in_rev, in_seq in H. lia. Qed.

Lemma simple_criterion_total (loss : R) (output : tensor3) (target : list Z) :
  exists l, @criterion (simple_framework loss) output target = Ok l.
Proof. cbn. eauto. Qed.

Lemma simple_optimizer_arch (loss : R) (o : @optimizer (simple_framework loss)) m data target
    ni no s nc :
  M5_arch ni no s nc m ->
  M5_arch ni no s nc (snd (@optimizer_step (simple_framework loss) o m data target)).
Proof. cbn. auto. Qed.

Lemma example_clip_good (label : Z) : good_clip (example_clip, label).
Proof.
  exists 6848. split; [|apply le_n]. split; [reflexivity|].
  constructor; [apply repeat_length | constructor].
Qed.

Lemma good_loader_repeat (n : nat) (tr va : list nat) :
  Forall (fun j => j < n) tr -> Forall (fun j => j < n) va ->
  0 < length tr -> 0 < length va ->
  let G := loaders_of {| samples := repeat (example_clip, 0%Z) n;
                         classes := ["yes"%string; "no"%string] |} tr va in
  good_loader (train_loader G) /\ good_loader (val_loader G).
Proof.
  intros Htr Hva Ltr Lva G.
  assert (Hg : Forall good_clip (repeat (example_clip, 0%Z) n)).
  { apply Forall_forall. intros it Hit. apply repeat_spec in Hit. subst it.
    apply example_clip_good. }
  unfold good_loader, G, loaders_of, Subset_len. cbn.
  rewrite repeat_length. unfold batch_size. repeat split; auto; lia.
Qed.

Lemma example_loaders_good :
  good_loader (train_loader example_loaders) /\ good_loader (val_loader example_loaders).
Proof.
  apply (good_loader_repeat 10); simpl; try lia;
    repeat constructor.
Qed.

Lemma example_training_loop_ok (loss : R) (k : nat) :
  exists st,
    @training_loop (simple_framework loss) example_loaders k
                   (notebook_model zero_init example_dataset) tt tt = Ok st.
Proof.
  destruct example_loaders_good as [Ht Hv].
  destruct (@training_loop_ok (simple_framework loss)
              (simple_randperm_range loss) (simple_criterion_total loss)
              (simple_optimizer_arch loss) example_loaders 2 32 Ht Hv
              ltac:(lia) ltac:(lia) k (notebook_model zero_init example_dataset) tt tt)
    as (st & E & _).
  - apply M5_init_arch.
  - eauto.
Qed.

Lemma example_val_ok (loss : R) :
  exists v c g',
    @val (simple_framework loss) example_loaders
         (notebook_model zero_init example_dataset) 1 [] tt
    = Ok (model_eval (notebook_model zero_init example_dataset), [v], c, g').
Proof.
  destruct example_loaders_good as [Ht Hv].
  apply (@val_ok (simple_framework loss)
              (simple_randperm_range loss) (simple_criterion_total loss)
              example_loaders 2 32 Ht Hv ltac:(lia) ltac:(lia)).
  apply M5_init_arch.
Qed.

Lemma C6_val_is_forward_only_witness :
  exists v c g',
    @val (simple_framework 1) example_loaders
         (notebook_model zero_init example_dataset) 1 [] tt
    = Ok (model_eval (notebook_model zero_init example_dataset), [v], c, g') /\
    state_dict (model_eval (notebook_model zero_init example_dataset))
    = state_dict (notebook_model zero_init example_dataset).
Proof.
  destruct (example_val_ok 1) as (v & c & g' & E).
  exists v, c, g'. split; [exact E|].
  exact (proj1 (@C6_val_is_forward_only (simple_framework 1) _ _ _ _ _ _ _ _ _ E)).
Defined.

Lemma C10_checkpoint_threshold_witness :
  exists st,
    @training_loop (simple_framework 1) example_loaders num_epochs
                   (notebook_model zero_init example_dataset) tt tt = Ok st /\
    length (val_losses st) = num_epochs /\
    (In 1 (saved_epochs st) <->
     (nth 0 (val_losses st) 0 < min_with 10000 (firstn 0 (val_losses st)))%R).
Proof.
  destruct (example_training_loop_ok 1 num_epochs) as (st & E).
  exists st. split; [exact E|].
  destruct (@C10_checkpoint_threshold (simple_framework 1) _ _ _ _ _ _ E)
    as (_ & Hlen & H).
  split; [exact Hlen|]. exact (proj1 (H 1 ltac:(unfold num_epochs; lia))).
Defined.

Lemma C1_best_checkpoint_witness :
  exists st,
    @training_loop (simple_framework 1) example_loaders num_epochs
                   (notebook_model zero_init example_dataset) tt tt = Ok st /\
    (In 2 (saved_epochs st) <->
     (nth 1 (val_losses st) 0 < 10000)%R /\
     forall e', 1 <= e' < 2 -> (nth 1 (val_losses st) 0 < nth (e' - 1) (val_losses st) 0)%R).
Proof.
  destruct (example_training_loop_ok 1 num_epochs) as (st & E).
  exists st. split; [exact E|].
  destruct (@C1_best_checkpoint (simple_framework 1) _ _ _ _ _ _ E) as (H & _).
  exact (H 2 ltac:(unfold num_epochs; lia)).
Defined.

(** ** The loss [val] appends with the small framework instance *)

Lemma mapM_forall {A B : Type} (f : A -> result B) (P : B -> Prop)
    (l : list A) (bs : list B) :
  mapM f l = Ok bs -> (forall a b, f a = Ok b -> P b) ->
  Forall P bs /\ length bs = length l.
Proof.
  revert bs. induction l as [|a l IH]; intros bs E H; simpl in E.
  - inv E. auto.
  - bind_inv E. bind_inv E. inv E.
    destruct (IH _ Ea0 H) as [Hf Hl]. split; [|simpl; lia].
    constructor; eauto.
Qed.

Lemma fold_left_const_loss (loss : R) (rs : list (R * nat)) (a : R) :
  Forall (fun r => fst r = loss) rs ->
  fold_left Rplus (map fst rs) a = (a + INR (length rs) * loss)%R.
Proof.
  revert a. induction rs as [|r rs IH]; intros a H.
  - simpl. lra.
  - inv H. cbn [map fold_left length]. rewrite IH by assumption.
    rewrite S_INR. lra.
Qed.

Lemma simple_val_batch_loss (loss : R) (G : Loaders) (m : M5) (c : list nat) (r : R * nat) :
  @val_batch (simple_framework loss) G m c = Ok r -> fst r = loss.
Proof.
  unfold val_batch. intros E.
  bind_inv E. destruct a as [data target].
  bind_inv E. destruct a as [output m'].
  bind_inv E. cbn in Ea1. inv Ea1.
  bind_inv E. inv E. reflexivity.
Qed.

Lemma simple_val_loss (loss : R) (G : Loaders) (m : M5) (e : nat) (losses : list R)
    (g : @torch_rng (simple_framework loss)) m' losses' c g' :
  @val (simple_framework loss) G m e losses g = Ok (m', losses', c, g') ->
  losses' = losses ++
    [((0 + INR (length (fst (@batch_sampler (simple_framework loss) (val_loader G) g)))
          * loss)
      / INR (DataLoader_len (train_loader G)))%R].
Proof.
  rewrite val_eq. intros E.
  bind_inv E. bind_inv E. bind_inv E. inv E.
  destruct (mapM_forall _ (fun r => fst r = loss) _ _ Ea
              (simple_val_batch_loss loss G (model_eval m))) as [Hf Hl].
  rewrite (fold_left_const_loss loss a 0%R Hf), Hl in Ea0.
  unfold py_div in Ea0. destruct (_ =? 0); [discriminate|]. now inv Ea0.
Qed.

Lemma training_loop_1 `{F : Framework} (G : Loaders) (m : M5)
    (opt : optimizer) (g : torch_rng) :
  forall st, training_loop G 1 m opt g = Ok st ->
             epoch_step G (initial_state m opt g) 1 = Ok st.
Proof.
  intros st E. rewrite training_loop_S in E.
  apply bind_ok in E as (st0 & E0 & E).
  unfold training_loop in E0. apply bind_ok in E0 as (u & _ & E0).
  simpl in E0. now inv E0.
Qed.

Lemma example_train_len : DataLoader_len (train_loader example_loaders) = 1.
Proof. reflexivity. Qed.

Lemma example_val_batches (loss : R) (g : @torch_rng (simple_framework loss)) :
  fst (@batch_sampler (simple_framework loss) (val_loader example_loaders) g)
  = [[0; 1; 2]].
Proof. reflexivity. Qed.

(** C1 (as stated, refuted): with every batch loss 20000, the first epoch of
    the example run has a validation loss of 20000, which is (vacuously)
    strictly smaller than that of every earlier epoch; yet no checkpoint is
    written, and the save path, empty before the run, holds no checkpoint
    after it. *)
Lemma C1_no_checkpoint_at_20000 :
  exists st,
    @training_loop (simple_framework 20000) example_loaders 1
                   (notebook_model zero_init example_dataset) tt tt = Ok st /\
    val_losses st = [(20000 / 1)%R] /\
    (forall e', 1 <= e' < 1 ->
       (nth 0 (val_losses st) 0 < nth (e' - 1) (val_losses st) 0)%R) /\
    saved_epochs st = [] /\
    @checkpoint_file (simple_framework 20000) None st = None.
Proof.
  destruct (example_training_loop_ok 20000 1) as (st & E).
  exists st. split; [exact E|].
  apply training_loop_1 in E.
  destruct (epoch_step_spec _ _ _ _ E)
    as (m_t & opt & g_t & v & c & g_v & _ & Ev & _ & Hvl & Hcase).
  apply simple_val_loss in Ev.
  rewrite example_train_len, example_val_batches in Ev.
  assert (Ev' : val_losses st = [(20000 / 1)%R]).
  { rewrite Ev. unfold initial_state. cbn [val_losses app length].
    f_equal. simpl INR. lra. }
  split; [exact Ev'|]. split; [intros e' He'; lia|].
  rewrite Ev' in Hvl. unfold initial_state in Hvl. cbn [val_losses app] in Hvl.
  injection Hvl as <-.
  destruct Hcase as [(Hlt & _) | (_ & _ & Hs)].
  - unfold initial_state in Hlt. cbn [best_loss] in Hlt.
    unfold initial_best_loss in Hlt. lra.
  - unfold saved_epochs, checkpoint_file. rewrite Hs.
    unfold initial_state. cbn [saved map rev]. auto.
Qed.

(* ================================================================== *)
(** * The split and the validation loss on concrete datasets *)

Lemma simple_np_permutation_spec (loss : R) (g : @np_rng (simple_framework loss)) (n : nat) :
  Permutation (@np_permutation (simple_framework loss) g n) (seq 0 n).
Proof. cbn. apply Permutation_sym, Permutation_rev. Qed.

(** C5 (as stated, refuted): for a dataset of one item the split raises an
    error (the training part would be empty), so it partitions nothing. *)
Lemma C5_split_of_one_item_fails :
  @make_loaders (simple_framework 0) 0%Z
     {| samples := [(example_clip, 0%Z)]; classes := ["yes"%string] |}
  = Raise ValueError.
Proof. reflexivity. Qed.

Lemma C5_deterministic_split_witness :
  exists train_indices val_indices G,
    @make_loaders (simple_framework 0) 0%Z example_dataset
    = Ok (train_indices, val_indices, G) /\
    Permutation (train_indices ++ val_indices) (seq 0 10) /\
    length val_indices = 3 /\
    (forall global', @make_loaders (simple_framework 0) global' example_dataset
                     = Ok (train_indices, val_indices, G)).
Proof.
  destruct (@C5_deterministic_split (simple_framework 0) (simple_np_permutation_spec 0)
              0%Z example_dataset)
    as (tr & va & G & E & Hp & _ & _ & _ & Hl & _ & Hd & _).
  - simpl. lia.
  - exists tr, va, G. split; [exact E|]. split; [exact Hp|].
    split; [exact Hl | exact Hd].
Defined.

Lemma large_make_loaders (loss : R) :
  @make_loaders (simple_framework loss) 0%Z large_dataset
  = Ok (large_train_indices, large_val_indices, large_loaders).
Proof.
  unfold make_loaders, large_dataset. cbn [samples]. rewrite repeat_length.
  rewrite (@train_test_split_range (simple_framework loss)
             (simple_np_permutation_spec loss) 0%Z 368 42%Z) by lia.
  rewrite n_test_of_val_size.
  change ((3 * 368 + 9) / 10) with 111. reflexivity.
Qed.

Lemma large_indices_length :
  length large_train_indices = 257 /\ length large_val_indices = 111.
Proof.
  unfold large_train_indices, large_val_indices.
  rewrite length_skipn, length_firstn, length_rev, length_seq. split; reflexivity.
Qed.

Lemma large_loaders_good :
  good_loader (train_loader large_loaders) /\ good_loader (val_loader large_loaders).
Proof.
  destruct large_indices_length as [Ht Hv].
  destruct (permutation_range (rev (seq 0 368)) 368) as (Hr & _).
  { apply Permutation_sym, Permutation_rev. }
  apply (good_loader_repeat 368).
  - now apply Forall_skipn.
  - now apply Forall_firstn.
  - rewrite Ht. lia.
  - rewrite Hv. lia.
Qed.

Lemma large_loaders_len :
  DataLoader_len (train_loader large_loaders) = 2 /\
  DataLoader_len (val_loader large_loaders) = 1.
Proof.
  destruct large_indices_length as [Ht Hv].
  unfold DataLoader_len, large_loaders, loaders_of, Subset_len.
  cbn [train_loader val_loader dl_dataset dl_batch_size subset_indices].
  rewrite Ht, Hv. split; reflexivity.
Qed.

Lemma large_val_batches (loss : R) (g : @torch_rng (simple_framework loss)) :
  length (fst (@batch_sampler (simple_framework loss) (val_loader large_loaders) g)) = 1.
Proof.
  destruct large_indices_length as [_ Hv].
  unfold batch_sampler, large_loaders, loaders_of, Subset_len.
  cbn [val_loader dl_dataset dl_batch_size dl_shuffle subset_indices fst].
  rewrite Hv. reflexivity.
Qed.

(** C3 (the code at a failing input): on the dataset of 368 clips, with
    every batch loss equal to 1, the single validation batch has loss 1, so
    the mean loss per validation batch is 1; [val] appends 1/2, the sum
    divided by the number of training batches. *)
Theorem C3_val_loss_divided_by_train_batches :
  @make_loaders (simple_framework 1) 0%Z large_dataset
  = Ok (large_train_indices, large_val_indices, large_loaders) /\
  DataLoader_len (train_loader large_loaders) = 2 /\
  DataLoader_len (val_loader large_loaders) = 1 /\
  length (fst (@batch_sampler (simple_framework 1) (val_loader large_loaders) tt)) = 1 /\
  exists m' v c g',
    @val (simple_framework 1) large_loaders
         (notebook_model zero_init large_dataset) 1 [] tt = Ok (m', [v], c, g') /\
    v = (1 / 2)%R /\ v <> 1%R.
Proof.
  split; [apply large_make_loaders|].
  destruct large_loaders_len as [Ht Hv].
  split; [exact Ht|]. split; [exact Hv|].
  split; [apply large_val_batches|].
  destruct large_loaders_good as [Gt Gv].
  destruct (@val_ok (simple_framework 1) (simple_randperm_range 1) (simple_criterion_total 1)
              large_loaders 2 32 Gt Gv ltac:(lia) ltac:(lia)
              (notebook_model zero_init large_dataset) 1 [] tt)
    as (v & c & g' & E).
  { apply M5_init_arch. }
  pose proof (simple_val_loss _ _ _ _ _ _ _ _ _ _ E) as Hv'.
  rewrite Ht, large_val_batches in Hv'. cbn [app] in Hv'.
  injection Hv' as Hv'.
  exists (model_eval (notebook_model zero_init large_dataset)), v, c, g'.
  split; [exact E|]. simpl INR in Hv'. split; lra.
Qed.

(* ================================================================== *)
(** * Inference *)

Lemma same_dims1_refl (a : list R) : same_dims1 a a = true.
Proof. unfold same_dims1. apply Nat.eqb_refl. Qed.

Lemma same_dims2_refl (a : list (list R)) : same_dims2 a a = true.
Proof. unfold same_dims2. destruct (list_eq_dec _ _ _); congruence. Qed.

Lemma same_dims3_refl (a : list (list (list R))) : same_dims3 a a = true.
Proof. unfold same_dims3. destruct (list_eq_dec _ _ _); congruence. Qed.

Lemma load_conv_spec c wb c' :
  load_conv c wb = Ok c' ->
  (conv_weight c', conv_bias c') = wb.
Proof.
  unfold load_conv. destruct (_ && _); [|discriminate].
  intros E. inv E. now destruct wb.
Qed.

Lemma load_bn_spec b s b' : load_bn b s = Ok b' -> bn_state_of b' = s.
Proof.
  unfold load_bn. destruct s as [[[[w bi] rm] rv] nbt].
  destruct (_ && _); [|discriminate]. intros E. now inv E.
Qed.

Lemma load_linear_spec l wb l' :
  load_linear l wb = Ok l' -> (fc_weight l', fc_bias l') = wb.
Proof.
  unfold load_linear. destruct (_ && _); [|discriminate].
  intros E. inv E. now destruct wb.
Qed.

(** The loaded model holds exactly the tensors of the state dict. *)
Lemma load_state_dict_spec m sd m' :
  load_state_dict m sd = Ok m' ->
  state_dict m' = sd /\ training m' = training m.
Proof.
  unfold load_state_dict. intros E.
  repeat (let a := fresh "a" in let Ea := fresh "Ea" in
          apply bind_ok in E as (a & Ea & E);
          first [ apply load_conv_spec in Ea
                | apply load_bn_spec in Ea
                | apply load_linear_spec in Ea ]).
  inv E. split; [|reflexivity].
  unfold state_dict. cbn. destruct sd. cbn in *. congruence.
Qed.

Lemma load_conv_self c :
  load_conv c (conv_weight c, conv_bias c) = Ok c.
Proof.
  unfold load_conv. cbn [fst snd].
  rewrite same_dims3_refl, same_dims1_refl. now destruct c.
Qed.

Lemma load_bn_self b : load_bn b (bn_state_of b) = Ok b.
Proof.
  unfold load_bn, bn_state_of. rewrite !same_dims1_refl. now destruct b.
Qed.

Lemma load_linear_self l :
  load_linear l (fc_weight l, fc_bias l) = Ok l.
Proof.
  unfold load_linear. cbn [fst snd].
  rewrite same_dims2_refl, same_dims1_refl. now destruct l.
Qed.

Lemma load_state_dict_self m : load_state_dict m (state_dict m) = Ok m.
Proof.
  unfold load_state_dict, state_dict.
  cbn [sd_conv1 sd_bn1 sd_conv2 sd_bn2 sd_conv3 sd_bn3 sd_conv4 sd_bn4 sd_fc1].
  rewrite !load_conv_self, !load_bn_self, !load_linear_self. cbn [bind].
  now destruct m.
Qed.

Lemma mapM_singleton {A B : Type} (f : A -> result B) (l : list A) (b : B) :
  mapM f l = Ok [b] -> exists a, l = [a] /\ f a = Ok b.
Proof.
  destruct l as [|a [|a' l]]; simpl; intros E.
  - discriminate.
  - destruct (f a) eqn:Ef; simpl in E; inv E. eauto.
  - destruct (f a); simpl in E; [|discriminate].
    destruct (f a'); simpl in E; [|discriminate].
    destruct (mapM f l); simpl in E; discriminate.
Qed.

Lemma item_spec pred i : item pred = Ok i -> pred = [[i]].
Proof.
  destruct pred as [|[|j [|]] [|]]; simpl; intros E; try discriminate.
  now inv E.
Qed.

Lemma perform_inference_ok model dataset x events label :
  perform_inference model dataset (Some x) = (events, Ok label) ->
  exists row i m',
    events = [EvForward; EvPrint (String.append "Predicted label: " label)] /\
    forward model x = Ok ([[row]], m') /\
    argmax_row row = Ok i /\
    nth_error (classes dataset) i = Some label.
Proof.
  unfold perform_inference.
  match goal with |- context [match ?r with Ok _ => _ | Raise _ => _ end] =>
    destruct r as [l|e] eqn:Er
  end; intros E; inv E.
  apply bind_ok in Er as ([output m'] & Ef & Er).
  apply bind_ok in Er as (pred & Ep & Er).
  apply bind_ok in Er as (i & Ei & Er).
  apply item_spec in Ei. subst pred.
  apply mapM_singleton in Ep as (s & -> & Es).
  apply mapM_singleton in Es as (row & -> & Erow).
  destruct (nth_error (classes dataset) i) as [l|] eqn:En; inv Er.
  exists row, i, m'. auto.
Qed.

(** C7: whenever the inference path returns a label, the checkpoint file
    was loaded into the model (which holds exactly its tensors, in
    evaluation mode), the clip was resampled from its own rate to 8000 Hz,
    the model was called once, on the resampled clip with a batch dimension
    added, and the label is [dataset.classes[i]] for the index [i] of the
    first maximal value of the output row. *)
Theorem C7_inference_decoding `{F : Framework} (file : option StateDict)
    (init : initializer) (dataset : AudioFolder) (test_wav : option audio)
    (events : list event) (label : String.string) :
  inference file init dataset test_wav = (events, Ok label) ->
  exists sd model a row i m',
    file = Some sd /\
    load_model file init dataset = Ok model /\
    state_dict model = sd /\ training model = false /\
    test_wav = Some a /\
    events = [EvLoadAudio; EvResample (audio_sample_rate a) 8000%Z; EvForward;
              EvPrint (String.append "Predicted label: " label)] /\
    forward model [Resample (audio_sample_rate a) 8000%Z (audio_waveform a)]
    = Ok ([[row]], m') /\
    nth_error (classes dataset) i = Some label /\
    i < length row /\
    (forall j, j < length row -> (nth j row 0 <= nth i row 0)%R) /\
    (forall j, j < i -> (nth j row 0 < nth i row 0)%R).
Proof.
  unfold inference. intros E.
  destruct (load_model file init dataset) as [model|e] eqn:El; [|inv E].
  assert (Hl : exists sd, file = Some sd /\ state_dict model = sd /\
                          training model = false).
  { unfold load_model in El. destruct file as [sd|]; [|discriminate].
    apply bind_ok in El as (m0 & E0 & El). inv El.
    apply load_state_dict_spec in E0 as [Hsd _].
    exists sd. auto. }
  destruct Hl as (sd & -> & Hsd & Htr).
  unfold prepare_input in E. destruct test_wav as [a|].
  - destruct (audio_sample_rate a =? 0)%Z; [inv E|].
    destruct (Rlt_dec (duration a) min_duration).
    + cbn in E. inv E.
    + destruct (perform_inference model dataset _) as [ev' r] eqn:Ep. inv E.
      apply perform_inference_ok in Ep as (row & i & m' & -> & Ef & Ea & En).
      apply argmax_row_spec in Ea as (Hi & Hmax & Hfirst).
      exists (state_dict model), model, a, row, i, m'. repeat split; auto.
  - cbn in E. inv E.
Qed.

Lemma perform_inference_events model dataset (x : tensor3) :
  exists ev r, perform_inference model dataset (Some x) = (EvForward :: ev, r) /\
               forall o n, ~ In (EvResample o n) ev.
Proof.
  unfold perform_inference.
  match goal with |- context [match ?r with Ok _ => _ | Raise _ => _ end] =>
    destruct r
  end; do 2 eexists; (split; [reflexivity|]).
  - intros o n [H | []]. discriminate.
  - intros o n [].
Qed.

(** C9: the inference path calls the model, and resamples, only when the
    audio file exists and its duration is at least one second; and once the
    model is loaded (for a file with a positive sample rate), the forward
    pass is performed whenever both checks pass, while if the file is
    missing or the clip is shorter, the matching error message is the only
    thing printed, nothing is resampled, the model is not called, and the
    inference cell stops on the unbound [input_data]. *)
Theorem C9_inference_guards `{F : Framework} (file : option StateDict)
    (init : initializer) (dataset : AudioFolder) (test_wav : option audio) :
  let events := fst (inference file init dataset test_wav) in
  let accepted := exists a, test_wav = Some a /\ (min_duration <= duration a)%R in
  (In EvForward events -> accepted) /\
  (forall o n, In (EvResample o n) events -> accepted) /\
  (forall model,
     load_model file init dataset = Ok model ->
     (forall a, test_wav = Some a -> (0 < audio_sample_rate a)%Z) ->
     (accepted ->
        In EvForward events /\
        exists a, test_wav = Some a /\
                  In (EvResample (audio_sample_rate a) new_sample_rate) events) /\
     (~ accepted ->
        (events = [EvPrint "Error: Audio file does not exist."%string] \/
         events = [EvLoadAudio; EvPrint "Error: Audio duration is too short."%string]) /\
        snd (inference file init dataset test_wav) = Raise NameError)).
Proof.
  intros events accepted. subst events. unfold inference.
  destruct (load_model file init dataset) as [model|e].
  2:{ cbn. split; [tauto|]. split; [tauto|]. intros model El. discriminate. }
  unfold prepare_input. destruct test_wav as [a|].
  - destruct (Z.eqb_spec (audio_sample_rate a) 0) as [Hz|Hnz].
    { cbn. split; [intros [H | []]; discriminate|].
      split; [intros o n [H | []]; discriminate|].
      intros model' _ Hsr. specialize (Hsr a eq_refl). lia. }
    destruct (Rlt_dec (duration a) min_duration) as [Hshort | Hlong].
    + assert (Hna : ~ accepted).
      { intros (a' & Ea & Hd). inv Ea. lra. }
      cbn. split; [intros [H | [H | []]]; discriminate|].
      split; [intros o n [H | [H | []]]; discriminate|].
      intros model' _ _. split; [tauto|]. intros _. split; [now right | reflexivity].
    + assert (Ha : accepted).
      { exists a. split; [reflexivity | lra]. }
      destruct (perform_inference_events model dataset
                  [Resample (audio_sample_rate a) new_sample_rate (audio_waveform a)])
        as (ev & r & -> & _).
      cbn. split; [auto|]. split; [auto|].
      intros model' _ _. split; [|tauto].
      intros _. split; [auto|]. exists a. auto.
  - assert (Hna : ~ accepted).
    { intros (a' & Ea & _). discriminate. }
    cbn. split; [intros [H | []]; discriminate|].
    split; [intros o n [H | []]; discriminate|].
    intros model' _ _. split; [tauto|]. intros _. split; [now left | reflexivity].
Qed.

Lemma perform_inference_total model dataset n_channel L (x : tensor3) :
  M5_arch 1 (length (classes dataset)) 16 n_channel model ->
  0 < length (classes dataset) -> 0 < n_channel ->
  has_shape 1 1 L x -> 6848 <= L ->
  exists events label, perform_inference model dataset (Some x) = (events, Ok label).
Proof.
  intros Ha Hn Hc Hx HL. unfold perform_inference.
  destruct (forward_ok model 1 _ n_channel 1 L x Ha Hx) as (y & m' & Ef & Sy & _);
    try lia.
  rewrite Ef. cbn [bind].
  destruct Sy as [Hly Hy].
  destruct y as [|s [|]]; try discriminate. inv Hy. clear H2.
  destruct H1 as [Hls Hs].
  destruct s as [|row [|]]; try discriminate. inv Hs. clear H2.
  destruct (argmax_row_ok row) as (i & Ei).
  { intros ->. simpl in H1. lia. }
  unfold argmax. cbn [mapM]. rewrite Ei. cbn [bind item].
  apply argmax_row_spec in Ei as (Hi & _).
  destruct (nth_error (classes dataset) i) as [label|] eqn:En.
  - eauto.
  - apply nth_error_None in En. lia.
Qed.

Lemma example_load_model :
  load_model (Some example_checkpoint) zero_init example_dataset
  = Ok (model_eval (notebook_model zero_init example_dataset)).
Proof.
  unfold load_model, example_checkpoint.
  now rewrite load_state_dict_self.
Qed.

Lemma one_second_clip_duration : duration one_second_clip = 1%R.
Proof.
  unfold duration, one_second_clip, size1. cbn [audio_waveform audio_sample_rate hd].
  rewrite repeat_length, INR_IZR_INZ.
  replace (Z.of_nat 8000) with 8000%Z by (now vm_compute).
  field.
Qed.

Lemma example_inference_ok :
  exists events label,
    @inference (simple_framework 1) (Some example_checkpoint) zero_init example_dataset
               (Some one_second_clip) = (events, Ok label).
Proof.
  unfold inference. rewrite example_load_model. unfold prepare_input.
  change (audio_sample_rate one_second_clip =? 0)%Z with false. cbn iota.
  destruct (Rlt_dec (duration one_second_clip) min_duration) as [Hlt|_].
  { rewrite one_second_clip_duration in Hlt. unfold min_duration in Hlt. lra. }
  destruct (perform_inference_total
              (model_eval (notebook_model zero_init example_dataset))
              example_dataset 32 8000
              [@Resample (simple_framework 1) (audio_sample_rate one_second_clip)
                         new_sample_rate (audio_waveform one_second_clip)])
    as (ev & label & E).
  - apply set_training_arch. apply M5_init_arch.
  - simpl. lia.
  - lia.
  - split; [reflexivity|]. constructor; [|constructor].
    split; [reflexivity|]. constructor; [apply repeat_length | constructor].
  - rewrite min_length_eq. change 8000 with (500 * 16). lia.
  - rewrite E. eauto.
Qed.

Lemma C7_inference_decoding_witness :
  exists events label a,
    @inference (simple_framework 1) (Some example_checkpoint) zero_init example_dataset
               (Some one_second_clip) = (events, Ok label) /\
    Some one_second_clip = Some a /\
    events = [EvLoadAudio; EvResample (audio_sample_rate a) 8000%Z; EvForward;
              EvPrint (String.append "Predicted label: " label)].
Proof.
  destruct example_inference_ok as (events & label & E).
  destruct (@C7_inference_decoding (simple_framework 1) _ _ _ _ _ _ E)
    as (sd & model & a & row & i & m' & _ & _ & _ & _ & Ea & Hev & _).
  exists events, label, a. auto.
Defined.

Lemma C9_inference_guards_witness :
  In EvForward
     (fst (@inference (simple_framework 1) (Some example_checkpoint) zero_init
                      example_dataset (Some one_second_clip))).
Proof.
  assert (Hsr : forall a, Some one_second_clip = Some a ->
                          (0 < audio_sample_rate a)%Z).
  { intros a Ea. injection Ea as <-. reflexivity. }
  pose proof (@C9_inference_guards (simple_framework 1) (Some example_checkpoint)
                zero_init example_dataset (Some one_second_clip)) as H.
  cbv zeta in H. destruct H as (_ & _ & H).
  destruct (H _ example_load_model Hsr) as (H1 & _). apply H1.
  exists one_second_clip. split; [reflexivity|].
  rewrite one_second_clip_duration. unfold min_duration. lra.
Defined.

(* ================================================================== *)
(** * The parameter count of M5 *)

Lemma numel2_shape a b (t : list (list R)) : has_shape2 a b t -> numel2 t = a * b.
Proof.
  intros [Hl Hf]. subst a. unfold numel2, numel1.
  induction t as [|r t IH]; [reflexivity|].
  inv Hf. simpl. rewrite IH by assumption. lia.
Qed.

Lemma numel3_shape a b c (t : list (list (list R))) :
  has_shape a b c t -> numel3 t = a * (b * c).
Proof.
  intros [Hl Hf]. subst a. unfold numel3.
  induction t as [|r t IH]; [reflexivity|].
  inv Hf. simpl. rewrite IH by assumption.
  rewrite (numel2_shape b c r) by assumption. lia.
Qed.

(** X1: for every model with the shapes [M5.__init__] gives it,
    [count_parameters] is the sum of the layer sizes determined by the
    hyper-parameters (it does not depend on the stride, the mode or the
    values of the weights); for the defaults with 35 classes it is 26915. *)
Theorem X1_count_parameters n_input n_output stride n_channel (m : M5) :
  M5_arch n_input n_output stride n_channel m ->
  count_parameters m
  = (n_channel * (n_input * 80) + n_channel) + 2 * n_channel
    + (n_channel * (n_channel * 3) + n_channel) + 2 * n_channel
    + (2 * n_channel * (n_channel * 3) + 2 * n_channel) + 2 * (2 * n_channel)
    + (2 * n_channel * (2 * n_channel * 3) + 2 * n_channel) + 2 * (2 * n_channel)
    + (n_output * (2 * n_channel) + n_output) /\
  (n_input = 1 -> n_output = 35 -> n_channel = 32 -> count_parameters m = 26915).
Proof.
  intros (Hc1 & Hb1 & _ & Hc2 & Hb2 & _ & Hc3 & Hb3 & _ & Hc4 & Hb4 & _ & Hfc).
  assert (E : count_parameters m
    = (n_channel * (n_input * 80) + n_channel) + 2 * n_channel
      + (n_channel * (n_channel * 3) + n_channel) + 2 * n_channel
      + (2 * n_channel * (n_channel * 3) + 2 * n_channel) + 2 * (2 * n_channel)
      + (2 * n_channel * (2 * n_channel * 3) + 2 * n_channel) + 2 * (2 * n_channel)
      + (n_output * (2 * n_channel) + n_output)).
  { unfold count_parameters, parameter_sizes, numel1.
    destruct Hc1 as (_ & _ & _ & _ & Hw1 & ->), Hc2 as (_ & _ & _ & _ & Hw2 & ->),
             Hc3 as (_ & _ & _ & _ & Hw3 & ->), Hc4 as (_ & _ & _ & _ & Hw4 & ->).
    destruct Hb1 as (_ & -> & -> & _), Hb2 as (_ & -> & -> & _),
             Hb3 as (_ & -> & -> & _), Hb4 as (_ & -> & -> & _).
    destruct Hfc as (_ & _ & Hwf & ->).
    rewrite (numel3_shape _ _ _ _ Hw1), (numel3_shape _ _ _ _ Hw2),
            (numel3_shape _ _ _ _ Hw3), (numel3_shape _ _ _ _ Hw4),
            (numel2_shape _ _ _ Hwf).
    cbn [list_sum fold_right]. lia. }
  split; [exact E|].
  intros -> -> ->. rewrite E. reflexivity.
Qed.

Lemma X1_count_parameters_witness : count_parameters example_model = 26915.
Proof.
  apply (X1_count_parameters 1 35 16 32 example_model (M5_init_arch _ _ _ _ _));
    reflexivity.
Defined.

(* ================================================================== *)
(** * Saving and loading across models of one architecture *)

Lemma dims2_shape a b (t : list (list R)) : has_shape2 a b t -> dims2 t = repeat b a.
Proof.
  intros [Hl Hf]. subst a. unfold dims2.
  induction t as [|r t IH]; [reflexivity|].
  inv Hf. simpl. now rewrite IH.
Qed.

Lemma dims3_shape a b c (t : list (list (list R))) :
  has_shape a b c t -> dims3 t = repeat (repeat c b) a.
Proof.
  intros [Hl Hf]. subst a. unfold dims3.
  induction t as [|r t IH]; [reflexivity|].
  inv Hf. simpl. rewrite IH by assumption.
  now rewrite (dims2_shape b c r).
Qed.

Lemma same_dims3_shape a b c t1 t2 :
  has_shape a b c t1 -> has_shape a b c t2 -> same_dims3 t1 t2 = true.
Proof.
  intros H1 H2. unfold same_dims3.
  rewrite (dims3_shape _ _ _ _ H1), (dims3_shape _ _ _ _ H2).
  now destruct (list_eq_dec _ _ _).
Qed.

Lemma same_dims2_shape a b t1 t2 :
  has_shape2 a b t1 -> has_shape2 a b t2 -> same_dims2 t1 t2 = true.
Proof.
  intros H1 H2. unfold same_dims2.
  rewrite (dims2_shape _ _ _ H1), (dims2_shape _ _ _ H2).
  now destruct (list_eq_dec _ _ _).
Qed.

Lemma same_dims1_length (t1 t2 : list R) :
  same_dims1 t1 t2 = (length t1 =? length t2).
Proof. reflexivity. Qed.

Lemma load_conv_shaped cin cout k s c1 c2 :
  conv_shaped cin cout k s c1 -> conv_shaped cin cout k s c2 ->
  load_conv c1 (conv_weight c2, conv_bias c2) = Ok c2.
Proof.
  intros (A1 & A2 & A3 & A4 & A5 & A6) (B1 & B2 & B3 & B4 & B5 & B6).
  unfold load_conv. cbn [fst snd].
  rewrite (same_dims3_shape _ _ _ _ _ A5 B5), same_dims1_length, A6, B6, Nat.eqb_refl.
  cbn [andb]. destruct c2; cbn in *. congruence.
Qed.

Lemma load_bn_shaped n b1 b2 :
  bn_shaped n b1 -> bn_shaped n b2 -> load_bn b1 (bn_state_of b2) = Ok b2.
Proof.
  intros (A1 & A2 & A3 & A4 & A5) (B1 & B2 & B3 & B4 & B5).
  unfold load_bn, bn_state_of.
  rewrite !same_dims1_length, A2, A3, A4, A5, B2, B3, B4, B5, Nat.eqb_refl.
  cbn [andb]. destruct b2; cbn in *. congruence.
Qed.

Lemma load_linear_shaped fin fout l1 l2 :
  linear_shaped fin fout l1 -> linear_shaped fin fout l2 ->
  load_linear l1 (fc_weight l2, fc_bias l2) = Ok l2.
Proof.
  intros (A1 & A2 & A3 & A4) (B1 & B2 & B3 & B4).
  unfold load_linear. cbn [fst snd].
  rewrite (same_dims2_shape _ _ _ _ A3 B3), same_dims1_length, A4, B4, Nat.eqb_refl.
  cbn [andb]. destruct l2; cbn in *. congruence.
Qed.

(** Loading the state of a model into another model of the same
    architecture gives the first model, in the mode of the second. *)
Lemma load_state_dict_arch n_input n_output stride n_channel m1 m2 :
  M5_arch n_input n_output stride n_channel m1 ->
  M5_arch n_input n_output stride n_channel m2 ->
  load_state_dict m1 (state_dict m2) = Ok (set_training (training m1) m2).
Proof.
  intros (Ac1 & Ab1 & Ap1 & Ac2 & Ab2 & Ap2 & Ac3 & Ab3 & Ap3 & Ac4 & Ab4 & Ap4 & Af)
         (Bc1 & Bb1 & Bp1 & Bc2 & Bb2 & Bp2 & Bc3 & Bb3 & Bp3 & Bc4 & Bb4 & Bp4 & Bf).
  unfold load_state_dict, state_dict.
  cbn [sd_conv1 sd_bn1 sd_conv2 sd_bn2 sd_conv3 sd_bn3 sd_conv4 sd_bn4 sd_fc1].
  rewrite (load_conv_shaped _ _ _ _ _ _ Ac1 Bc1), (load_conv_shaped _ _ _ _ _ _ Ac2 Bc2),
          (load_conv_shaped _ _ _ _ _ _ Ac3 Bc3), (load_conv_shaped _ _ _ _ _ _ Ac4 Bc4),
          (load_bn_shaped _ _ _ Ab1 Bb1), (load_bn_shaped _ _ _ Ab2 Bb2),
          (load_bn_shaped _ _ _ Ab3 Bb3), (load_bn_shaped _ _ _ Ab4 Bb4),
          (load_linear_shaped _ _ _ _ Af Bf).
  cbn [bind]. unfold set_training. do 2 f_equal.
  - destruct (pool1 m1), (pool1 m2); cbn in *; congruence.
  - destruct (pool2 m1), (pool2 m2); cbn in *; congruence.
  - destruct (pool3 m1), (pool3 m2); cbn in *; congruence.
  - destruct (pool4 m1), (pool4 m2); cbn in *; congruence.
Qed.

Lemma load_conv_cases c wb :
  load_conv c wb = Raise RuntimeError \/ exists c', load_conv c wb = Ok c'.
Proof. unfold load_conv. destruct (_ && _); eauto. Qed.

Lemma load_bn_cases b s :
  load_bn b s = Raise RuntimeError \/ exists b', load_bn b s = Ok b'.
Proof.
  unfold load_bn. destruct s as [[[[w bi] rm] rv] nbt]. destruct (_ && _); eauto.
Qed.

(** X2: a checkpoint taken from any model of the notebook's architecture
    for the dataset's classes (whatever its weights, statistics and mode)
    is accepted by the cell that loads the saved model, and the loaded model
    is that model in evaluation mode: saving and loading lose nothing. *)
Theorem X2_state_dict_round_trip (init : initializer) (dataset : AudioFolder) (m : M5) :
  M5_arch 1 (length (classes dataset)) 16 32 m ->
  load_model (Some (state_dict m)) init dataset = Ok (model_eval m) /\
  state_dict (model_eval m) = state_dict m.
Proof.
  intros Harch. split; [|reflexivity].
  unfold load_model, notebook_model.
  rewrite (load_state_dict_arch 1 (length (classes dataset)) 16 32 _ m
             (M5_init_arch _ _ _ _ _) Harch).
  reflexivity.
Qed.

Lemma X2_state_dict_round_trip_witness :
  load_model (Some (state_dict (M5_init zero_init 1 2 16 32))) (fun _ _ _ _ => 1%R)
    example_dataset
  = Ok (model_eval (M5_init zero_init 1 2 16 32)).
Proof.
  apply (X2_state_dict_round_trip (fun _ _ _ _ => 1%R) example_dataset
           (M5_init zero_init 1 2 16 32)).
  exact (M5_init_arch zero_init 1 2 16 32).
Defined.

(** X3: a checkpoint taken from an M5 built for a different number of
    classes than the dataset has is refused: the cell that loads the saved
    model raises RuntimeError (whatever the other hyper-parameters of the
    saved model are). *)
Theorem X3_load_other_class_count (init : initializer) (dataset : AudioFolder)
    n_input n_output stride n_channel (m : M5) :
  M5_arch n_input n_output stride n_channel m ->
  n_output <> length (classes dataset) ->
  load_model (Some (state_dict m)) init dataset = Raise RuntimeError.
Proof.
  intros Harch Hne.
  assert (Hfc : load_linear (fc1 (notebook_model init dataset))
                  (fc_weight (fc1 m), fc_bias (fc1 m)) = Raise RuntimeError).
  { destruct Harch as (_ & _ & _ & _ & _ & _ & _ & _ & _ & _ & _ & _ & _ & _ & _ & Hb).
    pose proof (M5_init_arch init 1 (length (classes dataset)) 16 32) as Hn.
    destruct Hn as (_ & _ & _ & _ & _ & _ & _ & _ & _ & _ & _ & _ & _ & _ & _ & Hb').
    fold (notebook_model init dataset) in Hb'.
    unfold load_linear. cbn [fst snd].
    rewrite same_dims1_length, Hb, Hb'.
    destruct (Nat.eqb_spec (length (classes dataset)) n_output) as [E|_];
      [congruence|].
    now rewrite andb_false_r. }
  unfold load_model, load_state_dict, state_dict.
  cbn [sd_conv1 sd_bn1 sd_conv2 sd_bn2 sd_conv3 sd_bn3 sd_conv4 sd_bn4 sd_fc1].
  rewrite Hfc.
  repeat match goal with
  | |- context [load_conv ?c ?wb] =>
      destruct (load_conv_cases c wb) as [-> | [? ->]]; [reflexivity|]; cbn [bind]
  | |- context [load_bn ?b ?s] =>
      destruct (load_bn_cases b s) as [-> | [? ->]]; [reflexivity|]; cbn [bind]
  end.
  reflexivity.
Qed.

Lemma X3_load_other_class_count_witness :
  load_model (Some (state_dict example_model)) zero_init example_dataset
  = Raise RuntimeError.
Proof.
  apply (X3_load_other_class_count zero_init example_dataset 1 35 16 32 example_model).
  - exact (M5_init_arch zero_init 1 35 16 32).
  - cbv. discriminate.
Defined.

(* ================================================================== *)
(** * The forward pass in evaluation mode, sample by sample *)

Lemma Conv1d_forward_map c cin cout k s B L x :
  conv_shaped cin cout k s c -> has_shape B cin L x ->
  0 < B -> 0 < cin -> 0 < s -> k <= L ->
  Conv1d_forward c x = Ok (map (conv1d_sample c (conv_out_len k s L)) x) /\
  has_shape B cout (conv_out_len k s L) (map (conv1d_sample c (conv_out_len k s L)) x).
Proof.
  intros Hc Hx HB HC Hs HL.
  assert (E : Conv1d_forward c x = Ok (map (conv1d_sample c (conv_out_len k s L)) x)).
  { destruct Hc as (Hi & _ & Hk & Hst & _).
    unfold Conv1d_forward.
    rewrite (has_shape_shape1 _ _ _ _ Hx HB), (has_shape_shape2 _ _ _ _ Hx HB HC).
    rewrite Hi, Hk, Hst, Nat.eqb_refl. cbn [negb].
    destruct (Nat.eqb_spec s 0); [lia|].
    destruct (Nat.ltb_spec L k); [lia|]. reflexivity. }
  split; [exact E|].
  destruct (Conv1d_forward_ok _ _ _ _ _ _ _ _ Hc Hx HB HC Hs HL) as (y & E' & S).
  rewrite E in E'. now inv E'.
Qed.

Lemma BatchNorm1d_forward_map bn B C L x :
  bn_shaped C bn -> has_shape B C L x -> 0 < B -> 0 < C -> 1 < L ->
  BatchNorm1d_forward false bn x
  = Ok (bn_normalize bn (running_mean bn) (running_var bn) x, bn) /\
  has_shape B C L (bn_normalize bn (running_mean bn) (running_var bn) x).
Proof.
  intros Hb Hx HB HC HL.
  assert (E : BatchNorm1d_forward false bn x
              = Ok (bn_normalize bn (running_mean bn) (running_var bn) x, bn)).
  { unfold BatchNorm1d_forward.
    rewrite (has_shape_shape1 _ _ _ _ Hx HB).
    destruct Hb as (-> & _). now rewrite Nat.eqb_refl. }
  split; [exact E|].
  destruct (BatchNorm1d_forward_ok false _ _ _ _ _ Hb Hx HB HC HL) as (y & b & E' & S & _).
  rewrite E in E'. now inv E'.
Qed.

Lemma MaxPool1d_forward_map p k B C L x :
  pool_kernel_size p = k -> has_shape B C L x ->
  0 < B -> 0 < C -> 0 < k -> k <= L ->
  MaxPool1d_forward p x
  = Ok (map (map (fun ch => map (fun t => Rmax_list (window k k t ch))
                                (seq 0 (pool_out_len k L)))) x) /\
  has_shape B C (pool_out_len k L)
    (map (map (fun ch => map (fun t => Rmax_list (window k k t ch))
                             (seq 0 (pool_out_len k L)))) x).
Proof.
  intros Hp Hx HB HC Hk HL.
  assert (E : MaxPool1d_forward p x
    = Ok (map (map (fun ch => map (fun t => Rmax_list (window k k t ch))
                                  (seq 0 (pool_out_len k L)))) x)).
  { unfold MaxPool1d_forward.
    rewrite (has_shape_shape2 _ _ _ _ Hx HB HC), Hp.
    destruct (Nat.eqb_spec k 0); [lia|].
    destruct (Nat.ltb_spec L k); [lia|]. reflexivity. }
  split; [exact E|].
  destruct (MaxPool1d_forward_ok _ _ _ _ _ _ Hp Hx HB HC Hk HL) as (y & E' & S).
  rewrite E in E'. now inv E'.
Qed.

Lemma avg_pool1d_map B C L x :
  has_shape B C L x -> 0 < B -> 0 < C -> 0 < L ->
  avg_pool1d x (shape2 x)
  = Ok (map (map (fun ch => map (fun t => mean (window L L t ch))
                                (seq 0 (pool_out_len L L)))) x) /\
  has_shape B C 1
    (map (map (fun ch => map (fun t => mean (window L L t ch))
                             (seq 0 (pool_out_len L L)))) x).
Proof.
  intros Hx HB HC HL.
  assert (E : avg_pool1d x (shape2 x)
    = Ok (map (map (fun ch => map (fun t => mean (window L L t ch))
                                  (seq 0 (pool_out_len L L)))) x)).
  { unfold avg_pool1d.
    rewrite (has_shape_shape2 _ _ _ _ Hx HB HC).
    destruct (Nat.eqb_spec L 0); [lia|].
    destruct (Nat.ltb_spec L L); [lia|]. reflexivity. }
  split; [exact E|].
  destruct (avg_pool1d_ok _ _ _ _ Hx HB HC HL) as (y & E' & S).
  rewrite E in E'. now inv E'.
Qed.

Lemma Linear_forward_map l fin fout B C x :
  linear_shaped fin fout l -> has_shape B C fin x -> 0 < B -> 0 < C ->
  Linear_forward l x = Ok (map (map (linear_row l)) x) /\
  has_shape B C fout (map (map (linear_row l)) x).
Proof.
  intros Hl Hx HB HC.
  assert (E : Linear_forward l x = Ok (map (map (linear_row l)) x)).
  { unfold Linear_forward.
    rewrite (has_shape_shape2 _ _ _ _ Hx HB HC).
    destruct Hl as (-> & _). now rewrite Nat.eqb_refl. }
  split; [exact E|].
  destruct (Linear_forward_ok _ _ _ _ _ _ Hl Hx HB HC) as (y & E' & S).
  rewrite E in E'. now inv E'.
Qed.

Lemma M5_eta (m : M5) :
  {| conv1 := conv1 m; bn1 := bn1 m; pool1 := pool1 m;
     conv2 := conv2 m; bn2 := bn2 m; pool2 := pool2 m;
     conv3 := conv3 m; bn3 := bn3 m; pool3 := pool3 m;
     conv4 := conv4 m; bn4 := bn4 m; pool4 := pool4 m;
     fc1 := fc1 m; training := training m |} = m.
Proof. now destruct m. Qed.

Ltac fw_map H :=
  let E := fresh "E" in let S := fresh "S" in
  destruct H as (E & S); [try eassumption; try lia ..|];
  rewrite E; cbn [bind]; clear E.

(** In evaluation mode one function of a single clip gives the output of
    every batch of clips of one length. *)
Lemma forward_eval_map m n_input n_output n_channel L :
  M5_arch n_input n_output 16 n_channel m ->
  training m = false ->
  0 < n_input -> 0 < n_channel -> 6848 <= L ->
  exists G : tensor2 -> tensor2,
    forall B x, has_shape B n_input L x -> 0 < B ->
                forward m x = Ok (map G x, m).
Proof.
  intros (Hc1 & Hb1 & Hp1 & Hc2 & Hb2 & Hp2 & Hc3 & Hb3 & Hp3 & Hc4 & Hb4 & Hp4 & Hfc)
         Ht HI HN HL.
  rewrite min_length_eq in HL.
  assert (H1 : 424 <= conv_out_len 80 16 L)
    by (rewrite conv_out_len_80_16 by lia; apply div_ge; lia).
  assert (H2 : 106 <= pool_out_len 4 (conv_out_len 80 16 L))
    by (rewrite pool_out_len_4 by lia; apply div_ge; lia).
  eexists. intros B x Hx HB.
  unfold forward. rewrite Ht.
  fw_map (Conv1d_forward_map _ _ _ _ _ _ _ _ Hc1 Hx).
  fw_map (BatchNorm1d_forward_map _ _ _ _ _ Hb1 S).
  apply relu_shape in S0.
  fw_map (MaxPool1d_forward_map _ _ _ _ _ _ Hp1 S0).
  fw_map (Conv1d_forward_map _ _ _ _ _ _ _ _ Hc2 S1).
  rewrite conv_out_len_3 in S2 at 1 by lia.
  fw_map (BatchNorm1d_forward_map _ _ _ _ _ Hb2 S2).
  apply relu_shape in S3.
  assert (H3 : 26 <= pool_out_len 4 (pool_out_len 4 (conv_out_len 80 16 L) - 2))
    by (rewrite pool_out_len_4 by lia; apply div_ge; lia).
  fw_map (MaxPool1d_forward_map _ _ _ _ _ _ Hp2 S3).
  fw_map (Conv1d_forward_map _ _ _ _ _ _ _ _ Hc3 S4).
  rewrite conv_out_len_3 in S5 at 1 by lia.
  fw_map (BatchNorm1d_forward_map _ _ _ _ _ Hb3 S5).
  apply relu_shape in S6.
  match type of S6 with has_shape _ _ ?l _ =>
    assert (H4 : 6 <= pool_out_len 4 l)
      by (rewrite pool_out_len_4 by lia; apply div_ge; lia)
  end.
  fw_map (MaxPool1d_forward_map _ _ _ _ _ _ Hp3 S6).
  fw_map (Conv1d_forward_map _ _ _ _ _ _ _ _ Hc4 S7).
  rewrite conv_out_len_3 in S8 at 1 by lia.
  fw_map (BatchNorm1d_forward_map _ _ _ _ _ Hb4 S8).
  apply relu_shape in S9.
  match type of S9 with has_shape _ _ ?l _ =>
    assert (H5 : 1 <= pool_out_len 4 l)
      by (rewrite pool_out_len_4 by lia; apply div_ge; lia)
  end.
  fw_map (MaxPool1d_forward_map _ _ _ _ _ _ Hp4 S9).
  fw_map (avg_pool1d_map _ _ _ _ S10).
  apply permute_0_2_1_shape in S11; [|lia].
  fw_map (Linear_forward_map _ _ _ _ _ _ Hfc S11).
  apply f_equal, f_equal2.
  - unfold log_softmax, permute_0_2_1, relu, bn_normalize.
    rewrite !map_map. reflexivity.
  - rewrite <- Ht. apply M5_eta.
Qed.

(** X4: in evaluation mode the output for a clip does not depend on the
    other clips of its batch: whenever [forward] returns on a batch of clips
    of one length, the output for each clip is what [forward] returns on
    that clip as a batch of one, and no call changes the model. *)
Theorem X4_eval_batch_independent (m : M5) n_input n_output n_channel B L
    (x y : tensor3) (m' : M5) :
  M5_arch n_input n_output 16 n_channel m ->
  training m = false ->
  has_shape B n_input L x ->
  0 < B -> 0 < n_input -> 0 < n_channel ->
  forward m x = Ok (y, m') ->
  m' = m /\ Forall2 (fun s t => forward m [s] = Ok ([t], m)) x y.
Proof.
  intros Harch Ht Hx HB HI HN E.
  destruct (le_lt_dec 6848 L) as [HL | HL].
  - destruct (forward_eval_map m n_input n_output n_channel L Harch Ht HI HN HL)
      as [G HG].
    rewrite (HG B x Hx HB) in E. inv E. split; [reflexivity|].
    apply Forall2_map_self. intros s Hs.
    apply (HG 1 [s]); [|lia].
    split; [reflexivity|]. constructor; [|constructor].
    destruct Hx as [_ Hf]. rewrite Forall_forall in Hf. now apply Hf.
  - destruct (forward_short m n_input n_output n_channel B L x Harch Hx HB HI HN HL)
      as [e He].
    congruence.
Qed.

Lemma X4_eval_batch_independent_witness :
  exists y,
    forward (model_eval example_model) (example_input ++ example_input)
    = Ok (y, model_eval example_model) /\
    Forall2 (fun s t => forward (model_eval example_model) [s]
                        = Ok ([t], model_eval example_model))
            (example_input ++ example_input) y.
Proof.
  assert (Ha : M5_arch 1 35 16 32 (model_eval example_model))
    by (apply set_training_arch, M5_init_arch).
  assert (Hx : has_shape 2 1 6848 (example_input ++ example_input)).
  { split; [reflexivity|].
    repeat constructor; apply repeat_length. }
  destruct (forward_ok (model_eval example_model) 1 35 32 2 6848
              (example_input ++ example_input) Ha Hx)
    as (y & m' & E & _ & _ & _ & Hm); try lia.
  rewrite (Hm eq_refl) in E.
  exists y. split; [exact E|].
  apply (X4_eval_batch_independent (model_eval example_model) 1 35 32 2 6848
           (example_input ++ example_input) y (model_eval example_model) Ha eq_refl Hx);
    try lia; exact E.
Defined.

(* ================================================================== *)
(** * The outputs as log-probabilities *)

Lemma In_exp_le_Rsum (row : list R) (u : R) :
  In u row -> (exp u <= Rsum (map exp row))%R.
Proof.
  induction row as [|w row IH]; simpl; [tauto|].
  assert (H : (0 <= Rsum (map exp row))%R).
  { clear. induction row as [|a row IH]; simpl; [lra|].
    pose proof (exp_pos a). lra. }
  intros [-> | Hin].
  - lra.
  - pose proof (exp_pos w). specialize (IH Hin). lra.
Qed.

Lemma log_softmax_row_nonpos (row : list R) (v : R) :
  In v (log_softmax_row row) -> (v <= 0)%R.
Proof.
  unfold log_softmax_row. intros Hin.
  apply in_map_iff in Hin as (u & <- & Hu).
  pose proof (In_exp_le_Rsum row u Hu) as Hle.
  pose proof (exp_pos u) as Hpos.
  assert (Hln : (ln (exp u) <= ln (Rsum (map exp row)))%R).
  { destruct Hle as [Hlt | Heq].
    - left. now apply ln_increasing.
    - rewrite Heq. lra. }
  rewrite ln_exp in Hln. lra.
Qed.

(** X5: every value [forward] returns is a log-probability: it is at most
    0, so its exponential lies in (0, 1], for every model, mode and input
    on which the call returns. *)
Theorem X5_outputs_are_log_probabilities (m : M5) (x y : tensor3) (m' : M5) :
  forward m x = Ok (y, m') ->
  forall s row v, In s y -> In row s -> In v row ->
    (v <= 0 /\ 0 < exp v <= 1)%R.
Proof.
  intros E s row v Hs Hrow Hv.
  assert (Hy : exists z, y = log_softmax z).
  { unfold forward in E.
    repeat (let a := fresh "a" in let Ea := fresh "Ea" in
            apply bind_ok in E as (a & Ea & E);
            try (destruct a as [? ?])).
    inv E. eauto. }
  destruct Hy as [z ->].
  unfold log_softmax in Hs.
  apply in_map_iff in Hs as (s0 & <- & _).
  apply in_map_iff in Hrow as (row0 & <- & _).
  apply log_softmax_row_nonpos in Hv.
  split; [exact Hv|]. split; [apply exp_pos|].
  rewrite <- exp_0. destruct Hv as [Hlt | ->]; [|lra].
  left. now apply exp_increasing.
Qed.

Lemma X5_outputs_are_log_probabilities_witness :
  exists y m',
    forward example_model example_input = Ok (y, m') /\
    forall s row v, In s y -> In row s -> In v row ->
      (v <= 0 /\ 0 < exp v <= 1)%R.
Proof.
  destruct (forward_ok example_model 1 35 32 1 6848 example_input
              (M5_init_arch _ _ _ _ _) example_input_shape)
    as (y & m' & E & _); try lia.
  exists y, m'. split; [exact E|].
  exact (X5_outputs_are_log_probabilities example_model example_input y m' E).
Defined.

(* ================================================================== *)
(** * The prediction and the log-softmax *)

Lemma argmax_from_shift (c : R) (l : list R) (best_i i : nat) (best : R) :
  argmax_from best_i (best - c) i (map (fun v => (v - c)%R) l)
  = argmax_from best_i best i l.
Proof.
  revert best_i i best.
  induction l as [|v l IH]; intros best_i i best; simpl; [reflexivity|].
  destruct (Rlt_dec (best - c) (v - c)), (Rlt_dec best v); try lra; apply IH.
Qed.

Lemma argmax_row_log_softmax (row : list R) :
  argmax_row (log_softmax_row row) = argmax_row row.
Proof.
  unfold log_softmax_row.
  generalize (ln (Rsum (map exp row))). intros c.
  destruct row as [|v rest]; simpl; [reflexivity|].
  now rewrite argmax_from_shift.
Qed.

Lemma mapM_map {A B C : Type} (f : B -> result C) (g : A -> B) (l : list A) :
  mapM f (map g l) = mapM (fun a => f (g a)) l.
Proof. induction l as [|a l IH]; simpl; [reflexivity | now rewrite IH]. Qed.

Lemma mapM_ext {A B : Type} (f g : A -> result B) (l : list A) :
  (forall a, f a = g a) -> mapM f l = mapM g l.
Proof.
  intros H. induction l as [|a l IH]; simpl; [reflexivity | now rewrite H, IH].
Qed.

(** X6: the log-softmax that ends [forward] does not change the
    prediction: the arg-max over the classes of the log-probabilities is
    the arg-max of the values they are computed from, for every tensor
    (with the same error for an empty class dimension). *)
Theorem X6_argmax_of_log_softmax (x : tensor3) :
  argmax (log_softmax x) = argmax x /\
  get_likely_index (log_softmax x) = get_likely_index x.
Proof.
  assert (E : argmax (log_softmax x) = argmax x).
  { unfold argmax, log_softmax. rewrite mapM_map.
    apply mapM_ext. intros s. rewrite mapM_map.
    apply mapM_ext. intros row. apply argmax_row_log_softmax. }
  split; [exact E|].
  unfold get_likely_index. exact E.
Qed.

(* ================================================================== *)
(** * The batches of one pass over a loader *)





(** The chunks never hold more entries than the list, whatever the batch
    size. *)
Lemma chunks_aux_total {A : Type} (bs fuel : nat) (l : list A) :
  list_sum (map (@length (A)) (chunks_aux fuel bs l)) <= length l.
Proof.
  revert l. induction fuel as [|fuel IH]; intros l; simpl; [lia|].
  destruct l as [|a l]; [simpl; lia|].
  cbn [map list_sum fold_right]. fold (list_sum (map (@length A)
    (chunks_aux fuel bs (skipn bs (a :: l))))).
  specialize (IH (skipn bs (a :: l))).
  rewrite length_skipn in IH. rewrite length_firstn. lia.
Qed.



(* ================================================================== *)
(** * The number of correct predictions *)

Lemma number_of_correct_le (pred : list (list nat)) (target : list Z) :
  number_of_correct pred target <= length target.
Proof.
  unfold number_of_correct.
  etransitivity; [apply filter_length_le|].
  rewrite length_combine. lia.
Qed.

Lemma mapM_length {A B : Type} (f : A -> result B) (l : list A) (bs : list B) :
  mapM f l = Ok bs -> length bs = length l.
Proof.
  revert bs. induction l as [|a l IH]; simpl; intros bs E.
  - now inv E.
  - apply bind_ok in E as (b & _ & E). apply bind_ok in E as (bs' & E' & E).
    inv E. simpl. now rewrite (IH _ E').
Qed.

Lemma mapM_Forall2 {A B : Type} (f : A -> result B) (l : list A) (bs : list B) :
  mapM f l = Ok bs -> Forall2 (fun a b => f a = Ok b) l bs.
Proof.
  revert bs. induction l as [|a l IH]; simpl; intros bs E.
  - inv E. constructor.
  - apply bind_ok in E as (b & Eb & E). apply bind_ok in E as (bs' & E' & E).
    inv E. constructor; auto.
Qed.

Lemma fetch_length (dl : DataLoader) (c : list nat) data target :
  fetch dl c = Ok (data, target) ->
  length data = length c /\ length target = length c.
Proof.
  unfold fetch, collate_fn. intros E.
  apply bind_ok in E as (items & Ei & E).
  apply bind_ok in E as (tensors & Et & E). inv E.
  apply mapM_length in Ei.
  rewrite !length_map. split; [|exact Ei].
  unfold pad_sequence in Et.
  destruct (map fst items) eqn:Em; [discriminate|].
  apply mapM_length in Et. rewrite Et, <- Em, length_map. exact Ei.
Qed.

Lemma fold_left_add_list_sum (l : list nat) (a : nat) :
  fold_left Nat.add l a = a + list_sum l.
Proof.
  revert a. induction l as [|b l IH]; intros a; simpl; [lia|].
  rewrite IH. lia.
Qed.

Section Accuracy.
Context `{F : Framework}.
Variable G : Loaders.

Lemma val_batch_correct_le (m : M5) (c : list nat) (loss : R) (k : nat) :
  val_batch G m c = Ok (loss, k) -> k <= length c.
Proof.
  unfold val_batch. intros E.
  apply bind_ok in E as ([data target] & Ef & E).
  apply bind_ok in E as ([output m'] & _ & E).
  apply bind_ok in E as (l & _ & E).
  apply bind_ok in E as (pred & _ & E). inv E.
  apply fetch_length in Ef as [_ <-].
  apply number_of_correct_le.
Qed.

Lemma val_batches_correct_le (m : M5) (batches : list (list nat)) (rs : list (R * nat)) :
  mapM (val_batch G m) batches = Ok rs ->
  list_sum (map snd rs) <= list_sum (map (@length nat) batches).
Proof.
  intros E. apply mapM_Forall2 in E.
  induction E as [|c [loss k] batches rs Hc _ IH]; simpl; [lia|].
  apply val_batch_correct_le in Hc. lia.
Qed.

(** X8: when the validation loader does not shuffle (as the loader the
    split cell builds), the number of correct predictions [val] counts is at
    most the number of validation items, so the accuracy it prints is at
    most 100 percent; and the validation set is not empty. *)
Theorem X8_correct_at_most_validation_items (model : M5) (epoch : nat)
    (losses : list R) (g : torch_rng)
    (model' : M5) (losses' : list R) (correct : nat) (g' : torch_rng) :
  dl_shuffle (val_loader G) = false ->
  val G model epoch losses g = Ok (model', losses', correct, g') ->
  correct <= Subset_len (dl_dataset (val_loader G)) /\
  0 < Subset_len (dl_dataset (val_loader G)) /\
  (100 * INR correct / INR (Subset_len (dl_dataset (val_loader G))) <= 100)%R.
Proof.
  intros Hs E. rewrite val_eq in E.
  apply bind_ok in E as (rs & Ers & E).
  apply bind_ok in E as (v & _ & E).
  apply bind_ok in E as (acc & Eacc & E). inv E.
  assert (Hpos : 0 < Subset_len (dl_dataset (val_loader G))).
  { unfold py_div in Eacc.
    destruct (Nat.eqb_spec (Subset_len (dl_dataset (val_loader G))) 0);
      [discriminate | lia]. }
  assert (Hle : fold_left Nat.add (map snd rs) 0
                <= Subset_len (dl_dataset (val_loader G))).
  { rewrite fold_left_add_list_sum. cbn [Nat.add].
    apply val_batches_correct_le in Ers.
    etransitivity; [exact Ers|].
    unfold batch_sampler. rewrite Hs. cbn [fst]. unfold chunks.
    etransitivity; [apply chunks_aux_total|].
    now rewrite length_seq. }
  split; [exact Hle|]. split; [exact Hpos|].
  apply le_INR in Hle. apply lt_INR in Hpos. cbn [INR] in Hpos.
  unfold Rdiv.
  apply Rmult_le_reg_r with (r := INR (Subset_len (dl_dataset (val_loader G))));
    [exact Hpos|].
  rewrite Rmult_assoc, Rinv_l by lra. lra.
Qed.

End Accuracy.

Lemma X8_correct_at_most_validation_items_witness :
  exists m' l' c g',
    @val (simple_framework 1) example_loaders
         (notebook_model zero_init example_dataset) 1 [] tt = Ok (m', l', c, g') /\
    c <= 3.
Proof.
  destruct (example_val_ok 1) as (v & c & g' & E).
  exists (model_eval (notebook_model zero_init example_dataset)), [v], c, g'.
  split; [exact E|].
  exact (proj1 (@X8_correct_at_most_validation_items (simple_framework 1)
                  example_loaders _ 1 [] tt _ [v] c g' eq_refl E)).
Defined.

(* ================================================================== *)
(** * Empty loaders *)

Lemma DataLoader_len_empty (dl : DataLoader) :
  Subset_len (dl_dataset dl) = 0 -> DataLoader_len dl = 0.
Proof.
  intros E. unfold DataLoader_len. rewrite E.
  destruct (dl_batch_size dl) as [|bs]; [reflexivity|].
  apply Nat.div_small. lia.
Qed.

Lemma batch_sampler_empty `{F : Framework} (dl : DataLoader) (g : torch_rng) :
  dl_shuffle dl = false ->
  Subset_len (dl_dataset dl) = 0 ->
  batch_sampler dl g = ([], g).
Proof.
  intros Hs E. unfold batch_sampler. now rewrite E, Hs.
Qed.

(** X9: on a loader that does not shuffle and has no items, [train] and
    [val] raise ZeroDivisionError: no batch is processed, [train] divides
    its loss by the zero batches of its loader, and [val] divides by zero
    at its loss (no training batch) or else at its accuracy line (no
    validation item), whatever the other loader holds. *)
Theorem X9_empty_loader_raises `{F : Framework} (G : Loaders) (model : M5)
    (epoch : nat) (losses : list R) (opt : optimizer) (g : torch_rng) :
  (dl_shuffle (train_loader G) = false ->
   Subset_len (dl_dataset (train_loader G)) = 0 ->
   train G model epoch log_interval losses opt g = Raise ZeroDivisionError) /\
  (dl_shuffle (val_loader G) = false ->
   Subset_len (dl_dataset (val_loader G)) = 0 ->
   val G model epoch losses g = Raise ZeroDivisionError).
Proof.
  split; intros Hs E.
  - unfold train.
    rewrite (batch_sampler_empty (train_loader G) g Hs E).
    cbn [for_each bind].
    rewrite (DataLoader_len_empty _ E). reflexivity.
  - rewrite val_eq.
    rewrite (batch_sampler_empty (val_loader G) g Hs E).
    cbn [fst snd mapM bind map fold_left]. rewrite E.
    unfold py_div at 1.
    destruct (DataLoader_len (train_loader G) =? 0); reflexivity.
Qed.

(* ================================================================== *)
(** * The bookkeeping of the training loop *)

Lemma increasing_app (l : list nat) (x : nat) :
  increasing l -> Forall (fun e => e < x) l -> increasing (l ++ [x]).
Proof.
  induction l as [|a l IH]; intros Hi Hf; [exact I|].
  inv Hf. destruct l as [|b l].
  - simpl. split; [assumption | exact I].
  - destruct Hi as [Hab Hi]. split; [exact Hab|]. now apply IH.
Qed.

Section Bookkeeping.
Context `{F : Framework}.
Variable G : Loaders.

Lemma train_appends (m : M5) (e li : nat) (losses : list R) (opt : optimizer)
    (g : torch_rng) m' losses' opt' g' :
  train G m e li losses opt g = Ok (m', losses', opt', g') ->
  exists v, losses' = losses ++ [v].
Proof.
  unfold train. destruct (batch_sampler (train_loader G) g) as [batches g1].
  intros E.
  apply bind_ok in E as ([[m1 o1] l1] & _ & E).
  apply bind_ok in E as (v & _ & E). inv E. eauto.
Qed.

Lemma training_loop_bookkeeping (m : M5) (opt : optimizer) (g : torch_rng) (n : nat) :
  forall st, training_loop G n m opt g = Ok st ->
    length (train_losses st) = n /\
    Forall (fun e => 1 <= e <= n) (saved_epochs st) /\
    increasing (saved_epochs st) /\
    (0 < n -> training (ls_model st) = false).
Proof.
  induction n as [|k IH]; intros st E.
  - unfold training_loop in E. apply bind_ok in E as (p & _ & E).
    cbn in E. inv E. cbn. repeat split; try constructor. lia.
  - rewrite training_loop_S in E. apply bind_ok in E as (st0 & E0 & Es).
    destruct (IH st0 E0) as (Hl & Hr & Hi & _).
    destruct (epoch_step_spec _ _ _ _ Es)
      as (m_t & o & g_t & v & c & g_v & Et & _ & Hm & _ & Hcase).
    apply train_appends in Et as (w & Ew).
    split; [rewrite Ew, length_app, Hl; simpl; lia|].
    assert (Hr' : Forall (fun e => 1 <= e <= S k) (saved_epochs st0)).
    { eapply Forall_impl; [|exact Hr]. simpl. intros; lia. }
    unfold saved_epochs in *.
    destruct Hcase as [(_ & _ & ->) | (_ & _ & ->)].
    + rewrite map_app. cbn [map fst].
      split; [apply Forall_app; split; [exact Hr'|constructor; [lia | constructor]]|].
      split; [|intros _; now rewrite Hm].
      apply increasing_app; [exact Hi|].
      eapply Forall_impl; [|exact Hr]. simpl. intros; lia.
    + split; [exact Hr'|]. split; [exact Hi|]. intros _. now rewrite Hm.
Qed.

(** X10: after a run of [n] epochs that returns, [train_losses] and
    [val_losses] both hold exactly [n] values (one per epoch, so the two
    plotted curves line up), the epochs at which a checkpoint was written
    are strictly increasing and lie in 1..n, the best loss is at most the
    initial 10000 and at most every validation loss, and, when [n] is
    positive, the model is left in evaluation mode. *)
Theorem X10_training_loop_bookkeeping (n : nat) (m : M5) (opt : optimizer)
    (g : torch_rng) (st : loop_state) :
  training_loop G n m opt g = Ok st ->
  length (train_losses st) = n /\ length (val_losses st) = n /\
  Forall (fun e => 1 <= e <= n) (saved_epochs st) /\
  increasing (saved_epochs st) /\
  (best_loss st <= 10000)%R /\
  (forall v, In v (val_losses st) -> (best_loss st <= v)%R) /\
  (0 < n -> training (ls_model st) = false).
Proof.
  intros E.
  destruct (training_loop_bookkeeping m opt g n st E) as (Hl & Hr & Hi & Hm).
  destruct (training_loop_inv G m opt g n st E) as (Hv & Hb & _).
  destruct (min_with_le initial_best_loss (val_losses st)) as [Hb1 Hb2].
  rewrite <- Hb in Hb1, Hb2.
  repeat split; assumption.
Qed.

End Bookkeeping.

Lemma X10_training_loop_bookkeeping_witness :
  exists st,
    @training_loop (simple_framework 1) example_loaders num_epochs
      (notebook_model zero_init example_dataset) tt tt = Ok st /\
    length (@train_losses (simple_framework 1) st) = num_epochs /\
    training (@ls_model (simple_framework 1) st) = false.
Proof.
  destruct (example_training_loop_ok 1 num_epochs) as (st & E).
  exists st. split; [exact E|].
  destruct (@X10_training_loop_bookkeeping (simple_framework 1) example_loaders
              num_epochs _ tt tt st E) as (H1 & _ & _ & _ & _ & _ & H2).
  split; [exact H1|]. apply H2. unfold num_epochs. lia.
Defined.

(* ================================================================== *)
(** * The architecture is kept by every operation of the notebook *)

Lemma BatchNorm1d_forward_shaped t bn x y bn' n :
  BatchNorm1d_forward t bn x = Ok (y, bn') -> bn_shaped n bn -> bn_shaped n bn'.
Proof.
  unfold BatchNorm1d_forward.
  destruct (negb _); [discriminate|].
  destruct t.
  - destruct (_ =? 1); [discriminate|]. intros E Hb. inv E.
    now apply bn_track_shaped.
  - intros E Hb. now inv E.
Qed.

Lemma forward_arch m x y m' n_input n_output s n_channel :
  forward m x = Ok (y, m') ->
  M5_arch n_input n_output s n_channel m ->
  M5_arch n_input n_output s n_channel m'.
Proof.
  intros E (Hc1 & Hb1 & Hp1 & Hc2 & Hb2 & Hp2 & Hc3 & Hb3 & Hp3 & Hc4 & Hb4 & Hp4 & Hfc).
  unfold forward in E.
  repeat (let a := fresh "a" in let Ea := fresh "Ea" in
          apply bind_ok in E as (a & Ea & E);
          lazymatch type of Ea with
          | BatchNorm1d_forward _ _ _ = Ok _ =>
              destruct a; eapply BatchNorm1d_forward_shaped in Ea; [|eassumption]
          | _ => idtac
          end).
  inv E. unfold M5_arch. cbn. tauto.
Qed.

Lemma for_each_inv {A S : Type} (body : S -> A -> result S) (I : S -> Prop)
    (l : list A) (s s' : S) :
  for_each body l s = Ok s' -> I s ->
  (forall s a s', body s a = Ok s' -> I s -> I s') -> I s'.
Proof.
  intros E Hs Hstep. revert s E Hs.
  induction l as [|a l IH]; intros s E Hs; simpl in E.
  - now inv E.
  - apply bind_ok in E as (s1 & E1 & E). eapply IH; eauto.
Qed.

Section Architecture.
Context `{F : Framework}.

Hypothesis optimizer_arch :
  forall o m data target ni no s nc,
    M5_arch ni no s nc m -> M5_arch ni no s nc (snd (optimizer_step o m data target)).

Variable G : Loaders.
Variables n_input n_output stride n_channel : nat.

Lemma train_arch (m : M5) (e li : nat) (losses : list R) (opt : optimizer)
    (g : torch_rng) m' losses' opt' g' :
  train G m e li losses opt g = Ok (m', losses', opt', g') ->
  M5_arch n_input n_output stride n_channel m ->
  M5_arch n_input n_output stride n_channel m'.
Proof.
  unfold train. destruct (batch_sampler (train_loader G) g) as [batches g1].
  intros E Ha.
  apply bind_ok in E as ([[m1 o1] l1] & Ef & E).
  apply bind_ok in E as (v & _ & E). inv E.
  apply (for_each_inv _ (fun acc => M5_arch n_input n_output stride n_channel
                                      (fst (fst acc))) _ _ _ Ef).
  - exact Ha.
  - intros [[m2 o2] l2] c [[m3 o3] l3] Eb Hm2. cbn [fst] in *.
    apply bind_ok in Eb as ([data target] & _ & Eb).
    apply bind_ok in Eb as ([output m4] & Efw & Eb).
    apply bind_ok in Eb as (loss & _ & Eb).
    pose proof (optimizer_arch o2 m4 data target _ _ _ _
                  (forward_arch _ _ _ _ _ _ _ _ Efw Hm2)) as Hm5.
    destruct (optimizer_step o2 m4 data target) as [o5 m5]. cbn [snd] in Hm5.
    destruct (li =? 0); [discriminate|]. now inv Eb.
Qed.

Lemma epoch_step_arch (st st' : loop_state) (e : nat) :
  epoch_step G st e = Ok st' ->
  M5_arch n_input n_output stride n_channel (ls_model st) ->
  M5_arch n_input n_output stride n_channel (ls_model st').
Proof.
  intros E Ha.
  destruct (epoch_step_spec _ _ _ _ E)
    as (m_t & o & g_t & v & c & g_v & Et & _ & Hm & _).
  rewrite Hm. apply set_training_arch.
  exact (train_arch _ _ _ _ _ _ _ _ _ _ Et Ha).
Qed.

Lemma training_loop_arch (n : nat) (m : M5) (opt : optimizer) (g : torch_rng)
    (st : loop_state) :
  training_loop G n m opt g = Ok st ->
  M5_arch n_input n_output stride n_channel m ->
  M5_arch n_input n_output stride n_channel (ls_model st).
Proof.
  revert st. induction n as [|k IH]; intros st E Ha.
  - unfold training_loop in E. apply bind_ok in E as (p & _ & E).
    cbn in E. now inv E.
  - rewrite training_loop_S in E. apply bind_ok in E as (st0 & E0 & Es).
    eapply epoch_step_arch; eauto.
Qed.

End Architecture.

(* ================================================================== *)
(** * The notebook from the split to the end of training *)

Section Pipeline.
Context `{F : Framework}.

Hypothesis np_permutation_spec :
  forall (g : np_rng) (n : nat), Permutation (np_permutation g n) (seq 0 n).
Hypothesis randperm_range :
  forall g n i, In i (fst (randperm g n)) -> i < n.
Hypothesis criterion_total :
  forall output target, exists loss, criterion output target = Ok loss.
Hypothesis optimizer_arch :
  forall o m data target ni no s nc,
    M5_arch ni no s nc m -> M5_arch ni no s nc (snd (optimizer_step o m data target)).



End Pipeline.



(* ================================================================== *)
(** * From the training loop to the inference cells *)

Lemma model_eval_idem (m : M5) : training m = false -> model_eval m = m.
Proof.
  intros Ht. unfold model_eval, set_training. rewrite <- Ht. apply M5_eta.
Qed.

Section Handover.
Context `{F : Framework}.

Hypothesis optimizer_arch :
  forall o m data target ni no s nc,
    M5_arch ni no s nc m -> M5_arch ni no s nc (snd (optimizer_step o m data target)).

(** X12: the inference cells load the model of the best epoch: after a run
    of the training loop that wrote a checkpoint, from a model of the
    notebook's architecture for the dataset (with an optimiser that keeps
    the shapes of the parameters), the cell that loads the saved model
    returns, and its model is the model the loop held at the end of the
    epoch [e] whose validation loss is the final best loss. *)
Theorem X12_inference_loads_best_epoch (G : Loaders) (n : nat) (m : M5)
    (opt : optimizer) (g : torch_rng) (st : loop_state)
    (before : option StateDict) (init : initializer) (dataset : AudioFolder) :
  M5_arch 1 (length (classes dataset)) 16 32 m ->
  training_loop G n m opt g = Ok st ->
  saved st <> [] ->
  exists e st_e,
    1 <= e <= n /\
    training_loop G e m opt g = Ok st_e /\
    best_loss st = nth (e - 1) (val_losses st) 0%R /\
    load_model (checkpoint_file before st) init dataset = Ok (ls_model st_e).
Proof.
  intros Ha E Hne.
  destruct (training_loop_inv G m opt g n st E) as (_ & _ & _ & Hlast).
  unfold checkpoint_file.
  destruct (rev (saved st)) as [|[e sd] rest] eqn:Er.
  { exfalso. apply Hne. apply (f_equal (@rev _)) in Er.
    now rewrite rev_involutive in Er. }
  destruct Hlast as (He & Hb & st_e & Ee & ->).
  exists e, st_e. split; [exact He|]. split; [exact Ee|]. split; [exact Hb|].
  pose proof (training_loop_arch optimizer_arch G _ _ _ _ e m opt g st_e Ee Ha) as Hae.
  destruct (training_loop_bookkeeping G m opt g e st_e Ee) as (_ & _ & _ & Hev).
  unfold load_model, notebook_model.
  rewrite (load_state_dict_arch 1 (length (classes dataset)) 16 32 _ (ls_model st_e)
             (M5_init_arch _ _ _ _ _) Hae).
  cbn [bind]. f_equal.
  transitivity (model_eval (ls_model st_e)); [reflexivity|].
  apply model_eval_idem, Hev. lia.
Qed.

End Handover.

Lemma example_first_epoch_saved (st : @loop_state (simple_framework 1)) :
  @training_loop (simple_framework 1) example_loaders 1
    (notebook_model zero_init example_dataset) tt tt = Ok st ->
  saved st <> [].
Proof.
  intros E. apply training_loop_1 in E.
  destruct (epoch_step_spec _ _ _ _ E)
    as (m_t & opt & g_t & v & c & g_v & _ & Ev & _ & Hvl & Hcase).
  apply simple_val_loss in Ev.
  rewrite example_train_len, example_val_batches in Ev.
  rewrite Ev in Hvl. apply app_inj_tail in Hvl as [_ Hv].
  destruct Hcase as [(_ & _ & Hs) | (Hge & _)].
  - rewrite Hs. unfold initial_state. cbn [saved app]. discriminate.
  - exfalso. apply Hge. rewrite <- Hv.
    unfold initial_state. cbn [best_loss]. unfold initial_best_loss.
    simpl INR. lra.
Qed.

Lemma X12_inference_loads_best_epoch_witness :
  exists st e st_e,
    @training_loop (simple_framework 1) example_loaders 1
      (notebook_model zero_init example_dataset) tt tt = Ok st /\
    @training_loop (simple_framework 1) example_loaders e
      (notebook_model zero_init example_dataset) tt tt = Ok st_e /\
    load_model (@checkpoint_file (simple_framework 1) None st) zero_init example_dataset
    = Ok (@ls_model (simple_framework 1) st_e).
Proof.
  destruct (example_training_loop_ok 1 1) as (st & E).
  destruct (@X12_inference_loads_best_epoch (simple_framework 1)
              (simple_optimizer_arch 1) example_loaders 1
              (notebook_model zero_init example_dataset) tt tt st None zero_init
              example_dataset (M5_init_arch _ _ _ _ _) E
              (example_first_epoch_saved st E))
    as (e & st_e & _ & Ee & _ & El).
  exists st, e, st_e. split; [exact E|]. split; [exact Ee | exact El].
Defined.

(* ================================================================== *)
(** * Every accepted clip is classified *)

Lemma dims2_shape_inv a b (t : list (list R)) : dims2 t = repeat b a -> has_shape2 a b t.
Proof.
  unfold dims2. intros E. split.
  - apply (f_equal (@length _)) in E. now rewrite length_map, repeat_length in E.
  - apply Forall_forall. intros ch Hch.
    apply (repeat_spec a b). rewrite <- E. now apply in_map.
Qed.

Lemma dims3_shape_inv a b c (t : list (list (list R))) :
  dims3 t = repeat (repeat c b) a -> has_shape a b c t.
Proof.
  unfold dims3. intros E. split.
  - apply (f_equal (@length _)) in E. now rewrite length_map, repeat_length in E.
  - apply Forall_forall. intros r Hr. apply dims2_shape_inv.
    apply (repeat_spec a (repeat c b)). rewrite <- E. now apply in_map.
Qed.

Lemma same_dims3_shape_inv a b c t1 t2 :
  same_dims3 t1 t2 = true -> has_shape a b c t1 -> has_shape a b c t2.
Proof.
  unfold same_dims3. destruct (list_eq_dec _ _ _) as [E|]; [|discriminate].
  intros _ H. apply dims3_shape_inv. rewrite <- E. now apply dims3_shape.
Qed.

Lemma same_dims2_shape_inv a b t1 t2 :
  same_dims2 t1 t2 = true -> has_shape2 a b t1 -> has_shape2 a b t2.
Proof.
  unfold same_dims2. destruct (list_eq_dec _ _ _) as [E|]; [|discriminate].
  intros _ H. apply dims2_shape_inv. rewrite <- E. now apply dims2_shape.
Qed.

Lemma load_conv_keeps_shape cin cout k s c wb c' :
  load_conv c wb = Ok c' -> conv_shaped cin cout k s c -> conv_shaped cin cout k s c'.
Proof.
  unfold load_conv.
  destruct (same_dims3 _ _) eqn:E3; [|discriminate].
  destruct (same_dims1 _ _) eqn:E1; [|discriminate].
  cbn [andb]. intros E (H1 & H2 & H3 & H4 & H5 & H6). inv E.
  unfold conv_shaped. cbn.
  apply Nat.eqb_eq in E1.
  repeat split; try reflexivity.
  - apply (same_dims3_shape_inv _ _ _ _ _ E3 H5).
  - apply (same_dims3_shape_inv _ _ _ _ _ E3 H5).
  - congruence.
Qed.

Lemma load_bn_keeps_shape n b s b' :
  load_bn b s = Ok b' -> bn_shaped n b -> bn_shaped n b'.
Proof.
  unfold load_bn. destruct s as [[[[w bi] rm] rv] nbt].
  destruct (same_dims1 (bn_weight b) w) eqn:E1; [|discriminate].
  destruct (same_dims1 (bn_bias b) bi) eqn:E2; [|discriminate].
  destruct (same_dims1 (running_mean b) rm) eqn:E3; [|discriminate].
  destruct (same_dims1 (running_var b) rv) eqn:E4; [|discriminate].
  cbn [andb]. intros E (H1 & H2 & H3 & H4 & H5). inv E.
  apply Nat.eqb_eq in E1, E2, E3, E4.
  unfold bn_shaped. cbn. repeat split; congruence.
Qed.

Lemma load_linear_keeps_shape fin fout l wb l' :
  load_linear l wb = Ok l' -> linear_shaped fin fout l -> linear_shaped fin fout l'.
Proof.
  unfold load_linear.
  destruct (same_dims2 _ _) eqn:E2; [|discriminate].
  destruct (same_dims1 _ _) eqn:E1; [|discriminate].
  cbn [andb]. intros E (H1 & H2 & H3 & H4). inv E.
  apply Nat.eqb_eq in E1.
  unfold linear_shaped. cbn.
  split; [reflexivity|]. split; [reflexivity|].
  split; [apply (same_dims2_shape_inv _ _ _ _ E2 H3) | congruence].
Qed.

(** A model keeps its architecture when a state dict is loaded into it. *)
Lemma load_state_dict_keeps_arch n_input n_output s n_channel m sd m' :
  load_state_dict m sd = Ok m' ->
  M5_arch n_input n_output s n_channel m ->
  M5_arch n_input n_output s n_channel m'.
Proof.
  intros E (Hc1 & Hb1 & Hp1 & Hc2 & Hb2 & Hp2 & Hc3 & Hb3 & Hp3 & Hc4 & Hb4 & Hp4 & Hfc).
  unfold load_state_dict in E.
  repeat (let a := fresh "a" in let Ea := fresh "Ea" in
          apply bind_ok in E as (a & Ea & E);
          first [ eapply load_conv_keeps_shape in Ea; [|eassumption]
                | eapply load_bn_keeps_shape in Ea; [|eassumption]
                | eapply load_linear_keeps_shape in Ea; [|eassumption] ]).
  inv E. unfold M5_arch. cbn. tauto.
Qed.

Lemma load_model_arch file init dataset model :
  load_model file init dataset = Ok model ->
  M5_arch 1 (length (classes dataset)) 16 32 model /\ training model = false.
Proof.
  unfold load_model. destruct file as [sd|]; [|discriminate].
  intros E. apply bind_ok in E as (m0 & E0 & E). inv E.
  split; [|reflexivity].
  apply set_training_arch.
  exact (load_state_dict_keeps_arch _ _ _ _ _ _ _ E0 (M5_init_arch _ _ _ _ _)).
Qed.

Lemma duration_at_least_one (a : audio) (L : nat) :
  (0 < audio_sample_rate a)%Z ->
  size1 (audio_waveform a) = L ->
  ((min_duration <= duration a)%R <-> (audio_sample_rate a <= Z.of_nat L)%Z).
Proof.
  intros Hsr HL. unfold duration, min_duration. rewrite HL.
  assert (Hpos : (0 < IZR (audio_sample_rate a))%R) by now apply (IZR_lt 0).
  rewrite INR_IZR_INZ. split; intros H.
  - apply le_IZR.
    apply (Rmult_le_compat_r (IZR (audio_sample_rate a))) in H; [|lra].
    unfold Rdiv in H. rewrite Rmult_assoc, Rinv_l in H by lra. lra.
  - apply IZR_le in H.
    apply (Rmult_le_reg_r (IZR (audio_sample_rate a))); [exact Hpos|].
    unfold Rdiv. rewrite Rmult_assoc, Rinv_l by lra. lra.
Qed.

Lemma resampled_length_min (sr : Z) (L : nat) :
  (0 < sr)%Z -> (sr <= Z.of_nat L)%Z ->
  500 * 16 <= resampled_length sr new_sample_rate L.
Proof.
  intros Hsr HL. unfold resampled_length, new_sample_rate.
  apply Nat2Z.inj_le. rewrite Z2Nat.id.
  - change (Z.of_nat (500 * 16)) with 8000%Z.
    apply Z.div_le_lower_bound; [lia|]. nia.
  - apply Z.div_pos; nia.
Qed.

(** X13: the duration check is enough for the model: when the saved model
    loads, the dataset has a class, and the file holds a one-channel clip of
    at least one second at a positive sample rate, which resampling to 8000 Hz
    turns into [ceil(8000 L / rate)] samples, the inference cells return a
    label of the dataset, after loading, resampling, one forward call and
    one printed line. *)
Theorem X13_accepted_clip_is_classified `{F : Framework} (file : option StateDict)
    (init : initializer) (dataset : AudioFolder) (a : audio) (L : nat) (model : M5) :
  load_model file init dataset = Ok model ->
  0 < length (classes dataset) ->
  (0 < audio_sample_rate a)%Z ->
  has_shape2 1 L (audio_waveform a) ->
  (min_duration <= duration a)%R ->
  has_shape2 1 (resampled_length (audio_sample_rate a) new_sample_rate L)
    (Resample (audio_sample_rate a) new_sample_rate (audio_waveform a)) ->
  exists label,
    inference file init dataset (Some a)
    = ([EvLoadAudio; EvResample (audio_sample_rate a) new_sample_rate; EvForward;
        EvPrint (String.append "Predicted label: " label)], Ok label) /\
    In label (classes dataset).
Proof.
  intros Eload Hc Hsr Hw Hd Hres.
  destruct (load_model_arch _ _ _ _ Eload) as [Ha _].
  apply (duration_at_least_one a L Hsr (has_shape2_size1 _ _ _ Hw ltac:(lia))) in Hd
    as HL.
  pose proof (resampled_length_min _ L Hsr HL) as Hmin.
  set (w := Resample (audio_sample_rate a) new_sample_rate (audio_waveform a)) in *.
  set (L' := resampled_length (audio_sample_rate a) new_sample_rate L) in *.
  assert (Hx : has_shape 1 1 L' [w]).
  { split; [reflexivity|]. constructor; [exact Hres | constructor]. }
  assert (HL' : 6848 <= L') by (rewrite min_length_eq; lia).
  destruct (perform_inference_total model dataset 32 L' [w] Ha Hc ltac:(lia) Hx HL')
    as (events & label & Ep).
  destruct (perform_inference_ok _ _ _ _ _ Ep) as (row & i & m' & -> & _ & _ & Hn).
  exists label. split; [|exact (nth_error_In _ _ Hn)].
  unfold inference. rewrite Eload. unfold prepare_input.
  destruct (Z.eqb_spec (audio_sample_rate a) 0) as [E0|_]; [lia|].
  destruct (Rlt_dec (duration a) min_duration) as [Hlt|_]; [lra|].
  fold w. rewrite Ep. reflexivity.
Qed.

Lemma X13_accepted_clip_is_classified_witness :
  exists label,
    @inference (simple_framework 1) (Some example_checkpoint) zero_init example_dataset
      (Some one_second_clip)
    = ([EvLoadAudio; EvResample 8000%Z 8000%Z; EvForward;
        EvPrint (String.append "Predicted label: " label)], Ok label) /\
    In label (classes example_dataset).
Proof.
  assert (Hw : has_shape2 1 (500 * 16) (audio_waveform one_second_clip)).
  { split; [reflexivity|]. constructor; [apply repeat_length | constructor]. }
  apply (@X13_accepted_clip_is_classified (simple_framework 1)
           (Some example_checkpoint) zero_init example_dataset one_second_clip
           (500 * 16) _ example_load_model).
  - cbn. lia.
  - reflexivity.
  - exact Hw.
  - rewrite one_second_clip_duration. unfold min_duration. lra.
  - assert (El : resampled_length (audio_sample_rate one_second_clip)
                   new_sample_rate (500 * 16) = 500 * 16) by reflexivity.
    rewrite El. exact Hw.
Defined.

(* ================================================================== *)
(** * What a forward pass changes *)

Lemma BatchNorm1d_forward_params t bn x y bn' :
  BatchNorm1d_forward t bn x = Ok (y, bn') ->
  bn_weight bn' = bn_weight bn /\ bn_bias bn' = bn_bias bn /\
  num_batches_tracked bn'
  = (if t then S (num_batches_tracked bn) else num_batches_tracked bn).
Proof.
  unfold BatchNorm1d_forward.
  destruct (negb _); [discriminate|].
  destruct t.
  - destruct (_ =? 1); [discriminate|]. intros E. inv E. cbn. auto.
  - intros E. inv E. auto.
Qed.

(** X14: a forward pass that returns never changes a learnable parameter
    (the weights and biases of the convolutions, of the batch normalisations
    and of the linear layer), nor the mode, nor the parameter count; in
    training mode it advances the batch counter of each of the four batch
    normalisations by exactly one, and in evaluation mode it changes
    nothing at all. *)
Theorem X14_forward_keeps_parameters (m : M5) (x y : tensor3) (m' : M5) :
  forward m x = Ok (y, m') ->
  learnable m' = learnable m /\
  count_parameters m' = count_parameters m /\
  training m' = training m /\
  (training m = true -> batches_tracked m' = map S (batches_tracked m)) /\
  (training m = false -> m' = m).
Proof.
  intros E.
  assert (H : learnable m' = learnable m /\ training m' = training m /\
              batches_tracked m'
              = map (fun k => if training m then S k else k) (batches_tracked m)).
  { unfold forward in E.
    repeat (let a := fresh "a" in let Ea := fresh "Ea" in
            apply bind_ok in E as (a & Ea & E);
            lazymatch type of Ea with
            | BatchNorm1d_forward _ _ _ = Ok _ =>
                destruct a; apply BatchNorm1d_forward_params in Ea;
                destruct Ea as (? & ? & ?)
            | _ => idtac
            end).
    inv E. unfold learnable, batches_tracked. cbn. repeat split; congruence. }
  destruct H as (Hl & Ht & Hb).
  split; [exact Hl|]. split; [|split; [exact Ht|split]].
  - unfold learnable in Hl. unfold count_parameters, parameter_sizes.
    inv Hl. congruence.
  - intros Htr. now rewrite Htr in Hb.
  - intros Htr. exact (forward_eval_same m x y m' Htr E).
Qed.

Lemma X14_forward_keeps_parameters_witness :
  exists y m',
    forward example_model example_input = Ok (y, m') /\
    learnable m' = learnable example_model /\
    batches_tracked m' = [1; 1; 1; 1].
Proof.
  destruct (forward_ok example_model 1 35 32 1 6848 example_input
              (M5_init_arch _ _ _ _ _) example_input_shape)
    as (y & m' & E & _); try lia.
  exists y, m'. split; [exact E|].
  destruct (X14_forward_keeps_parameters example_model example_input y m' E)
    as (H1 & _ & _ & H2 & _).
  split; [exact H1 | exact (H2 eq_refl)].
Defined.

(* ================================================================== *)
(** * The cell that prepares the input, by sample rate *)

(** X15: for a file that exists, the preparation cell raises
    ZeroDivisionError at a sample rate of 0; prints that the clip is too
    short and binds nothing when the rate is negative or the clip has fewer
    samples than its rate; and otherwise (at least as many samples as the
    positive rate) resamples the clip to 8000 Hz and binds it as a batch of
    one, printing nothing. *)
Theorem X15_prepare_input_by_sample_rate `{F : Framework} (a : audio) :
  let sr := audio_sample_rate a in
  let n := Z.of_nat (size1 (audio_waveform a)) in
  ((sr = 0)%Z ->
   prepare_input (Some a) = ([EvLoadAudio], Raise ZeroDivisionError)) /\
  ((sr < 0 \/ 0 < sr /\ n < sr)%Z ->
   prepare_input (Some a)
   = ([EvLoadAudio; EvPrint "Error: Audio duration is too short."%string], Ok None)) /\
  ((0 < sr <= n)%Z ->
   prepare_input (Some a)
   = ([EvLoadAudio; EvResample sr new_sample_rate],
      Ok (Some [Resample sr new_sample_rate (audio_waveform a)]))).
Proof.
  intros sr n. unfold prepare_input. fold sr.
  split; [|split].
  - intros ->. reflexivity.
  - intros H.
    destruct (Z.eqb_spec sr 0) as [E0|_]; [lia|].
    destruct (Rlt_dec (duration a) min_duration) as [_|Hge]; [reflexivity|].
    exfalso. apply Hge. destruct H as [Hneg | [Hpos Hlt]].
    + unfold duration, min_duration. fold sr.
      assert (Hs : (IZR sr < 0)%R) by now apply (IZR_lt sr 0).
      pose proof (pos_INR (size1 (audio_waveform a))) as Hn.
      assert (Hi : (/ IZR sr < 0)%R) by now apply Rinv_lt_0_compat.
      unfold Rdiv.
      assert (Hp : (INR (size1 (audio_waveform a)) * / IZR sr <= 0)%R) by nra.
      lra.
    + apply Rnot_le_lt. intros Hd.
      apply (duration_at_least_one a _ Hpos eq_refl) in Hd. fold n sr in Hd. lia.
  - intros [Hpos Hle].
    destruct (Z.eqb_spec sr 0) as [E0|_]; [lia|].
    destruct (Rlt_dec (duration a) min_duration) as [Hlt|_]; [|reflexivity].
    exfalso.
    assert (Hd : (min_duration <= duration a)%R)
      by now apply (duration_at_least_one a _ Hpos eq_refl).
    lra.
Qed.

(* ================================================================== *)
(** * Validation is repeatable *)

Section Repeat.
Context `{F : Framework}.
Variable G : Loaders.


End Repeat.


(* ================================================================== *)
(** * The exceptions of the forward pass *)

Lemma bind_raise {A B : Type} (r : result A) (k : A -> result B) (e : exn) :
  bind r k = Raise e -> r = Raise e \/ exists a, r = Ok a /\ k a = Raise e.
Proof. destruct r; simpl; intros E; [right; eauto | left; congruence]. Qed.

Lemma Conv1d_forward_cases c x :
  Conv1d_forward c x = Raise RuntimeError \/
  exists y, Conv1d_forward c x = Ok y /\ length y = length x.
Proof.
  unfold Conv1d_forward.
  destruct (negb _); [now left|]. destruct (_ =? 0); [now left|].
  destruct (_ <? _); [now left|].
  right. eexists. split; [reflexivity|]. apply length_map.
Qed.

Lemma MaxPool1d_forward_length p x :
  MaxPool1d_forward p x = Raise RuntimeError \/
  exists y, MaxPool1d_forward p x = Ok y /\ length y = length x.
Proof.
  unfold MaxPool1d_forward. cbv zeta.
  destruct (_ || _); [now left|].
  right. eexists. split; [reflexivity|]. apply length_map.
Qed.

Lemma avg_pool1d_length x k :
  avg_pool1d x k = Raise RuntimeError \/
  exists y, avg_pool1d x k = Ok y /\ length y = length x.
Proof.
  unfold avg_pool1d.
  destruct (_ || _); [now left|].
  right. eexists. split; [reflexivity|]. apply length_map.
Qed.

Lemma Linear_forward_length l x :
  Linear_forward l x = Raise RuntimeError \/
  exists y, Linear_forward l x = Ok y /\ length y = length x.
Proof.
  unfold Linear_forward.
  destruct (negb _); [now left|].
  right. eexists. split; [reflexivity|]. apply length_map.
Qed.

Lemma BatchNorm1d_forward_length t bn x :
  BatchNorm1d_forward t bn x = Raise RuntimeError \/
  (BatchNorm1d_forward t bn x = Raise ValueError /\ t = true /\ length x = 1) \/
  exists y bn', BatchNorm1d_forward t bn x = Ok (y, bn') /\
                length (relu y) = length x.
Proof.
  unfold BatchNorm1d_forward.
  destruct (negb _); [now left|].
  destruct t.
  - destruct (Nat.eqb_spec (length x * shape2 x) 1) as [E|_].
    + right. left. split; [reflexivity|]. split; [reflexivity|].
      now apply Nat.eq_mul_1 in E.
    + right. right. do 2 eexists. split; [reflexivity|].
      unfold relu, bn_normalize. now rewrite !length_map.
  - right. right. do 2 eexists. split; [reflexivity|].
    unfold relu, bn_normalize. now rewrite !length_map.
Qed.

Ltac fw_case H :=
  let y := fresh "y" in let E := fresh "E" in let Hl := fresh "Hl" in
  destruct H as [E | (y & E & Hl)];
  [ rewrite E; cbn [bind]; intros Ee; inv Ee; now left
  | rewrite E; cbn [bind] ].

Ltac fw_case_bn H :=
  let y := fresh "y" in let b := fresh "b" in
  let E := fresh "E" in let Hl := fresh "Hl" in
  let Ht := fresh "Ht" in let H1 := fresh "H1" in
  destruct H as [E | [(E & Ht & H1) | (y & b & E & Hl)]];
  [ rewrite E; cbn [bind]; intros Ee; inv Ee; now left
  | rewrite E; cbn [bind]; intros Ee; inv Ee; right;
    split; [reflexivity|]; split; [assumption | congruence]
  | rewrite E; cbn [bind] ].

Lemma forward_raises_cases (m : M5) (x : tensor3) (e : exn) :
  forward m x = Raise e ->
  e = RuntimeError \/
  (e = ValueError /\ training m = true /\ length x = 1).
Proof.
  unfold forward.
  fw_case (Conv1d_forward_cases (conv1 m) x).
  fw_case_bn (BatchNorm1d_forward_length (training m) (bn1 m) y).
  fw_case (MaxPool1d_forward_length (pool1 m) (relu y0)).
  fw_case (Conv1d_forward_cases (conv2 m) y1).
  fw_case_bn (BatchNorm1d_forward_length (training m) (bn2 m) y2).
  fw_case (MaxPool1d_forward_length (pool2 m) (relu y3)).
  fw_case (Conv1d_forward_cases (conv3 m) y4).
  fw_case_bn (BatchNorm1d_forward_length (training m) (bn3 m) y5).
  fw_case (MaxPool1d_forward_length (pool3 m) (relu y6)).
  fw_case (Conv1d_forward_cases (conv4 m) y7).
  fw_case_bn (BatchNorm1d_forward_length (training m) (bn4 m) y8).
  fw_case (MaxPool1d_forward_length (pool4 m) (relu y9)).
  fw_case (avg_pool1d_length y10 (shape2 y10)).
  fw_case (Linear_forward_length (fc1 m) (permute_0_2_1 y11)).
  discriminate.
Qed.

(** X17: the only exceptions the forward pass raises are RuntimeError and
    ValueError, and ValueError only in training mode on a batch of a single
    clip (batch normalisation then has one value per channel): in
    evaluation mode, so in [val] and in the inference cells, a failing
    forward pass raises RuntimeError. *)
Theorem X17_forward_exceptions (m : M5) (x : tensor3) (e : exn) :
  forward m x = Raise e ->
  e = RuntimeError \/
  (e = ValueError /\ training m = true /\ length x = 1).
Proof. exact (forward_raises_cases m x e). Qed.

Lemma X17_forward_exceptions_witness :
  forward example_model [[repeat 0%R 80]] = Raise ValueError /\
  (ValueError = RuntimeError \/
   (ValueError = ValueError /\ training example_model = true /\
    length [[repeat 0%R 80]] = 1)).
Proof.
  assert (E : forward example_model [[repeat 0%R 80]] = Raise ValueError)
    by reflexivity.
  split; [exact E|].
  exact (X17_forward_exceptions example_model [[repeat 0%R 80]] ValueError E).
Defined.

(* ================================================================== *)
(** * The exceptions of the inference cells *)

Lemma load_linear_cases l wb :
  load_linear l wb = Raise RuntimeError \/ exists l', load_linear l wb = Ok l'.
Proof. unfold load_linear. destruct (_ && _); eauto. Qed.

Lemma load_state_dict_raises m sd e :
  load_state_dict m sd = Raise e -> e = RuntimeError.
Proof.
  unfold load_state_dict.
  repeat match goal with
  | |- context [load_conv ?c ?wb] =>
      destruct (load_conv_cases c wb) as [-> | [? ->]];
      [cbn [bind]; congruence|]; cbn [bind]
  | |- context [load_bn ?b ?s] =>
      destruct (load_bn_cases b s) as [-> | [? ->]];
      [cbn [bind]; congruence|]; cbn [bind]
  | |- context [load_linear ?l ?wb] =>
      destruct (load_linear_cases l wb) as [-> | [? ->]];
      [cbn [bind]; congruence|]; cbn [bind]
  end.
  discriminate.
Qed.

Lemma mapM_raises {A B : Type} (f : A -> result B) (l : list A) (e : exn) :
  mapM f l = Raise e -> exists a, In a l /\ f a = Raise e.
Proof.
  induction l as [|a l IH]; simpl; [discriminate|].
  destruct (f a) as [b|e'] eqn:Ea; cbn [bind].
  - destruct (mapM f l) as [bs|e'] eqn:El; cbn [bind]; [discriminate|].
    intros E. inv E. destruct (IH eq_refl) as (a' & Hin & Ha'). eauto.
  - intros E. inv E. eauto.
Qed.

Lemma forward_rows_length m n_input n_output s n_channel x y m' :
  M5_arch n_input n_output s n_channel m ->
  forward m x = Ok (y, m') ->
  forall w row, In w y -> In row w -> length row = n_output.
Proof.
  intros Ha E w row Hw Hrow.
  destruct Ha as (_ & _ & _ & _ & _ & _ & _ & _ & _ & _ & _ & _ & Hfc).
  destruct Hfc as (_ & _ & [Hwl _] & Hb).
  rewrite forward_eq_spec in E. unfold M5_spec_forward in E.
  apply bind_ok in E as ([x1 b1] & _ & E).
  apply bind_ok in E as ([x2 b2] & _ & E).
  apply bind_ok in E as ([x3 b3] & _ & E).
  apply bind_ok in E as ([x4 b4] & _ & E).
  apply bind_ok in E as (y0 & Eh & E). inv E.
  unfold classifier_head in Eh.
  apply bind_ok in Eh as (z1 & _ & Eh).
  apply bind_ok in Eh as (z2 & E2 & Eh). inv Eh.
  unfold Linear_forward in E2.
  destruct (negb _); [discriminate|]. inv E2.
  unfold log_softmax in Hw. rewrite map_map in Hw.
  apply in_map_iff in Hw as (s0 & <- & _).
  rewrite map_map in Hrow. apply in_map_iff in Hrow as (r0 & <- & _).
  unfold log_softmax_row, linear_row.
  rewrite !length_map, length_combine. lia.
Qed.

(** X18: the inference cells raise only five exceptions, each with one
    cause: FileNotFoundError when there is no file at the save path;
    ZeroDivisionError when the audio file has sample rate 0; NameError when
    the audio file is missing or shorter than a second; IndexError only for
    a dataset without classes; and RuntimeError (a checkpoint of other
    shapes, or a tensor the model or [item()] refuses).  They never raise
    ValueError. *)
Theorem X18_inference_exceptions `{F : Framework} (file : option StateDict)
    (init : initializer) (dataset : AudioFolder) (test_wav : option audio)
    (events : list event) (e : exn) :
  inference file init dataset test_wav = (events, Raise e) ->
  (e = FileNotFoundError /\ file = None /\ events = []) \/
  (e = ZeroDivisionError /\
   exists a, test_wav = Some a /\ audio_sample_rate a = 0%Z) \/
  (e = NameError /\
   ~ exists a, test_wav = Some a /\ (min_duration <= duration a)%R) \/
  (e = IndexError /\ classes dataset = []) \/
  e = RuntimeError.
Proof.
  unfold inference.
  destruct (load_model file init dataset) as [model|e0] eqn:El.
  2: { intros E. inv E. unfold load_model in El.
       destruct file as [sd|].
       - apply bind_raise in El as [El | (m0 & _ & El)]; [|discriminate].
         apply load_state_dict_raises in El. tauto.
       - inv El. tauto. }
  destruct (load_model_arch _ _ _ _ El) as [Ha Ht].
  destruct test_wav as [a|]; cbn [prepare_input].
  2: { cbn. intros E. inv E. right. right. left. split; [reflexivity|].
       intros (a & Ea & _). discriminate. }
  destruct (Z.eqb_spec (audio_sample_rate a) 0) as [E0|_].
  { intros E. inv E. right. left. split; [reflexivity|]. eauto. }
  destruct (Rlt_dec (duration a) min_duration) as [Hlt|Hge].
  { cbn. intros E. inv E. right. right. left. split; [reflexivity|].
    intros (a' & Ea & Hd). inv Ea. lra. }
  set (x := [Resample (audio_sample_rate a) new_sample_rate (audio_waveform a)]).
  unfold perform_inference.
  match goal with |- context [match ?r with Ok _ => _ | Raise _ => _ end] =>
    destruct r as [l|e1] eqn:Er
  end; intros E; inv E.
  apply bind_raise in Er as [Er | ([output m'] & Ef & Er)].
  { apply forward_raises_cases in Er as [-> | (_ & Htr & _)]; [tauto | congruence]. }
  pose proof (forward_rows_length _ _ _ _ _ _ _ _ Ha Ef) as Hrows.
  apply bind_raise in Er as [Er | (pred & Ep & Er)].
  { right. right. right. left.
    unfold argmax in Er.
    apply mapM_raises in Er as (w & Hw & Er).
    apply mapM_raises in Er as (row & Hrow & Er).
    specialize (Hrows w row Hw Hrow).
    destruct row; [|discriminate]. inv Er.
    split; [reflexivity|]. now apply length_zero_iff_nil. }
  apply bind_raise in Er as [Er | (i & Ei & Er)].
  { right. right. right. right. unfold item in Er.
    destruct pred as [|[|? [|? ?]] [|? ?]]; congruence. }
  exfalso.
  apply item_spec in Ei. subst pred.
  apply mapM_singleton in Ep as (w & -> & Ew).
  apply mapM_singleton in Ew as (row & -> & Erow).
  apply argmax_row_spec in Erow as (Hi & _).
  rewrite (Hrows [row] row) in Hi by (simpl; auto).
  destruct (nth_error (classes dataset) i) eqn:En; [discriminate|].
  apply nth_error_None in En. lia.
Qed.

Lemma X18_inference_exceptions_witness :
  (NameError = FileNotFoundError /\
   Some example_checkpoint = None /\
   [EvPrint "Error: Audio file does not exist."%string] = []) \/
  (NameError = ZeroDivisionError /\
   exists a, @None audio = Some a /\ audio_sample_rate a = 0%Z) \/
  (NameError = NameError /\
   ~ exists a, @None audio = Some a /\ (min_duration <= duration a)%R) \/
  (NameError = IndexError /\ classes example_dataset = []) \/
  NameError = RuntimeError.
Proof.
  apply (@X18_inference_exceptions (simple_framework 1) (Some example_checkpoint)
           zero_init example_dataset None
           [EvPrint "Error: Audio file does not exist."%string] NameError).
  unfold inference. rewrite example_load_model. reflexivity.
Defined.

(* ================================================================== *)
(** * When the collator returns *)




